(** * Pi Presents (GTK port): the mpv playback driver and the event dispatcher

    A shallow embedding of [pp_mpvdriver.py] (class [MPVDriver]) and of the
    dispatching part of [pipresents.py] (class [PiPresents]), together with the
    pieces of [pp_utils.py] ([Monitor]) the two rely on.

    Python objects become records, attributes keep their names, and methods
    become computations in a state-and-exception monad in which a raised
    exception keeps the mutations made before it, as in Python.  Everything
    outside the three source files (the mpv engine, GLib's main loop, the show
    manager and the other collaborators) is either an explicit part of the
    modelled world or a variable of the enclosing section. *)

From Stdlib Require Import String Ascii List ZArith Bool Lia.
From Stdlib Require Import PrimFloat.
Import ListNotations.
Open Scope string_scope.
#[local] Set Warnings "-inexact-float".

(* ===================================================================== *)
(** * Python runtime: exceptions, attributes, the method monad            *)
(* ===================================================================== *)

Module Py.

(** The exceptions the modelled code can raise.  [sys.exit(n)] raises
    [SystemExit n]. *)
Inductive Exn : Type :=
| AttributeError (name : string)
| TypeError
| ValueError
| IndexError
| UnboundLocalError (name : string)
| SystemExit (code : Z).

(** An instance attribute that [__init__] does not create: reading it before
    its first assignment raises [AttributeError]. *)
Inductive attr (A : Type) : Type :=
| Unset
| Val (a : A).
Arguments Unset {A}.
Arguments Val {A} a.

(** The outcome of a method call on a world of type [S]: a returned value, or an
    exception; both carry the world as the call left it. *)
Inductive Result (S A : Type) : Type :=
| Ok (a : A) (s : S)
| Raise (e : Exn) (s : S).
Arguments Ok {S A} a s.
Arguments Raise {S A} e s.

Definition M (S A : Type) : Type := S -> Result S A.

Definition ret {S A} (a : A) : M S A := fun s => Ok a s.

Definition bind {S A B} (c : M S A) (k : A -> M S B) : M S B :=
  fun s => match c s with
           | Ok a s' => k a s'
           | Raise e s' => Raise e s'
           end.

Definition raise {S A} (e : Exn) : M S A := fun s => Raise e s.

Definition gets {S A} (f : S -> A) : M S A := fun s => Ok (f s) s.

Definition modify {S} (f : S -> S) : M S unit := fun s => Ok tt (f s).

Definition getattr {S A} (name : string) (f : S -> attr A) : M S A :=
  fun s => match f s with
           | Val a => Ok a s
           | Unset => Raise (AttributeError name) s
           end.

(** The world a call leaves behind, whichever way it ended. *)
Definition world_of {S A} (r : Result S A) : S :=
  match r with Ok _ s => s | Raise _ s => s end.

Definition returned {S A} (r : Result S A) : option A :=
  match r with Ok a _ => Some a | Raise _ _ => None end.

(** A relation between the world before a call and the world after it that
    the call keeps, however it ends. *)
Definition keeps {S A} (R : S -> S -> Prop) (c : M S A) : Prop :=
  forall s, R s (world_of (c s)).

Module Notations.
Declare Scope py_scope.
Delimit Scope py_scope with py.
Notation "x <- c ;; k" := (bind c (fun x => k))
  (at level 61, c at next level, right associativity) : py_scope.
Notation "c ;; k" := (bind c (fun _ => k))
  (at level 61, right associativity) : py_scope.
End Notations.

End Py.

(* ===================================================================== *)
(** * GLib timeout sources                                                *)
(* ===================================================================== *)

(** [GLib.timeout_add] hands out fresh source ids; [GLib.source_remove]
    de-registers one.  The main loop keeps the set of armed sources; the model
    also keeps the list of ids that were passed to [source_remove], newest
    first, so that "cancelled at most once" can be stated. *)
Module GLib.

Section Sources.
Variable Callback : Type.

Record t : Type := mk {
  next_id : nat;
  sources : list (nat * (nat * Callback));   (* id, (interval, callback) *)
  removed : list nat
}.

Definition empty : t := {| next_id := 1; sources := []; removed := [] |}.

Definition timeout_add (interval : nat) (cb : Callback) (g : t) : nat * t :=
  (next_id g,
   {| next_id := S (next_id g);
      sources := (next_id g, (interval, cb)) :: sources g;
      removed := removed g |}).

Definition source_remove (id : nat) (g : t) : t :=
  {| next_id := next_id g;
     sources := filter (fun s => negb (Nat.eqb (fst s) id)) (sources g);
     removed := id :: removed g |}.

Definition armed (id : nat) (g : t) : bool :=
  existsb (fun s => Nat.eqb (fst s) id) (sources g).

(** The callback of an armed source. *)
Definition callback_of (id : nat) (g : t) : option Callback :=
  match find (fun s => Nat.eqb (fst s) id) (sources g) with
  | Some (_, (_, cb)) => Some cb
  | None => None
  end.

(** What the main loop does with a source whose callback returned a false
    value: the source is gone, and no [source_remove] call was made. *)
Definition drop (id : nat) (g : t) : t :=
  {| next_id := next_id g;
     sources := filter (fun s => negb (Nat.eqb (fst s) id)) (sources g);
     removed := removed g |}.
End Sources.

Arguments next_id {Callback} _.
Arguments sources {Callback} _.
Arguments removed {Callback} _.
Arguments empty {Callback}.
Arguments timeout_add {Callback} _ _ _.
Arguments source_remove {Callback} _ _.
Arguments armed {Callback} _ _.
Arguments callback_of {Callback} _ _.
Arguments drop {Callback} _ _.

End GLib.

(* ===================================================================== *)
(** * pp_mpvdriver.py: class MPVDriver                                    *)
(* ===================================================================== *)

Module MPV.
Import Py Py.Notations.
Local Open Scope py_scope.

(** The two property observers the driver registers on the engine and the two
    poll callbacks it arms on the main loop. *)
Inductive Handler : Type := load_property_change_h | show_complete_change_h.
Inductive Callback : Type := load_status_loop_cb | show_status_loop_cb.

Definition Handler_eqb (a b : Handler) : bool :=
  match a, b with
  | load_property_change_h, load_property_change_h => true
  | show_complete_change_h, show_complete_change_h => true
  | _, _ => false
  end.

(** The mpv session behind [self.player]: the properties the driver writes
    ([pause], [volume], [video], [mute], the options of [apply_options]), the
    file being played ([None] once [stop()] was issued), the registered
    property observers and the [duration] property the engine reports. *)
Record Player : Type := mkPlayer {
  p_file : option string;
  p_pause : bool;
  p_volume : Z;
  p_video : bool;
  p_mute : bool;
  p_options : list (string * string);
  p_observers : list (string * Handler);
  p_duration : option PrimFloat.float
}.

Definition set_p_file (v : option string) (p : Player) : Player :=
  {| p_file := v; p_pause := p_pause p; p_volume := p_volume p; p_video := p_video p;
     p_mute := p_mute p; p_options := p_options p; p_observers := p_observers p;
     p_duration := p_duration p |}.

Definition set_p_pause (v : bool) (p : Player) : Player :=
  {| p_file := p_file p; p_pause := v; p_volume := p_volume p; p_video := p_video p;
     p_mute := p_mute p; p_options := p_options p; p_observers := p_observers p;
     p_duration := p_duration p |}.

Definition set_p_volume (v : Z) (p : Player) : Player :=
  {| p_file := p_file p; p_pause := p_pause p; p_volume := v; p_video := p_video p;
     p_mute := p_mute p; p_options := p_options p; p_observers := p_observers p;
     p_duration := p_duration p |}.

Definition set_p_video (v : bool) (p : Player) : Player :=
  {| p_file := p_file p; p_pause := p_pause p; p_volume := p_volume p; p_video := v;
     p_mute := p_mute p; p_options := p_options p; p_observers := p_observers p;
     p_duration := p_duration p |}.

Definition set_p_mute (v : bool) (p : Player) : Player :=
  {| p_file := p_file p; p_pause := p_pause p; p_volume := p_volume p; p_video := p_video p;
     p_mute := v; p_options := p_options p; p_observers := p_observers p;
     p_duration := p_duration p |}.

Definition set_p_options (v : list (string * string)) (p : Player) : Player :=
  {| p_file := p_file p; p_pause := p_pause p; p_volume := p_volume p; p_video := p_video p;
     p_mute := p_mute p; p_options := v; p_observers := p_observers p; p_duration := p_duration p |}.

Definition set_p_observers (v : list (string * Handler)) (p : Player) : Player :=
  {| p_file := p_file p; p_pause := p_pause p; p_volume := p_volume p; p_video := p_video p;
     p_mute := p_mute p; p_options := p_options p; p_observers := v; p_duration := p_duration p |}.

Definition set_p_duration (v : option PrimFloat.float) (p : Player) : Player :=
  {| p_file := p_file p; p_pause := p_pause p; p_volume := p_volume p; p_video := p_video p;
     p_mute := p_mute p; p_options := p_options p; p_observers := p_observers p; p_duration := v |}.

(** The render widget behind [self.rend], placed on the canvas by [load]. *)
Record MyRenderer : Type := mkRenderer {
  r_visible : bool;
  r_width : option Z;
  r_height : option Z;
  r_place : option (Z * Z)
}.

Definition r_set_visible (b : bool) (r : MyRenderer) : MyRenderer :=
  {| r_visible := b; r_width := r_width r; r_height := r_height r; r_place := r_place r |}.

(** The instance attributes of [MPVDriver].  Those up to [load_status_timer]
    are created by [__init__]; the others appear on first assignment. *)
Record MPVDriver : Type := mkMPVDriver {
  freeze_at_start : string;
  freeze_at_end : string;
  background_colour : string;
  frozen_at_start : bool;
  frozen_at_end : bool;
  state : string;
  user_pause : bool;
  quit_load_signal : bool;
  quit_show_signal : bool;
  show_status_timer : option nat;
  load_status_timer : option nat;
  width : attr Z;
  height : attr Z;
  x : attr Z;
  y : attr Z;
  track : attr string;
  options : attr (list (string * string));
  load_position : attr PrimFloat.float;
  load_complete_signal : attr bool;
  has_video : attr bool;
  rend : attr MyRenderer;
  player : attr Player;
  load_timeout : attr Z;
  duration : attr (option PrimFloat.float);
  show_complete_signal : attr bool;
  show_position : attr (option PrimFloat.float)
}.

Definition set_frozen_at_start (v : bool) (d : MPVDriver) : MPVDriver :=
  {| freeze_at_start := freeze_at_start d; freeze_at_end := freeze_at_end d;
     background_colour := background_colour d; frozen_at_start := v;
     frozen_at_end := frozen_at_end d; state := state d; user_pause := user_pause d;
     quit_load_signal := quit_load_signal d; quit_show_signal := quit_show_signal d;
     show_status_timer := show_status_timer d; load_status_timer := load_status_timer d;
     width := width d; height := height d; x := x d; y := y d; track := track d;
     options := options d; load_position := load_position d;
     load_complete_signal := load_complete_signal d; has_video := has_video d; rend := rend d;
     player := player d; load_timeout := load_timeout d; duration := duration d;
     show_complete_signal := show_complete_signal d; show_position := show_position d |}.

Definition set_frozen_at_end (v : bool) (d : MPVDriver) : MPVDriver :=
  {| freeze_at_start := freeze_at_start d; freeze_at_end := freeze_at_end d;
     background_colour := background_colour d; frozen_at_start := frozen_at_start d;
     frozen_at_end := v; state := state d; user_pause := user_pause d;
     quit_load_signal := quit_load_signal d; quit_show_signal := quit_show_signal d;
     show_status_timer := show_status_timer d; load_status_timer := load_status_timer d;
     width := width d; height := height d; x := x d; y := y d; track := track d;
     options := options d; load_position := load_position d;
     load_complete_signal := load_complete_signal d; has_video := has_video d; rend := rend d;
     player := player d; load_timeout := load_timeout d; duration := duration d;
     show_complete_signal := show_complete_signal d; show_position := show_position d |}.

Definition set_state (v : string) (d : MPVDriver) : MPVDriver :=
  {| freeze_at_start := freeze_at_start d; freeze_at_end := freeze_at_end d;
     background_colour := background_colour d; frozen_at_start := frozen_at_start d;
     frozen_at_end := frozen_at_end d; state := v; user_pause := user_pause d;
     quit_load_signal := quit_load_signal d; quit_show_signal := quit_show_signal d;
     show_status_timer := show_status_timer d; load_status_timer := load_status_timer d;
     width := width d; height := height d; x := x d; y := y d; track := track d;
     options := options d; load_position := load_position d;
     load_complete_signal := load_complete_signal d; has_video := has_video d; rend := rend d;
     player := player d; load_timeout := load_timeout d; duration := duration d;
     show_complete_signal := show_complete_signal d; show_position := show_position d |}.

Definition set_user_pause (v : bool) (d : MPVDriver) : MPVDriver :=
  {| freeze_at_start := freeze_at_start d; freeze_at_end := freeze_at_end d;
     background_colour := background_colour d; frozen_at_start := frozen_at_start d;
     frozen_at_end := frozen_at_end d; state := state d; user_pause := v;
     quit_load_signal := quit_load_signal d; quit_show_signal := quit_show_signal d;
     show_status_timer := show_status_timer d; load_status_timer := load_status_timer d;
     width := width d; height := height d; x := x d; y := y d; track := track d;
     options := options d; load_position := load_position d;
     load_complete_signal := load_complete_signal d; has_video := has_video d; rend := rend d;
     player := player d; load_timeout := load_timeout d; duration := duration d;
     show_complete_signal := show_complete_signal d; show_position := show_position d |}.

Definition set_quit_load_signal (v : bool) (d : MPVDriver) : MPVDriver :=
  {| freeze_at_start := freeze_at_start d; freeze_at_end := freeze_at_end d;
     background_colour := background_colour d; frozen_at_start := frozen_at_start d;
     frozen_at_end := frozen_at_end d; state := state d; user_pause := user_pause d;
     quit_load_signal := v; quit_show_signal := quit_show_signal d;
     show_status_timer := show_status_timer d; load_status_timer := load_status_timer d;
     width := width d; height := height d; x := x d; y := y d; track := track d;
     options := options d; load_position := load_position d;
     load_complete_signal := load_complete_signal d; has_video := has_video d; rend := rend d;
     player := player d; load_timeout := load_timeout d; duration := duration d;
     show_complete_signal := show_complete_signal d; show_position := show_position d |}.

Definition set_quit_show_signal (v : bool) (d : MPVDriver) : MPVDriver :=
  {| freeze_at_start := freeze_at_start d; freeze_at_end := freeze_at_end d;
     background_colour := background_colour d; frozen_at_start := frozen_at_start d;
     frozen_at_end := frozen_at_end d; state := state d; user_pause := user_pause d;
     quit_load_signal := quit_load_signal d; quit_show_signal := v;
     show_status_timer := show_status_timer d; load_status_timer := load_status_timer d;
     width := width d; height := height d; x := x d; y := y d; track := track d;
     options := options d; load_position := load_position d;
     load_complete_signal := load_complete_signal d; has_video := has_video d; rend := rend d;
     player := player d; load_timeout := load_timeout d; duration := duration d;
     show_complete_signal := show_complete_signal d; show_position := show_position d |}.

Definition set_show_status_timer (v : option nat) (d : MPVDriver) : MPVDriver :=
  {| freeze_at_start := freeze_at_start d; freeze_at_end := freeze_at_end d;
     background_colour := background_colour d; frozen_at_start := frozen_at_start d;
     frozen_at_end := frozen_at_end d; state := state d; user_pause := user_pause d;
     quit_load_signal := quit_load_signal d; quit_show_signal := quit_show_signal d;
     show_status_timer := v; load_status_timer := load_status_timer d; width := width d;
     height := height d; x := x d; y := y d; track := track d; options := options d;
     load_position := load_position d; load_complete_signal := load_complete_signal d;
     has_video := has_video d; rend := rend d; player := player d;
     load_timeout := load_timeout d; duration := duration d;
     show_complete_signal := show_complete_signal d; show_position := show_position d |}.

Definition set_load_status_timer (v : option nat) (d : MPVDriver) : MPVDriver :=
  {| freeze_at_start := freeze_at_start d; freeze_at_end := freeze_at_end d;
     background_colour := background_colour d; frozen_at_start := frozen_at_start d;
     frozen_at_end := frozen_at_end d; state := state d; user_pause := user_pause d;
     quit_load_signal := quit_load_signal d; quit_show_signal := quit_show_signal d;
     show_status_timer := show_status_timer d; load_status_timer := v; width := width d;
     height := height d; x := x d; y := y d; track := track d; options := options d;
     load_position := load_position d; load_complete_signal := load_complete_signal d;
     has_video := has_video d; rend := rend d; player := player d;
     load_timeout := load_timeout d; duration := duration d;
     show_complete_signal := show_complete_signal d; show_position := show_position d |}.

Definition set_width (v : attr Z) (d : MPVDriver) : MPVDriver :=
  {| freeze_at_start := freeze_at_start d; freeze_at_end := freeze_at_end d;
     background_colour := background_colour d; frozen_at_start := frozen_at_start d;
     frozen_at_end := frozen_at_end d; state := state d; user_pause := user_pause d;
     quit_load_signal := quit_load_signal d; quit_show_signal := quit_show_signal d;
     show_status_timer := show_status_timer d; load_status_timer := load_status_timer d;
     width := v; height := height d; x := x d; y := y d; track := track d; options := options d;
     load_position := load_position d; load_complete_signal := load_complete_signal d;
     has_video := has_video d; rend := rend d; player := player d;
     load_timeout := load_timeout d; duration := duration d;
     show_complete_signal := show_complete_signal d; show_position := show_position d |}.

Definition set_height (v : attr Z) (d : MPVDriver) : MPVDriver :=
  {| freeze_at_start := freeze_at_start d; freeze_at_end := freeze_at_end d;
     background_colour := background_colour d; frozen_at_start := frozen_at_start d;
     frozen_at_end := frozen_at_end d; state := state d; user_pause := user_pause d;
     quit_load_signal := quit_load_signal d; quit_show_signal := quit_show_signal d;
     show_status_timer := show_status_timer d; load_status_timer := load_status_timer d;
     width := width d; height := v; x := x d; y := y d; track := track d; options := options d;
     load_position := load_position d; load_complete_signal := load_complete_signal d;
     has_video := has_video d; rend := rend d; player := player d;
     load_timeout := load_timeout d; duration := duration d;
     show_complete_signal := show_complete_signal d; show_position := show_position d |}.

Definition set_x (v : attr Z) (d : MPVDriver) : MPVDriver :=
  {| freeze_at_start := freeze_at_start d; freeze_at_end := freeze_at_end d;
     background_colour := background_colour d; frozen_at_start := frozen_at_start d;
     frozen_at_end := frozen_at_end d; state := state d; user_pause := user_pause d;
     quit_load_signal := quit_load_signal d; quit_show_signal := quit_show_signal d;
     show_status_timer := show_status_timer d; load_status_timer := load_status_timer d;
     width := width d; height := height d; x := v; y := y d; track := track d;
     options := options d; load_position := load_position d;
     load_complete_signal := load_complete_signal d; has_video := has_video d; rend := rend d;
     player := player d; load_timeout := load_timeout d; duration := duration d;
     show_complete_signal := show_complete_signal d; show_position := show_position d |}.

Definition set_y (v : attr Z) (d : MPVDriver) : MPVDriver :=
  {| freeze_at_start := freeze_at_start d; freeze_at_end := freeze_at_end d;
     background_colour := background_colour d; frozen_at_start := frozen_at_start d;
     frozen_at_end := frozen_at_end d; state := state d; user_pause := user_pause d;
     quit_load_signal := quit_load_signal d; quit_show_signal := quit_show_signal d;
     show_status_timer := show_status_timer d; load_status_timer := load_status_timer d;
     width := width d; height := height d; x := x d; y := v; track := track d;
     options := options d; load_position := load_position d;
     load_complete_signal := load_complete_signal d; has_video := has_video d; rend := rend d;
     player := player d; load_timeout := load_timeout d; duration := duration d;
     show_complete_signal := show_complete_signal d; show_position := show_position d |}.

Definition set_track (v : attr string) (d : MPVDriver) : MPVDriver :=
  {| freeze_at_start := freeze_at_start d; freeze_at_end := freeze_at_end d;
     background_colour := background_colour d; frozen_at_start := frozen_at_start d;
     frozen_at_end := frozen_at_end d; state := state d; user_pause := user_pause d;
     quit_load_signal := quit_load_signal d; quit_show_signal := quit_show_signal d;
     show_status_timer := show_status_timer d; load_status_timer := load_status_timer d;
     width := width d; height := height d; x := x d; y := y d; track := v; options := options d;
     load_position := load_position d; load_complete_signal := load_complete_signal d;
     has_video := has_video d; rend := rend d; player := player d;
     load_timeout := load_timeout d; duration := duration d;
     show_complete_signal := show_complete_signal d; show_position := show_position d |}.

Definition set_options (v : attr (list (string * string))) (d : MPVDriver) : MPVDriver :=
  {| freeze_at_start := freeze_at_start d; freeze_at_end := freeze_at_end d;
     background_colour := background_colour d; frozen_at_start := frozen_at_start d;
     frozen_at_end := frozen_at_end d; state := state d; user_pause := user_pause d;
     quit_load_signal := quit_load_signal d; quit_show_signal := quit_show_signal d;
     show_status_timer := show_status_timer d; load_status_timer := load_status_timer d;
     width := width d; height := height d; x := x d; y := y d; track := track d; options := v;
     load_position := load_position d; load_complete_signal := load_complete_signal d;
     has_video := has_video d; rend := rend d; player := player d;
     load_timeout := load_timeout d; duration := duration d;
     show_complete_signal := show_complete_signal d; show_position := show_position d |}.

Definition set_load_position (v : attr PrimFloat.float) (d : MPVDriver) : MPVDriver :=
  {| freeze_at_start := freeze_at_start d; freeze_at_end := freeze_at_end d;
     background_colour := background_colour d; frozen_at_start := frozen_at_start d;
     frozen_at_end := frozen_at_end d; state := state d; user_pause := user_pause d;
     quit_load_signal := quit_load_signal d; quit_show_signal := quit_show_signal d;
     show_status_timer := show_status_timer d; load_status_timer := load_status_timer d;
     width := width d; height := height d; x := x d; y := y d; track := track d;
     options := options d; load_position := v; load_complete_signal := load_complete_signal d;
     has_video := has_video d; rend := rend d; player := player d;
     load_timeout := load_timeout d; duration := duration d;
     show_complete_signal := show_complete_signal d; show_position := show_position d |}.

Definition set_load_complete_signal (v : attr bool) (d : MPVDriver) : MPVDriver :=
  {| freeze_at_start := freeze_at_start d; freeze_at_end := freeze_at_end d;
     background_colour := background_colour d; frozen_at_start := frozen_at_start d;
     frozen_at_end := frozen_at_end d; state := state d; user_pause := user_pause d;
     quit_load_signal := quit_load_signal d; quit_show_signal := quit_show_signal d;
     show_status_timer := show_status_timer d; load_status_timer := load_status_timer d;
     width := width d; height := height d; x := x d; y := y d; track := track d;
     options := options d; load_position := load_position d; load_complete_signal := v;
     has_video := has_video d; rend := rend d; player := player d;
     load_timeout := load_timeout d; duration := duration d;
     show_complete_signal := show_complete_signal d; show_position := show_position d |}.

Definition set_has_video (v : attr bool) (d : MPVDriver) : MPVDriver :=
  {| freeze_at_start := freeze_at_start d; freeze_at_end := freeze_at_end d;
     background_colour := background_colour d; frozen_at_start := frozen_at_start d;
     frozen_at_end := frozen_at_end d; state := state d; user_pause := user_pause d;
     quit_load_signal := quit_load_signal d; quit_show_signal := quit_show_signal d;
     show_status_timer := show_status_timer d; load_status_timer := load_status_timer d;
     width := width d; height := height d; x := x d; y := y d; track := track d;
     options := options d; load_position := load_position d;
     load_complete_signal := load_complete_signal d; has_video := v; rend := rend d;
     player := player d; load_timeout := load_timeout d; duration := duration d;
     show_complete_signal := show_complete_signal d; show_position := show_position d |}.

Definition set_rend (v : attr MyRenderer) (d : MPVDriver) : MPVDriver :=
  {| freeze_at_start := freeze_at_start d; freeze_at_end := freeze_at_end d;
     background_colour := background_colour d; frozen_at_start := frozen_at_start d;
     frozen_at_end := frozen_at_end d; state := state d; user_pause := user_pause d;
     quit_load_signal := quit_load_signal d; quit_show_signal := quit_show_signal d;
     show_status_timer := show_status_timer d; load_status_timer := load_status_timer d;
     width := width d; height := height d; x := x d; y := y d; track := track d;
     options := options d; load_position := load_position d;
     load_complete_signal := load_complete_signal d; has_video := has_video d; rend := v;
     player := player d; load_timeout := load_timeout d; duration := duration d;
     show_complete_signal := show_complete_signal d; show_position := show_position d |}.

Definition set_player (v : attr Player) (d : MPVDriver) : MPVDriver :=
  {| freeze_at_start := freeze_at_start d; freeze_at_end := freeze_at_end d;
     background_colour := background_colour d; frozen_at_start := frozen_at_start d;
     frozen_at_end := frozen_at_end d; state := state d; user_pause := user_pause d;
     quit_load_signal := quit_load_signal d; quit_show_signal := quit_show_signal d;
     show_status_timer := show_status_timer d; load_status_timer := load_status_timer d;
     width := width d; height := height d; x := x d; y := y d; track := track d;
     options := options d; load_position := load_position d;
     load_complete_signal := load_complete_signal d; has_video := has_video d; rend := rend d;
     player := v; load_timeout := load_timeout d; duration := duration d;
     show_complete_signal := show_complete_signal d; show_position := show_position d |}.

Definition set_load_timeout (v : attr Z) (d : MPVDriver) : MPVDriver :=
  {| freeze_at_start := freeze_at_start d; freeze_at_end := freeze_at_end d;
     background_colour := background_colour d; frozen_at_start := frozen_at_start d;
     frozen_at_end := frozen_at_end d; state := state d; user_pause := user_pause d;
     quit_load_signal := quit_load_signal d; quit_show_signal := quit_show_signal d;
     show_status_timer := show_status_timer d; load_status_timer := load_status_timer d;
     width := width d; height := height d; x := x d; y := y d; track := track d;
     options := options d; load_position := load_position d;
     load_complete_signal := load_complete_signal d; has_video := has_video d; rend := rend d;
     player := player d; load_timeout := v; duration := duration d;
     show_complete_signal := show_complete_signal d; show_position := show_position d |}.

Definition set_duration (v : attr (option PrimFloat.float)) (d : MPVDriver) : MPVDriver :=
  {| freeze_at_start := freeze_at_start d; freeze_at_end := freeze_at_end d;
     background_colour := background_colour d; frozen_at_start := frozen_at_start d;
     frozen_at_end := frozen_at_end d; state := state d; user_pause := user_pause d;
     quit_load_signal := quit_load_signal d; quit_show_signal := quit_show_signal d;
     show_status_timer := show_status_timer d; load_status_timer := load_status_timer d;
     width := width d; height := height d; x := x d; y := y d; track := track d;
     options := options d; load_position := load_position d;
     load_complete_signal := load_complete_signal d; has_video := has_video d; rend := rend d;
     player := player d; load_timeout := load_timeout d; duration := v;
     show_complete_signal := show_complete_signal d; show_position := show_position d |}.

Definition set_show_complete_signal (v : attr bool) (d : MPVDriver) : MPVDriver :=
  {| freeze_at_start := freeze_at_start d; freeze_at_end := freeze_at_end d;
     background_colour := background_colour d; frozen_at_start := frozen_at_start d;
     frozen_at_end := frozen_at_end d; state := state d; user_pause := user_pause d;
     quit_load_signal := quit_load_signal d; quit_show_signal := quit_show_signal d;
     show_status_timer := show_status_timer d; load_status_timer := load_status_timer d;
     width := width d; height := height d; x := x d; y := y d; track := track d;
     options := options d; load_position := load_position d;
     load_complete_signal := load_complete_signal d; has_video := has_video d; rend := rend d;
     player := player d; load_timeout := load_timeout d; duration := duration d;
     show_complete_signal := v; show_position := show_position d |}.

Definition set_show_position (v : attr (option PrimFloat.float)) (d : MPVDriver) : MPVDriver :=
  {| freeze_at_start := freeze_at_start d; freeze_at_end := freeze_at_end d;
     background_colour := background_colour d; frozen_at_start := frozen_at_start d;
     frozen_at_end := frozen_at_end d; state := state d; user_pause := user_pause d;
     quit_load_signal := quit_load_signal d; quit_show_signal := quit_show_signal d;
     show_status_timer := show_status_timer d; load_status_timer := load_status_timer d;
     width := width d; height := height d; x := x d; y := y d; track := track d;
     options := options d; load_position := load_position d;
     load_complete_signal := load_complete_signal d; has_video := has_video d; rend := rend d;
     player := player d; load_timeout := load_timeout d; duration := duration d;
     show_complete_signal := show_complete_signal d; show_position := v |}.

(** ** The world a driver lives in *)

(** [Monitor.fatal] is the one monitor call of the driver that is more than a
    line in the log: outside manager mode it opens the "System Error" dialog
    whose OK button exits with code 102.  The world records each such report
    with the load position it quotes.  ([mon.log] and [mon.trace] only write
    text to the console and the log file and are left out.) *)
Inductive MonEvent : Type :=
| mon_fatal (position : PrimFloat.float).

Record World : Type := mkWorld {
  self : MPVDriver;
  glib : GLib.t Callback;
  monitor : list MonEvent
}.

(** The world with the driver object changed and nothing else. *)
Definition on_self (f : MPVDriver -> MPVDriver) (w : World) : World :=
  mkWorld (f (self w)) (glib w) (monitor w).

Definition upd (f : MPVDriver -> MPVDriver) : M World unit :=
  modify (on_self f).

Definition field {A} (f : MPVDriver -> A) : M World A :=
  gets (fun w => f (self w)).

Definition attribute {A} (name : string) (f : MPVDriver -> attr A) : M World A :=
  getattr name (fun w => f (self w)).

(** [self.player.<property> = value] *)
Definition player_set (f : Player -> Player) : M World unit :=
  p <- attribute "player" player ;;
  upd (set_player (Val (f p))).

(** [self.player.stop()]: playback stops and the engine goes idle. *)
Definition player_stop : M World unit := player_set (set_p_file None).

(** [self.player.observe_property(name, handler)] appends the handler. *)
Definition player_observe (name : string) (h : Handler) : M World unit :=
  player_set (fun p => set_p_observers (p_observers p ++ [(name, h)]) p).

Definition observer_eqb (a b : string * Handler) : bool :=
  String.eqb (fst a) (fst b) && Handler_eqb (snd a) (snd b).

Fixpoint remove_first (o : string * Handler) (l : list (string * Handler))
  : list (string * Handler) :=
  match l with
  | [] => []
  | o' :: l' => if observer_eqb o o' then l' else o' :: remove_first o l'
  end.

(** [self.player.unobserve_property(name, handler)] removes the first matching
    registration; python-mpv raises [ValueError] when there is none. *)
Definition player_unobserve (name : string) (h : Handler) : M World unit :=
  p <- attribute "player" player ;;
  if existsb (observer_eqb (name, h)) (p_observers p)
  then upd (set_player (Val (set_p_observers (remove_first (name, h) (p_observers p)) p)))
  else raise ValueError.

(** [self.rend.set_visible(b)] *)
Definition rend_set_visible (b : bool) : M World unit :=
  r <- attribute "rend" rend ;;
  upd (set_rend (Val (r_set_visible b r))).

(** [GLib.timeout_add(interval, callback)] *)
Definition timeout_add (interval : nat) (cb : Callback) : M World nat :=
  fun w => let '(id, g) := GLib.timeout_add interval cb (glib w) in
           Ok id (mkWorld (self w) g (monitor w)).

(** [GLib.source_remove(handle)]; the binding rejects [None] with TypeError. *)
Definition source_remove (handle : option nat) : M World unit :=
  match handle with
  | None => raise TypeError
  | Some id => modify (fun w => mkWorld (self w) (GLib.source_remove id (glib w)) (monitor w))
  end.

Section Driver.

(** What lies outside the repository: the track types MediaInfo finds in a
    file, whether the engine accepts an option, and the duration it reports
    for a file. *)
Variable MediaInfo_parse : string -> list string.
Variable mpv_accepts : string -> string -> bool.
Variable mpv_duration : string -> option PrimFloat.float.

(** The session [MyRenderer.get_player()] returns, before any option is set. *)
Definition new_player : Player :=
  {| p_file := None; p_pause := false; p_volume := 100; p_video := true; p_mute := false;
     p_options := []; p_observers := []; p_duration := None |}.

(** [MPVDriver.__init__] *)
Definition init (freeze_at_start freeze_at_end background_colour : string) : MPVDriver :=
  {| freeze_at_start := freeze_at_start; freeze_at_end := freeze_at_end;
     background_colour := background_colour;
     frozen_at_start := false; frozen_at_end := false; state := "idle";
     user_pause := false; quit_load_signal := false; quit_show_signal := false;
     show_status_timer := None; load_status_timer := None;
     width := Unset; height := Unset; x := Unset; y := Unset; track := Unset;
     options := Unset; load_position := Unset; load_complete_signal := Unset;
     has_video := Unset; rend := Unset; player := Unset; load_timeout := Unset;
     duration := Unset; show_complete_signal := Unset; show_position := Unset |}.

Definition new_world (d : MPVDriver) : World :=
  {| self := d; glib := GLib.empty; monitor := [] |}.

(** [file_has_video]: some track of the file has type "Video". *)
Definition file_has_video (path : string) : M World bool :=
  ret (existsb (String.eqb "Video") (MediaInfo_parse path)).

(** [load]: records the request, creates the render widget with the requested
    size and puts it on the canvas; the widget's [realize] signal later runs
    [on_renderer_ready]. *)
Definition load (track_ : string) (options_ : list (string * string))
    (x_ y_ width_ height_ : Z) : M World unit :=
  upd (set_width (Val width_)) ;;
  upd (set_height (Val height_)) ;;
  upd (set_x (Val x_)) ;;
  upd (set_y (Val y_)) ;;
  upd (set_track (Val track_)) ;;
  upd (set_options (Val options_)) ;;
  upd (set_state "load-loading") ;;
  upd (set_load_position (Val (-1)%float)) ;;
  upd (set_load_complete_signal (Val false)) ;;
  t <- attribute "track" track ;;
  hv <- file_has_video t ;;
  upd (set_has_video (Val hv)) ;;
  w_ <- attribute "width" width ;;
  h_ <- attribute "height" height ;;
  upd (set_rend (Val {| r_visible := true; r_width := Some w_; r_height := Some h_;
                        r_place := Some (x_, y_) |})).

(** [apply_options]: options are applied one by one; the first one the engine
    refuses ends the loop with an error and the earlier ones stay applied.  The
    bare [except] also swallows the AttributeError of a missing player. *)
Fixpoint apply_options (opts : list (string * string)) : M World (string * string) :=
  match opts with
  | [] => ret ("normal", "")
  | (k, v) :: rest =>
      fun w =>
        match player (self w) with
        | Val p =>
            if mpv_accepts k v
            then (upd (set_player (Val (set_p_options (p_options p ++ [(k, v)]) p))) ;;
                  apply_options rest) w
            else Ok ("error", "bad MPV option: " ++ k ++ " " ++ v) w
        | Unset => Ok ("error", "bad MPV option: " ++ k ++ " " ++ v) w
        end
  end.

(** [set_volume] *)
Definition set_volume (volume : Z) : M World unit :=
  player_set (set_p_volume volume).

(** [on_renderer_ready]: [p] is the session [self.rend.get_player()] returns. *)
Definition on_renderer_ready (p : Player) : M World unit :=
  _ <- attribute "rend" rend ;;
  upd (set_player (Val p)) ;;
  opts <- attribute "options" options ;;
  _ <- apply_options opts ;;
  rend_set_visible false ;;
  t <- attribute "track" track ;;
  player_set (fun p => set_p_duration (mpv_duration t) (set_p_file (Some t) p)) ;;
  player_observe "time-pos" load_property_change_h ;;
  player_set (set_p_volume 0) ;;
  upd (set_load_timeout (Val 500%Z)) ;;
  id <- timeout_add 1 load_status_loop_cb ;;
  upd (set_load_status_timer (Some id)).

(** [load_property_change]: the first valid position ends the load. *)
Definition load_property_change (name : string) (value : option PrimFloat.float)
  : M World unit :=
  match value with
  | Some v =>
      if String.eqb name "time-pos" && PrimFloat.leb 0%float v
      then
        rend_set_visible false ;;
        player_set (set_p_pause true) ;;
        player_unobserve "time-pos" load_property_change_h ;;
        upd (set_load_complete_signal (Val true)) ;;
        upd (set_load_position (Val v))
      else ret tt
  | None => ret tt
  end.

(** [load_status_loop]: one tick of the load poll. *)
Definition load_status_loop : M World unit :=
  h <- field load_status_timer ;;
  source_remove h ;;
  upd (set_load_status_timer None) ;;
  q <- field quit_load_signal ;;
  if q then
    upd (set_quit_load_signal false) ;;
    player_stop ;;
    upd (set_state "load-unloaded")
  else
    c <- attribute "load_complete_signal" load_complete_signal ;;
    if c then
      upd (set_load_complete_signal (Val false)) ;;
      p <- attribute "player" player ;;
      upd (set_duration (Val (p_duration p))) ;;
      upd (set_frozen_at_start true) ;;
      fas <- field freeze_at_start ;;
      (if String.eqb fas "before-first-frame" || String.eqb fas "after-first-frame"
       then upd (set_state "load-frozen")
       else upd (set_state "load-ok")) ;;
      (if String.eqb fas "after-first-frame" then rend_set_visible true else ret tt)
    else
      t <- attribute "load_timeout" load_timeout ;;
      upd (set_load_timeout (Val (t - 1)%Z)) ;;
      t' <- attribute "load_timeout" load_timeout ;;
      if (t' <=? 0)%Z then
        pos <- attribute "load_position" load_position ;;
        modify (fun w => mkWorld (self w) (glib w) (mon_fatal pos :: monitor w)) ;;
        upd (set_state "load-fail")
      else
        id <- timeout_add 10 load_status_loop_cb ;;
        upd (set_load_status_timer (Some id)).
(** [show]: only a driver built with [freeze_at_start == 'no'] starts here. *)
Definition show (initial_volume : Z) : M World unit :=
  fas <- field freeze_at_start ;;
  if String.eqb fas "no" then
    upd (set_state "show-showing") ;;
    player_set (set_p_pause false) ;;
    hv <- attribute "has_video" has_video ;;
    (if hv then rend_set_visible true else ret tt) ;;
    set_volume initial_volume ;;
    upd (set_show_complete_signal (Val false)) ;;
    player_observe "time-pos" show_complete_change_h ;;
    upd (set_frozen_at_start false) ;;
    id <- timeout_add 1 show_status_loop_cb ;;
    upd (set_show_status_timer (Some id))
  else ret tt.

(** The test of the [freeze_at_end == 'yes'] branch of [show_complete_change]:
    [(name=='time-pos' and value is None) or
     (name=='time-pos' and value > self.duration-0.12)].
    [self.duration] is read only when the first disjunct fails and the name
    matches, so only then can it raise. *)
Definition near_end (name : string) (value : option PrimFloat.float) : M World bool :=
  if String.eqb name "time-pos" then
    match value with
    | None => ret true
    | Some v =>
        d <- attribute "duration" duration ;;
        match d with
        | None => raise TypeError
        | Some dur => ret (PrimFloat.ltb (dur - 0.12)%float v)
        end
    end
  else ret false.

(** [show_complete_change]: the engine's position callback while showing. *)
Definition show_complete_change (name : string) (value : option PrimFloat.float)
  : M World unit :=
  upd (set_show_position (Val (Some (-1)%float))) ;;
  fae <- field freeze_at_end ;;
  if String.eqb fae "yes" then
    c <- near_end name value ;;
    if c then
      upd (set_show_complete_signal (Val true)) ;;
      set_volume 0 ;;
      player_unobserve "time-pos" show_complete_change_h ;;
      upd (set_show_position (Val value))
    else ret tt
  else
    match value with
    | None =>
        if String.eqb name "time-pos" then
          upd (set_show_complete_signal (Val true)) ;;
          set_volume 0 ;;
          upd (set_show_position (Val value)) ;;
          player_unobserve "time-pos" show_complete_change_h
        else ret tt
    | Some _ => ret tt
    end.

(** [show_status_loop]: one tick of the show poll. *)
Definition show_status_loop : M World unit :=
  h <- field show_status_timer ;;
  (match h with
   | Some _ => source_remove h ;; upd (set_show_status_timer None)
   | None => ret tt
   end) ;;
  q <- field quit_show_signal ;;
  if q then
    upd (set_quit_show_signal false) ;;
    fae <- field freeze_at_end ;;
    if String.eqb fae "yes" then
      upd (set_frozen_at_end true) ;;
      player_set (set_p_pause true) ;;
      upd (set_state "show-pauseatend")
    else
      player_stop ;;
      upd (set_state "show-niceday")
  else
    c <- attribute "show_complete_signal" show_complete_signal ;;
    if c then
      upd (set_show_complete_signal (Val false)) ;;
      fae <- field freeze_at_end ;;
      if String.eqb fae "yes" then
        player_set (set_p_pause true) ;;
        upd (set_frozen_at_end true) ;;
        upd (set_state "show-pauseatend")
      else
        upd (set_state "show-niceday") ;;
        upd (set_frozen_at_end false) ;;
        player_set (set_p_video false) ;;
        rend_set_visible false ;;
        player_stop
    else
      id <- timeout_add 30 show_status_loop_cb ;;
      upd (set_show_status_timer (Some id)).

(** [close]: the engine is stopped and hidden (it is neither terminated nor
    taken off the canvas: both calls are commented out in the source), then
    each poll timer that is still set is de-registered and forgotten. *)
Definition close : M World unit :=
  player_set (set_p_video false) ;;
  player_stop ;;
  rend_set_visible false ;;
  lt <- field load_status_timer ;;
  (match lt with
   | Some _ => source_remove lt ;; upd (set_load_status_timer None)
   | None => ret tt
   end) ;;
  st <- field show_status_timer ;;
  match st with
  | Some _ => source_remove st ;; upd (set_show_status_timer None)
  | None => ret tt
  end.

(** ** Commands *)

Definition get_state : M World string := field state.

(** [go] *)
Definition go (initial_volume : Z) : M World string :=
  f <- field frozen_at_start ;;
  if f then
    upd (set_state "show-showing") ;;
    player_set (set_p_pause false) ;;
    rend_set_visible true ;;
    set_volume initial_volume ;;
    upd (set_show_complete_signal (Val false)) ;;
    player_observe "time-pos" show_complete_change_h ;;
    id <- timeout_add 1 show_status_loop_cb ;;
    upd (set_show_status_timer (Some id)) ;;
    upd (set_frozen_at_start false) ;;
    ret "go-ok"
  else ret "go-reject".

(** The guard shared by [pause], [pause_on] and [pause_off]. *)
Definition can_pause (d : MPVDriver) : bool :=
  String.eqb (state d) "show-showing" && negb (frozen_at_end d) && negb (frozen_at_start d).

(** [pause] *)
Definition pause : M World string :=
  ok <- field can_pause ;;
  if ok then
    up <- field user_pause ;;
    if up then
      player_set (set_p_pause false) ;;
      upd (set_user_pause false) ;;
      ret "pause-off-ok"
    else
      upd (set_user_pause true) ;;
      player_set (set_p_pause true) ;;
      ret "pause-on-ok"
  else ret "pause-reject".

(** [pause_on] *)
Definition pause_on : M World string :=
  ok <- field can_pause ;;
  if ok then
    upd (set_user_pause true) ;;
    player_set (set_p_pause true) ;;
    ret "pause-on-ok"
  else ret "pause-on-reject".

(** [pause_off] *)
Definition pause_off : M World string :=
  ok <- field can_pause ;;
  if ok then
    player_set (set_p_pause false) ;;
    upd (set_user_pause false) ;;
    ret "pause-off-ok"
  else ret "pause-off-reject".

(** [stop] *)
Definition stop : M World unit :=
  f <- field frozen_at_start ;;
  if f then
    player_stop ;;
    upd (set_state "show-niceday")
  else
    upd (set_quit_show_signal true).

(** [unload] *)
Definition unload : M World unit :=
  s <- field state ;;
  if String.eqb s "load-loading"
  then upd (set_quit_load_signal true)
  else upd (set_state "load-unloaded").

Definition mute : M World unit := player_set (set_p_mute true).
Definition unmute : M World unit := player_set (set_p_mute false).

(** ** Worlds named in the statements below *)

(** What an accepted [go] leaves: the state is
    'show-showing', the engine runs at the requested volume with the position
    observer added, the widget is visible, the freeze is released and a
    one-tick show poll is armed. *)
Definition started_showing (initial_volume : Z) (p : Player) (r : MyRenderer) (w : World)
  : World :=
  {| self :=
       set_frozen_at_start false
         (set_show_status_timer (Some (GLib.next_id (glib w)))
            (set_show_complete_signal (Val false)
               (set_rend (Val (r_set_visible true r))
                  (set_player
                     (Val (set_p_observers
                             (p_observers p ++ [("time-pos", show_complete_change_h)])
                             (set_p_volume initial_volume (set_p_pause false p))))
                     (set_state "show-showing" (self w))))));
     glib := snd (GLib.timeout_add 1 show_status_loop_cb (glib w));
     monitor := monitor w |}.

(** The handles [close] passes to [GLib.source_remove], newest first. *)
Definition handle_list (h : option nat) : list nat :=
  match h with Some id => [id] | None => [] end.

(** The world after the show poll de-registered its own timer, if set. *)
Definition show_timer_cancelled (w : World) : World :=
  match show_status_timer (self w) with
  | Some id => mkWorld (set_show_status_timer None (self w))
                       (GLib.source_remove id (glib w)) (monitor w)
  | None => w
  end.

(** The test [show_complete_change] applies to an observed 'time-pos' value
    when [freeze_at_end == 'yes'] and the duration is [dur]. *)
Definition at_end (dur : PrimFloat.float) (value : option PrimFloat.float) : bool :=
  match value with
  | None => true
  | Some v => PrimFloat.ltb (dur - 0.12)%float v
  end.

(** ** Call sequences

    Everything that can happen to a driver: the methods its owner calls, and
    the callbacks delivered to it.  GTK realises the widget, which runs
    [on_renderer_ready]; the engine reports a property to a handler that is
    registered for it; the main loop fires a timeout source that is armed,
    and drops the source afterwards because the callback returns [None].  A
    callback that is not registered or armed is not delivered.  An exception
    leaves the object as it was when it was raised, and the next call finds it
    so. *)
Inductive Call : Type :=
| c_load (track_ : string) (options_ : list (string * string)) (x_ y_ width_ height_ : Z)
| c_show (initial_volume : Z)
| c_close
| c_go (initial_volume : Z)
| c_pause
| c_pause_on
| c_pause_off
| c_stop
| c_unload
| c_mute
| c_unmute
| c_realize (p : Player)
| c_observed (h : Handler) (name : string) (value : option PrimFloat.float)
| c_timeout (id : nat).

Definition handler (h : Handler) : string -> option PrimFloat.float -> M World unit :=
  match h with
  | load_property_change_h => load_property_change
  | show_complete_change_h => show_complete_change
  end.

Definition callback (cb : Callback) : M World unit :=
  match cb with
  | load_status_loop_cb => load_status_loop
  | show_status_loop_cb => show_status_loop
  end.

Definition registered (name : string) (h : Handler) (w : World) : bool :=
  match player (self w) with
  | Val p => existsb (observer_eqb (name, h)) (p_observers p)
  | Unset => false
  end.

Definition perform (c : Call) (w : World) : World :=
  match c with
  | c_load t o x_ y_ w_ h_ => world_of (load t o x_ y_ w_ h_ w)
  | c_show v => world_of (show v w)
  | c_close => world_of (close w)
  | c_go v => world_of (go v w)
  | c_pause => world_of (pause w)
  | c_pause_on => world_of (pause_on w)
  | c_pause_off => world_of (pause_off w)
  | c_stop => world_of (stop w)
  | c_unload => world_of (unload w)
  | c_mute => world_of (mute w)
  | c_unmute => world_of (unmute w)
  | c_realize p => world_of (on_renderer_ready p w)
  | c_observed h n v =>
      if registered n h w then world_of (handler h n v w) else w
  | c_timeout id =>
      match GLib.callback_of id (glib w) with
      | Some cb =>
          let w' := world_of (callback cb w) in
          mkWorld (self w') (GLib.drop id (glib w')) (monitor w')
      | None => w
      end
  end.

Definition run (cs : list Call) (w : World) : World :=
  fold_left (fun w c => perform c w) cs w.

(** A world some call sequence produces from a freshly constructed driver. *)
Definition reachable (w : World) : Prop :=
  exists fas fae bg cs, w = run cs (new_world (init fas fae bg)).

End Driver.

(** ** The timer discipline

    What every call keeps true of a driver's poll timers: without an engine
    there is no timer and nothing armed; the engine exists only once the
    widget does; no source id was ever passed to [GLib.source_remove] twice;
    and a handle the driver still holds is fresh: never removed, distinct from
    the other handle. *)
Record timers_ok (w : World) : Prop := {
  no_engine_no_timer :
    player (self w) = Unset ->
    load_status_timer (self w) = None /\ show_status_timer (self w) = None
    /\ GLib.sources (glib w) = [];
  no_widget_no_engine : rend (self w) = Unset -> player (self w) = Unset;
  removed_once : NoDup (GLib.removed (glib w));
  removed_old : forall id, In id (GLib.removed (glib w)) -> id < GLib.next_id (glib w);
  load_timer_live :
    forall id, load_status_timer (self w) = Some id ->
               ~ In id (GLib.removed (glib w)) /\ id < GLib.next_id (glib w);
  show_timer_live :
    forall id, show_status_timer (self w) = Some id ->
               ~ In id (GLib.removed (glib w)) /\ id < GLib.next_id (glib w);
  timers_distinct :
    forall a b, load_status_timer (self w) = Some a ->
                show_status_timer (self w) = Some b -> a <> b
}.

(** ** A concrete engine, for running scenarios *)

(** Every file holds one video track of two seconds and every option is
    accepted. *)
Definition demo_parse (path : string) : list string := ["Video"].
Definition demo_accepts (k v : string) : bool := true.
Definition demo_duration (path : string) : option PrimFloat.float := Some 2%float.

Definition demo_run : list Call -> World -> World :=
  run demo_parse demo_accepts demo_duration.

(** The calls that take a driver from construction to a completed load. *)
Definition load_calls : list Call :=
  [ c_load "/home/pp/pp_home/media/suits-short.mkv" [("vo", "gpu"); ("sid", "auto")]
           100 100 1820 980;
    c_realize new_player;
    c_observed load_property_change_h "time-pos" (Some 0%float);
    c_timeout 1 ].

(** [MPVDriver(root,canvas,'no','no','green')] after its load completed, as
    [PP.load_first] of the module's own test harness sets it up. *)
Definition loaded_no_freeze : World :=
  demo_run load_calls (new_world (init "no" "no" "green")).

(** [MPVDriver(root,canvas,'no','yes','white')] after its load completed and
    [show(100)] was called, as [PP.load_second] and [PP.show_second] do. *)
Definition showing_freeze_at_end : World :=
  demo_run (load_calls ++ [c_show 100]) (new_world (init "no" "yes" "white")).

(** The showing driver of the scenario with a stop requested and the end of
    the stream observed before the next tick. *)
Definition stop_and_end_in_one_tick : World :=
  demo_run [c_stop; c_observed show_complete_change_h "time-pos" None] showing_freeze_at_end.

End MPV.

(* ===================================================================== *)
(** * pipresents.py: class PiPresents, the event and command dispatcher   *)
(* ===================================================================== *)

Module Dispatcher.
Import Py Py.Notations.
Local Open Scope py_scope.

(** ** The string methods the dispatcher uses

    A character is a code point below 256, and the tests are Python's on that
    range: the whitespace of [str.strip] and [str.split] is tab to carriage
    return, the four separators 28 to 31, the space, NEL (133) and the
    no-break space (160); [str.isdigit] accepts the ten decimal digits and the
    superscripts two, three and one (178, 179, 185). *)

Definition is_space (c : ascii) : bool :=
  let n := nat_of_ascii c in
  ((9 <=? n) && (n <=? 13) || (28 <=? n) && (n <=? 32) || (n =? 133) || (n =? 160))%nat.

(** [s.strip() == ""] *)
Fixpoint blank (s : string) : bool :=
  match s with
  | EmptyString => true
  | String c s' => is_space c && blank s'
  end.

(** [s.split()], with [cur] the token being read. *)
Fixpoint split_from (s : string) (cur : option string) : list string :=
  match s with
  | EmptyString => match cur with Some t => [t] | None => [] end
  | String c s' =>
      if is_space c
      then match cur with
           | Some t => t :: split_from s' None
           | None => split_from s' None
           end
      else split_from s' (Some (match cur with
                                | Some t => t ++ String c EmptyString
                                | None => String c EmptyString
                                end))
  end.

Definition split (s : string) : list string := split_from s None.

(** [sep.join(l)] *)
Definition join (sep : string) (l : list string) : string := String.concat sep l.

Definition is_digit (c : ascii) : bool :=
  let n := nat_of_ascii c in
  ((48 <=? n) && (n <=? 57) || (n =? 178) || (n =? 179) || (n =? 185))%nat.

Fixpoint all_digits (s : string) : bool :=
  match s with
  | EmptyString => true
  | String c s' => is_digit c && all_digits s'
  end.

(** [s.isdigit()] *)
Definition isdigit (s : string) : bool :=
  match s with
  | EmptyString => false
  | _ => all_digits s
  end.

Definition newline : string := String (ascii_of_nat 10) EmptyString.
Definition dquote : string := String (ascii_of_nat 34) EmptyString.

(** [x in (a, b, ...)] on strings *)
Definition mem (x : string) (l : list string) : bool := existsb (String.eqb x) l.

(** ** The show registry *)

(** Modelled from the spec: an element of [ShowManager.shows], which
    [pp_showmanager.py] (not among the sources) builds.  The dispatcher reads
    two positions of it, [show[ShowManager.SHOW_REF]] and
    [show[ShowManager.SHOW_OBJ]]; the specification's ShowEntry has the same
    two, "reference: identifier" and "object: optional running-show handle",
    the object being None until the show is opened and after it has exited.
    Running shows are told apart by a number. *)
Record ShowEntry : Type := mkShowEntry {
  show_ref : string;
  show_obj : option nat
}.

(** ** What the dispatcher does to the outside

    Calls on collaborators and on the operating system, in the order made.
    [mon.log], [mon.sched], [mon.warn] and the [print]s only write text and
    are left out; [MonErr] records a call of [Monitor.err], and [Dialog] the
    modal dialog that call opens outside manager mode, whose OK button exits
    the process with the code [finish]. *)
Inductive Event : Type :=
| MonErr (text : string)
| Dialog (title text : string) (finish : Z)
| ShowInput (ref : string) (obj : nat) (symbol : string)
| ShowTerminate (ref : string) (obj : nat)
| ExitAllShows
| ControlAShow (ref command : string)
| OscCommand (fields : list string)
| CounterCommand (fields : list string)
| Beep (command_text : string)
| Vibe (command_text : string)
| Backlight (command_text : string)
| MonitorCommand (fields : list string)
| OsSystem (com : string)
| OutputEvent (symbol param_type : string) (param_values : list string) (req_time : Z)
| StyleBackground (display : string)
| DmTerminate
| AnimateTerminate
| IoPluginTerminate
| OscTerminate
| TodTerminate
| SendEmail (reason : string)
| MonFinish
| GcCollect
| LeakGraphs
| AppQuit
| SubprocessCall (args : list string).

Definition is_show_input (e : Event) : bool :=
  match e with ShowInput _ _ _ => true | _ => false end.

(** The callbacks the dispatcher arms on the main loop. *)
Inductive Callback : Type :=
| shutdownnow_pressed_cb
| reboot_pressed_cb
| e_all_shows_ended_callback_cb
| osc_handle_animate_cb (line : string).

(** The attributes of [PiPresents] the dispatcher reads, on a dispatcher on
    which [on_activate] has created all of them: the optional collaborators
    and their flags at lines 168 to 173, the intents at lines 311 to 315, the
    show manager, the last of them, at line 370.  The handlers of commands and
    input events are handed to their callers after that.  What [end] does
    while some attribute is still missing is the subject of [Startup].  An
    optional collaborator ([dm], [animate], [ioplugin_manager]) is
    represented by whether it is not None; [options_vibes] is
    [self.options['vibes']], [monitor_manager] is the class attribute
    [Monitor.manager], [email_on_terminate] and [email_on_error] are the
    mailer's, [start_show] is [self.starter_show['start-show']] and [shows]
    is [self.show_manager.shows]. *)
Record PiPresents : Type := mkPiPresents {
  in_error_exit : bool;
  options_vibes : bool;
  monitor_manager : bool;
  dm : bool;
  animate : bool;
  ioplugin_manager : bool;
  osc_enabled : bool;
  tod_enabled : bool;
  email_enabled : bool;
  email_on_terminate : bool;
  email_on_error : bool;
  start_show : string;
  shutdown_required : bool;
  reboot_required : bool;
  terminate_required : bool;
  exitpipresents_required : bool;
  restartpipresents_required : bool;
  shows : list ShowEntry;
  handle_timer : attr nat;
  shutdownnow_pressed_timer : attr nat;
  reboot_pressed_timer : attr nat;
  e_all_shows_ended_callback_timer : attr nat
}.

Definition set_shutdown_required (v : bool) (d : PiPresents) : PiPresents :=
  {| in_error_exit := in_error_exit d; options_vibes := options_vibes d;
     monitor_manager := monitor_manager d; dm := dm d; animate := animate d;
     ioplugin_manager := ioplugin_manager d; osc_enabled := osc_enabled d;
     tod_enabled := tod_enabled d; email_enabled := email_enabled d;
     email_on_terminate := email_on_terminate d; email_on_error := email_on_error d;
     start_show := start_show d; shutdown_required := v; reboot_required := reboot_required d;
     terminate_required := terminate_required d;
     exitpipresents_required := exitpipresents_required d;
     restartpipresents_required := restartpipresents_required d; shows := shows d;
     handle_timer := handle_timer d; shutdownnow_pressed_timer := shutdownnow_pressed_timer d;
     reboot_pressed_timer := reboot_pressed_timer d;
     e_all_shows_ended_callback_timer := e_all_shows_ended_callback_timer d |}.

Definition set_reboot_required (v : bool) (d : PiPresents) : PiPresents :=
  {| in_error_exit := in_error_exit d; options_vibes := options_vibes d;
     monitor_manager := monitor_manager d; dm := dm d; animate := animate d;
     ioplugin_manager := ioplugin_manager d; osc_enabled := osc_enabled d;
     tod_enabled := tod_enabled d; email_enabled := email_enabled d;
     email_on_terminate := email_on_terminate d; email_on_error := email_on_error d;
     start_show := start_show d; shutdown_required := shutdown_required d; reboot_required := v;
     terminate_required := terminate_required d;
     exitpipresents_required := exitpipresents_required d;
     restartpipresents_required := restartpipresents_required d; shows := shows d;
     handle_timer := handle_timer d; shutdownnow_pressed_timer := shutdownnow_pressed_timer d;
     reboot_pressed_timer := reboot_pressed_timer d;
     e_all_shows_ended_callback_timer := e_all_shows_ended_callback_timer d |}.

Definition set_terminate_required (v : bool) (d : PiPresents) : PiPresents :=
  {| in_error_exit := in_error_exit d; options_vibes := options_vibes d;
     monitor_manager := monitor_manager d; dm := dm d; animate := animate d;
     ioplugin_manager := ioplugin_manager d; osc_enabled := osc_enabled d;
     tod_enabled := tod_enabled d; email_enabled := email_enabled d;
     email_on_terminate := email_on_terminate d; email_on_error := email_on_error d;
     start_show := start_show d; shutdown_required := shutdown_required d;
     reboot_required := reboot_required d; terminate_required := v;
     exitpipresents_required := exitpipresents_required d;
     restartpipresents_required := restartpipresents_required d; shows := shows d;
     handle_timer := handle_timer d; shutdownnow_pressed_timer := shutdownnow_pressed_timer d;
     reboot_pressed_timer := reboot_pressed_timer d;
     e_all_shows_ended_callback_timer := e_all_shows_ended_callback_timer d |}.

Definition set_exitpipresents_required (v : bool) (d : PiPresents) : PiPresents :=
  {| in_error_exit := in_error_exit d; options_vibes := options_vibes d;
     monitor_manager := monitor_manager d; dm := dm d; animate := animate d;
     ioplugin_manager := ioplugin_manager d; osc_enabled := osc_enabled d;
     tod_enabled := tod_enabled d; email_enabled := email_enabled d;
     email_on_terminate := email_on_terminate d; email_on_error := email_on_error d;
     start_show := start_show d; shutdown_required := shutdown_required d;
     reboot_required := reboot_required d; terminate_required := terminate_required d;
     exitpipresents_required := v; restartpipresents_required := restartpipresents_required d;
     shows := shows d; handle_timer := handle_timer d;
     shutdownnow_pressed_timer := shutdownnow_pressed_timer d;
     reboot_pressed_timer := reboot_pressed_timer d;
     e_all_shows_ended_callback_timer := e_all_shows_ended_callback_timer d |}.

Definition set_restartpipresents_required (v : bool) (d : PiPresents) : PiPresents :=
  {| in_error_exit := in_error_exit d; options_vibes := options_vibes d;
     monitor_manager := monitor_manager d; dm := dm d; animate := animate d;
     ioplugin_manager := ioplugin_manager d; osc_enabled := osc_enabled d;
     tod_enabled := tod_enabled d; email_enabled := email_enabled d;
     email_on_terminate := email_on_terminate d; email_on_error := email_on_error d;
     start_show := start_show d; shutdown_required := shutdown_required d;
     reboot_required := reboot_required d; terminate_required := terminate_required d;
     exitpipresents_required := exitpipresents_required d; restartpipresents_required := v;
     shows := shows d; handle_timer := handle_timer d;
     shutdownnow_pressed_timer := shutdownnow_pressed_timer d;
     reboot_pressed_timer := reboot_pressed_timer d;
     e_all_shows_ended_callback_timer := e_all_shows_ended_callback_timer d |}.

Definition set_shows (v : list ShowEntry) (d : PiPresents) : PiPresents :=
  {| in_error_exit := in_error_exit d; options_vibes := options_vibes d;
     monitor_manager := monitor_manager d; dm := dm d; animate := animate d;
     ioplugin_manager := ioplugin_manager d; osc_enabled := osc_enabled d;
     tod_enabled := tod_enabled d; email_enabled := email_enabled d;
     email_on_terminate := email_on_terminate d; email_on_error := email_on_error d;
     start_show := start_show d; shutdown_required := shutdown_required d;
     reboot_required := reboot_required d; terminate_required := terminate_required d;
     exitpipresents_required := exitpipresents_required d;
     restartpipresents_required := restartpipresents_required d; shows := v;
     handle_timer := handle_timer d; shutdownnow_pressed_timer := shutdownnow_pressed_timer d;
     reboot_pressed_timer := reboot_pressed_timer d;
     e_all_shows_ended_callback_timer := e_all_shows_ended_callback_timer d |}.

Definition set_handle_timer (v : attr nat) (d : PiPresents) : PiPresents :=
  {| in_error_exit := in_error_exit d; options_vibes := options_vibes d;
     monitor_manager := monitor_manager d; dm := dm d; animate := animate d;
     ioplugin_manager := ioplugin_manager d; osc_enabled := osc_enabled d;
     tod_enabled := tod_enabled d; email_enabled := email_enabled d;
     email_on_terminate := email_on_terminate d; email_on_error := email_on_error d;
     start_show := start_show d; shutdown_required := shutdown_required d;
     reboot_required := reboot_required d; terminate_required := terminate_required d;
     exitpipresents_required := exitpipresents_required d;
     restartpipresents_required := restartpipresents_required d; shows := shows d;
     handle_timer := v; shutdownnow_pressed_timer := shutdownnow_pressed_timer d;
     reboot_pressed_timer := reboot_pressed_timer d;
     e_all_shows_ended_callback_timer := e_all_shows_ended_callback_timer d |}.

Definition set_shutdownnow_pressed_timer (v : attr nat) (d : PiPresents) : PiPresents :=
  {| in_error_exit := in_error_exit d; options_vibes := options_vibes d;
     monitor_manager := monitor_manager d; dm := dm d; animate := animate d;
     ioplugin_manager := ioplugin_manager d; osc_enabled := osc_enabled d;
     tod_enabled := tod_enabled d; email_enabled := email_enabled d;
     email_on_terminate := email_on_terminate d; email_on_error := email_on_error d;
     start_show := start_show d; shutdown_required := shutdown_required d;
     reboot_required := reboot_required d; terminate_required := terminate_required d;
     exitpipresents_required := exitpipresents_required d;
     restartpipresents_required := restartpipresents_required d; shows := shows d;
     handle_timer := handle_timer d; shutdownnow_pressed_timer := v;
     reboot_pressed_timer := reboot_pressed_timer d;
     e_all_shows_ended_callback_timer := e_all_shows_ended_callback_timer d |}.

Definition set_reboot_pressed_timer (v : attr nat) (d : PiPresents) : PiPresents :=
  {| in_error_exit := in_error_exit d; options_vibes := options_vibes d;
     monitor_manager := monitor_manager d; dm := dm d; animate := animate d;
     ioplugin_manager := ioplugin_manager d; osc_enabled := osc_enabled d;
     tod_enabled := tod_enabled d; email_enabled := email_enabled d;
     email_on_terminate := email_on_terminate d; email_on_error := email_on_error d;
     start_show := start_show d; shutdown_required := shutdown_required d;
     reboot_required := reboot_required d; terminate_required := terminate_required d;
     exitpipresents_required := exitpipresents_required d;
     restartpipresents_required := restartpipresents_required d; shows := shows d;
     handle_timer := handle_timer d; shutdownnow_pressed_timer := shutdownnow_pressed_timer d;
     reboot_pressed_timer := v;
     e_all_shows_ended_callback_timer := e_all_shows_ended_callback_timer d |}.

Definition set_e_all_shows_ended_callback_timer (v : attr nat) (d : PiPresents) : PiPresents :=
  {| in_error_exit := in_error_exit d; options_vibes := options_vibes d;
     monitor_manager := monitor_manager d; dm := dm d; animate := animate d;
     ioplugin_manager := ioplugin_manager d; osc_enabled := osc_enabled d;
     tod_enabled := tod_enabled d; email_enabled := email_enabled d;
     email_on_terminate := email_on_terminate d; email_on_error := email_on_error d;
     start_show := start_show d; shutdown_required := shutdown_required d;
     reboot_required := reboot_required d; terminate_required := terminate_required d;
     exitpipresents_required := exitpipresents_required d;
     restartpipresents_required := restartpipresents_required d; shows := shows d;
     handle_timer := handle_timer d; shutdownnow_pressed_timer := shutdownnow_pressed_timer d;
     reboot_pressed_timer := reboot_pressed_timer d; e_all_shows_ended_callback_timer := v |}.

Record World : Type := mkWorld {
  pp : PiPresents;
  glib : GLib.t Callback;
  trace : list Event
}.

Definition on_pp (f : PiPresents -> PiPresents) (w : World) : World :=
  mkWorld (f (pp w)) (glib w) (trace w).

Definition add_events (es : list Event) (w : World) : World :=
  mkWorld (pp w) (glib w) (trace w ++ es).

Definition upd (f : PiPresents -> PiPresents) : M World unit := modify (on_pp f).

Definition field {A} (f : PiPresents -> A) : M World A := gets (fun w => f (pp w)).

Definition attribute {A} (name : string) (f : PiPresents -> attr A) : M World A :=
  getattr name (fun w => f (pp w)).

Definition emit (e : Event) : M World unit := modify (add_events [e]).

Definition history : M World (list Event) := gets trace.

(** [GLib.timeout_add(interval, callback)] *)
Definition timeout_add (interval : nat) (cb : Callback) : M World nat :=
  fun w => let '(id, g) := GLib.timeout_add interval cb (glib w) in
           Ok id (mkWorld (pp w) g (trace w)).

(** [GLib.source_remove(id)] *)
Definition source_remove (id : nat) : M World unit :=
  modify (fun w => mkWorld (pp w) (GLib.source_remove id (glib w)) (trace w)).

(** [Monitor.err]: the error is reported and, outside manager mode, the
    "Profile Error" dialog is opened with [finish=102]. *)
Definition mon_err (text : string) : M World unit :=
  emit (MonErr text) ;;
  m <- field monitor_manager ;;
  if m then ret tt
  else emit (Dialog "Profile Error" ("PiPresents" ++ newline ++ text) 102).

(** [PPDialog.on_ok_clicked] of a dialog built with [callback=None]. *)
Definition on_ok_clicked (finish : Z) : M World unit :=
  emit MonFinish ;;
  if (finish =? -1)%Z then ret tt else raise (SystemExit finish).

Section Collaborators.

(** The collaborators whose modules are not among the sources.  Each answers a
    call from its arguments and from what has happened so far; the show
    manager's also replace the registry. *)
Variable parse_osc_command : list Event -> list string -> string * string.
Variable parse_counter_command : list Event -> list string -> string * string.
Variable play_show_beep : list Event -> string -> string * string.
Variable play_show_vibe : list Event -> string -> string * string.
Variable do_backlight_command : list Event -> string -> string * string.
Variable handle_monitor_command : list Event -> list string -> string * string.
Variable parse_animate_fields :
  list Event -> string -> string * string * (string * string * string * list string).
Variable io_handle_output_event :
  list Event -> string -> string -> list string -> Z -> string * string.
Variable control_a_show :
  list Event -> list ShowEntry -> string -> string -> string * string * list ShowEntry.
Variable exit_all_shows : list Event -> list ShowEntry -> string * string * list ShowEntry.
Variable all_shows_exited : list ShowEntry -> bool.
Variable displays : list string.
Variable is_display_connected : list Event -> string -> string * string * string.

(** [self.show_manager.exit_all_shows()] *)
Definition sm_exit_all_shows : M World (string * string) :=
  h <- history ;;
  sh <- field shows ;;
  let '(reason, message, sh') := exit_all_shows h sh in
  emit ExitAllShows ;;
  upd (set_shows sh') ;;
  ret (reason, message).

(** [self.show_manager.control_a_show(show_ref, show_command)] *)
Definition sm_control_a_show (ref command : string) : M World (string * string) :=
  h <- history ;;
  sh <- field shows ;;
  let '(reason, message, sh') := control_a_show h sh ref command in
  emit (ControlAShow ref command) ;;
  upd (set_shows sh') ;;
  ret (reason, message).

(** [self.show_manager.all_shows_exited()] *)
Definition sm_all_shows_exited : M World bool :=
  sh <- field shows ;;
  ret (all_shows_exited sh).

(** [tidy_up] *)
Definition tidy_up : M World unit :=
  d <- field dm ;;
  (if d then emit DmTerminate else ret tt) ;;
  a <- field animate ;;
  (if a then emit AnimateTerminate else ret tt) ;;
  i <- field ioplugin_manager ;;
  (if i then emit IoPluginTerminate else ret tt) ;;
  o <- field osc_enabled ;;
  (if o then emit OscTerminate else ret tt) ;;
  t <- field tod_enabled ;;
  (if t then emit TodTerminate else ret tt).

(** [send_email]: the mailer's doing. *)
Definition send_email (reason : string) : M World unit := emit (SendEmail reason).

(** [end].  A 'killed' end exits with 101.  An 'error' end exits with 102
    only while [in_error_exit] is set, that is during start-up; afterwards it
    returns to its caller.  Any other end exits with 100, unless a restart
    was asked for, in which case the application is asked to quit. *)
Definition end_ (reason message : string) : M World unit :=
  tidy_up ;;
  if String.eqb reason "killed" then
    e <- field email_enabled ;;
    t <- field email_on_terminate ;;
    (if e && t then send_email reason else ret tt) ;;
    emit MonFinish ;;
    raise (SystemExit 101)
  else if String.eqb reason "error" then
    e <- field email_enabled ;;
    t <- field email_on_error ;;
    (if e && t then send_email reason else ret tt) ;;
    emit GcCollect ;;
    emit LeakGraphs ;;
    x <- field in_error_exit ;;
    if x then raise (SystemExit 102) else ret tt
  else
    emit MonFinish ;;
    r <- field restartpipresents_required ;;
    if r then emit AppQuit
    else
      b <- field reboot_required ;;
      (if b then emit (SubprocessCall ["sudo"; "reboot"]) else ret tt) ;;
      s <- field shutdown_required ;;
      (if s then emit (SubprocessCall ["sudo"; "shutdown"; "now"; "SHUTTING DOWN"])
       else ret tt) ;;
      raise (SystemExit 100).

(** [error_exit] *)
Definition error_exit (text : string) : M World unit := end_ "error" "Startup Error".

(** The loop of [all_shows_ended_callback] over [DisplayManager.displays];
    it overwrites [message] with each display's answer. *)
Fixpoint restyle_displays (ds : list string) (message : string) : M World string :=
  match ds with
  | [] => ret message
  | d :: rest =>
      h <- history ;;
      let '(status, message', d') := is_display_connected h d in
      (if String.eqb status "normal" then emit (StyleBackground d') else ret tt) ;;
      restyle_displays rest message'
  end.

(** [all_shows_ended_callback] *)
Definition all_shows_ended_callback (reason message : string) : M World unit :=
  message' <- restyle_displays displays message ;;
  s <- field shutdown_required ;;
  e <- field exitpipresents_required ;;
  b <- field reboot_required ;;
  r <- field restartpipresents_required ;;
  if mem reason ["killed"; "error"] || s || e || b || r
  then end_ reason message'
  else ret tt.

(** [e_all_shows_ended_callback] *)
Definition e_all_shows_ended_callback : M World unit :=
  id <- attribute "e_all_shows_ended_callback_timer" e_all_shows_ended_callback_timer ;;
  source_remove id ;;
  all_shows_ended_callback "normal" "no shows running".

(** [shutdownnow_pressed] *)
Definition shutdownnow_pressed : M World unit :=
  id <- attribute "shutdownnow_pressed_timer" shutdownnow_pressed_timer ;;
  source_remove id ;;
  upd (set_shutdown_required true) ;;
  x <- sm_all_shows_exited ;;
  if x then all_shows_ended_callback "normal" "no shows running"
  else _ <- sm_exit_all_shows ;; ret tt.

(** [reboot_pressed] *)
Definition reboot_pressed : M World unit :=
  id <- attribute "reboot_pressed_timer" reboot_pressed_timer ;;
  source_remove id ;;
  upd (set_reboot_required true) ;;
  x <- sm_all_shows_exited ;;
  if x then all_shows_ended_callback "normal" "no shows running"
  else _ <- sm_exit_all_shows ;; ret tt.

(** The loop of [terminate]: every running show is told to terminate; the
    result is [needs_termination]. *)
Fixpoint terminate_shows (entries : list ShowEntry) (needs_termination : bool)
  : M World bool :=
  match entries with
  | [] => ret needs_termination
  | e :: rest =>
      match show_obj e with
      | Some o => emit (ShowTerminate (show_ref e) o) ;; terminate_shows rest true
      | None => terminate_shows rest needs_termination
      end
  end.

(** [terminate] *)
Definition terminate : M World unit :=
  upd (set_terminate_required true) ;;
  sh <- field shows ;;
  needs_termination <- terminate_shows sh false ;;
  if needs_termination then ret tt
  else end_ "killed" "killed - no termination of shows required".

Definition handle_sigterm : M World unit := terminate.
Definition handle_user_abort : M World unit := terminate.

(** [handle_output_event] *)
Definition handle_output_event (symbol param_type : string) (param_values : list string)
    (req_time : Z) : M World unit :=
  h <- history ;;
  let '(reason, message) := io_handle_output_event h symbol param_type param_values req_time in
  emit (OutputEvent symbol param_type param_values req_time) ;;
  if String.eqb reason "error" then mon_err message ;; end_ reason message
  else ret tt.

(** The common part of [osc_handle_animate] and [show_control_handle_animate]. *)
Definition animate_line (line : string) : M World unit :=
  h <- history ;;
  let '(reason, message, (_, name, param_type, param_values)) :=
    parse_animate_fields h line in
  (if String.eqb reason "error" then mon_err message ;; end_ reason message else ret tt) ;;
  handle_output_event name param_type param_values 0.

(** [e_osc_handle_animate] *)
Definition e_osc_handle_animate (line : string) : M World unit :=
  id <- timeout_add 1 (osc_handle_animate_cb line) ;;
  upd (set_handle_timer (Val id)).

(** [osc_handle_animate] *)
Definition osc_handle_animate (line : string) : M World unit :=
  id <- attribute "handle_timer" handle_timer ;;
  source_remove id ;;
  animate_line line.

(** [show_control_handle_animate] *)
Definition show_control_handle_animate (line : string) : M World unit :=
  animate_line ("0 " ++ line).

(** The last branch of [handle_input_event]: the event goes to every entry of
    the registry that has a show object, in the registry's order. *)
Fixpoint broadcast (symbol : string) (entries : list ShowEntry) : M World unit :=
  match entries with
  | [] => ret tt
  | e :: rest =>
      (match show_obj e with
       | Some o => emit (ShowInput (show_ref e) o symbol)
       | None => ret tt
       end) ;;
      broadcast symbol rest
  end.

(** [handle_input_event] *)
Definition handle_input_event (symbol source : string) : M World unit :=
  if String.eqb symbol "pp-terminate" then handle_user_abort
  else if String.eqb symbol "pp-shutdown" then
    mon_err "pp-shutdown removed in version 1.3.3a, see Release Notes" ;;
    end_ "error" "pp-shutdown removed in version 1.3.3a, see Release Notes"
  else if String.eqb symbol "pp-shutdownnow" then
    id <- timeout_add 1 shutdownnow_pressed_cb ;;
    upd (set_shutdownnow_pressed_timer (Val id))
  else if String.eqb symbol "pp-exitpipresents" then
    upd (set_exitpipresents_required true) ;;
    x <- sm_all_shows_exited ;;
    if x then
      id <- timeout_add 1 e_all_shows_ended_callback_cb ;;
      upd (set_e_all_shows_ended_callback_timer (Val id))
    else _ <- sm_exit_all_shows ;; ret tt
  else if String.eqb symbol "pp-restartpipresents" then
    upd (set_restartpipresents_required true) ;;
    x <- sm_all_shows_exited ;;
    if x then
      id <- timeout_add 1 e_all_shows_ended_callback_cb ;;
      upd (set_e_all_shows_ended_callback_timer (Val id))
    else _ <- sm_exit_all_shows ;; ret tt
  else
    sh <- field shows ;;
    broadcast symbol sh.

(** [os.system(com)] *)
Definition os_system (com : string) : M World unit := emit (OsSystem com).

(** [handle_cec_command].  [device] is bound only for one or two arguments,
    so 'on' and 'standby' with more raise UnboundLocalError. *)
Definition handle_cec_command (args : list string) : M World (string * string) :=
  match args with
  | [] => ret ("error", "no arguments for CEC command")
  | a0 :: rest =>
      if (length args =? 1)%nat && String.eqb a0 "scan" then
        os_system "echo scan | cec-client -s -d 1" ;; ret ("normal", "")
      else if (length args =? 1)%nat && String.eqb a0 "as" then
        os_system "echo as | cec-client -s -d 1" ;; ret ("normal", "")
      else
        let device := match rest with
                      | [] => Some "0"
                      | [d] => Some d
                      | _ => None
                      end in
        if (length args =? 2)%nat && negb (isdigit (nth 1 args "")) then
          ret ("error", "device is not a positive integer")
        else if String.eqb a0 "on" then
          match device with
          | Some d => os_system ("echo " ++ dquote ++ "on " ++ d ++ dquote ++ " | cec-client -s -d 1") ;;
                      ret ("normal", "")
          | None => raise (UnboundLocalError "device")
          end
        else if String.eqb a0 "standby" then
          match device with
          | Some d => os_system ("echo " ++ dquote ++ "standby " ++ d ++ dquote
                                 ++ " | cec-client -s -d 1") ;;
                      ret ("normal", "")
          | None => raise (UnboundLocalError "device")
          end
        else ret ("error", "Unknown CEC command: " ++ a0)
  end.

(** The verbs [handle_command] knows, in the order it tests them. *)
Definition vocabulary : list string :=
  ["osc"; "OSC"; "counter"; "beep"; "vibe"; "backlight"; "monitor"; "cec"; "animate";
   "open"; "close"; "closeall"; "openexclusive"; "event"; "exitpipresents";
   "shutdownnow"; "reboot"].

(** The end of [handle_command]: [if reason=='error': ...]. *)
Definition command_result (reason message : string) : M World unit :=
  if String.eqb reason "error" then mon_err message ;; end_ "error" message
  else ret tt.

(** [handle_command] *)
Definition handle_command (command_text source show : string) : M World unit :=
  if blank command_text then ret tt
  else
    match split command_text with
    | [] => raise IndexError
    | f0 :: args =>
        if mem f0 ["osc"; "OSC"] then
          o <- field osc_enabled ;;
          if o then
            h <- history ;;
            let '(status, message) := parse_osc_command h args in
            emit (OscCommand args) ;;
            if String.eqb status "error" then mon_err message ;; end_ "error" message
            else ret tt
          else ret tt
        else if String.eqb f0 "counter" then
          h <- history ;;
          let '(status, message) := parse_counter_command h args in
          emit (CounterCommand args) ;;
          command_result status message
        else if String.eqb f0 "beep" then
          h <- history ;;
          let '(status, message) := play_show_beep h command_text in
          emit (Beep command_text) ;;
          command_result status message
        else if String.eqb f0 "vibe" then
          v <- field options_vibes ;;
          if v then
            h <- history ;;
            let '(status, message) := play_show_vibe h command_text in
            emit (Vibe command_text) ;;
            command_result status message
          else
            mon_err "Enable vibes using --vibes command line option" ;;
            end_ "error" ""
        else if String.eqb f0 "backlight" then
          h <- history ;;
          let '(status, message) := do_backlight_command h command_text in
          emit (Backlight command_text) ;;
          command_result status message
        else if String.eqb f0 "monitor" then
          h <- history ;;
          let '(status, message) := handle_monitor_command h args in
          emit (MonitorCommand args) ;;
          command_result status message
        else if String.eqb f0 "cec" then
          r <- handle_cec_command args ;;
          command_result (fst r) (snd r)
        else if String.eqb f0 "animate" then
          show_control_handle_animate (join " " args)
        else
          let show_command := f0 in
          let show_ref := match args with a :: _ => a | [] => "" end in
          if mem show_command ["open"; "close"; "closeall"; "openexclusive"] then
            s <- field shutdown_required ;;
            t <- field terminate_required ;;
            if negb s && negb t then
              r <- sm_control_a_show show_ref show_command ;;
              command_result (fst r) (snd r)
            else ret tt
          else if String.eqb show_command "event" then
            handle_input_event show_ref "Show Control"
          else if String.eqb show_command "exitpipresents" then
            upd (set_exitpipresents_required true) ;;
            x <- sm_all_shows_exited ;;
            if x then
              id <- timeout_add 1 e_all_shows_ended_callback_cb ;;
              upd (set_e_all_shows_ended_callback_timer (Val id))
            else
              r <- sm_exit_all_shows ;;
              command_result (fst r) (snd r)
          else if String.eqb show_command "shutdownnow" then
            id <- timeout_add 1 shutdownnow_pressed_cb ;;
            upd (set_shutdownnow_pressed_timer (Val id))
          else if String.eqb show_command "reboot" then
            id <- timeout_add 1 reboot_pressed_cb ;;
            upd (set_reboot_pressed_timer (Val id))
          else
            command_result "error" ("command not recognised: " ++ show_command)
    end.

(** The loop of [run_start_shows] over the start show's references. *)
Fixpoint open_start_shows (refs : list string) : M World unit :=
  match refs with
  | [] => ret tt
  | ref :: rest =>
      r <- sm_control_a_show ref "open" ;;
      (if String.eqb (fst r) "error" then mon_err (snd r) ;; terminate else ret tt) ;;
      open_start_shows rest
  end.

(** [run_start_shows] *)
Definition run_start_shows : M World unit :=
  s <- field start_show ;;
  open_start_shows (split s).

(** ** Operations on a running dispatcher

    What reaches the dispatcher once [on_activate] has set it up: the opening
    of the start shows, with which [on_activate] ends; input events and
    commands from the drivers, shows and scheduler; an animate line
    from the OSC server; the termination signal and the user's abort; the show
    manager's "all shows ended" callback; a timeout source of the dispatcher
    that the main loop fires (dropped afterwards, its callback returning
    None); the OK button of an error dialog; and the show manager replacing its
    registry as shows start and end. *)
Inductive Op : Type :=
| op_run_start_shows
| op_handle_input_event (symbol source : string)
| op_handle_command (command_text source show : string)
| op_e_osc_handle_animate (line : string)
| op_handle_output_event (symbol param_type : string) (param_values : list string)
                         (req_time : Z)
| op_handle_sigterm
| op_handle_user_abort
| op_all_shows_ended_callback (reason message : string)
| op_timeout (id : nat)
| op_dialog_ok (finish : Z)
| op_registry (entries : list ShowEntry).

Definition callback (cb : Callback) : M World unit :=
  match cb with
  | shutdownnow_pressed_cb => shutdownnow_pressed
  | reboot_pressed_cb => reboot_pressed
  | e_all_shows_ended_callback_cb => e_all_shows_ended_callback
  | osc_handle_animate_cb line => osc_handle_animate line
  end.

Definition perform (o : Op) : M World unit :=
  match o with
  | op_run_start_shows => run_start_shows
  | op_handle_input_event symbol source => handle_input_event symbol source
  | op_handle_command text source show => handle_command text source show
  | op_e_osc_handle_animate line => e_osc_handle_animate line
  | op_handle_output_event s t v r => handle_output_event s t v r
  | op_handle_sigterm => handle_sigterm
  | op_handle_user_abort => handle_user_abort
  | op_all_shows_ended_callback reason message => all_shows_ended_callback reason message
  | op_timeout id =>
      fun w =>
        match GLib.callback_of id (glib w) with
        | Some cb =>
            match callback cb w with
            | Ok a w' => Ok a (mkWorld (pp w') (GLib.drop id (glib w')) (trace w'))
            | Raise e w' => Raise e (mkWorld (pp w') (GLib.drop id (glib w')) (trace w'))
            end
        | None => Ok tt w
        end
  | op_dialog_ok finish => on_ok_clicked finish
  | op_registry entries => upd (set_shows entries)
  end.

(** A run: the operations are performed in turn.  [SystemExit] ends the
    process, so nothing after it is performed; any other exception is reported
    by the main loop and the run goes on. *)
Fixpoint run (ops : list Op) (w : World) : World :=
  match ops with
  | [] => w
  | o :: rest =>
      match perform o w with
      | Ok _ w' => run rest w'
      | Raise (SystemExit _) w' => w'
      | Raise _ w' => run rest w'
      end
  end.

End Collaborators.

(** ** Vocabulary of the statements below *)

(** The input events [handle_input_event] treats itself. *)
Definition lifecycle_symbols : list string :=
  ["pp-terminate"; "pp-shutdown"; "pp-shutdownnow"; "pp-exitpipresents";
   "pp-restartpipresents"].

(** The deliveries a broadcast of [symbol] makes over a registry. *)
Definition deliveries (symbol : string) (entries : list ShowEntry) : list Event :=
  flat_map (fun e => match show_obj e with
                     | Some o => [ShowInput (show_ref e) o symbol]
                     | None => []
                     end) entries.

Definition deliveries_in (t : list Event) : list Event := filter is_show_input t.

(** The five pending-shutdown intents and the attribute that holds each. *)
Inductive Intent : Type :=
| shutdown_system
| reboot_system
| terminate_app
| exit_app
| restart_app.

Definition pending (i : Intent) (d : PiPresents) : bool :=
  match i with
  | shutdown_system => shutdown_required d
  | reboot_system => reboot_required d
  | terminate_app => terminate_required d
  | exit_app => exitpipresents_required d
  | restart_app => restartpipresents_required d
  end.

(** No intent that is set in [d] is cleared in [d']. *)
Definition intents_kept (d d' : PiPresents) : Prop :=
  (shutdown_required d = true -> shutdown_required d' = true)
  /\ (reboot_required d = true -> reboot_required d' = true)
  /\ (terminate_required d = true -> terminate_required d' = true)
  /\ (exitpipresents_required d = true -> exitpipresents_required d' = true)
  /\ (restartpipresents_required d = true -> restartpipresents_required d' = true).

(** The two relations between the world before and after a call that the
    statements below are about: no intent was cleared, and no show was
    delivered an input event. *)
Definition intents_stay (w w' : World) : Prop := intents_kept (pp w) (pp w').

Definition same_deliveries (w w' : World) : Prop :=
  deliveries_in (trace w') = deliveries_in (trace w).

(** What [tidy_up] terminates. *)
Definition tidy_events (d : PiPresents) : list Event :=
  (if dm d then [DmTerminate] else []) ++
  (if animate d then [AnimateTerminate] else []) ++
  (if ioplugin_manager d then [IoPluginTerminate] else []) ++
  (if osc_enabled d then [OscTerminate] else []) ++
  (if tod_enabled d then [TodTerminate] else []).

(** What [Monitor.err] does with an error text. *)
Definition err_events (d : PiPresents) (text : string) : list Event :=
  MonErr text ::
  (if monitor_manager d then []
   else [Dialog "Profile Error" ("PiPresents" ++ newline ++ text) 102]).

(** What an 'error' end does before it exits or returns. *)
Definition error_end_events (d : PiPresents) : list Event :=
  tidy_events d ++
  (if email_enabled d && email_on_error d then [SendEmail "error"] else []) ++
  [GcCollect; LeakGraphs].

(** The command verbs as the specification lists them. *)
Definition spec_vocabulary : list string :=
  ["osc"; "counter"; "beep"; "vibe"; "backlight"; "monitor"; "cec"; "animate";
   "open"; "close"; "closeall"; "openexclusive"; "event"; "exitpipresents";
   "shutdownnow"; "reboot"].

(** ** A concrete installation, for running scenarios *)

(** The state [on_activate] leaves when start-up succeeded: the five intents
    are False, [in_error_exit] has been cleared, the timers do not exist yet. *)
Definition started (entries : list ShowEntry) : PiPresents :=
  {| in_error_exit := false; options_vibes := false; monitor_manager := false;
     dm := true; animate := true; ioplugin_manager := true;
     osc_enabled := false; tod_enabled := false; email_enabled := false;
     email_on_terminate := false; email_on_error := false; start_show := "";
     shutdown_required := false; reboot_required := false; terminate_required := false;
     exitpipresents_required := false; restartpipresents_required := false;
     shows := entries;
     handle_timer := Unset; shutdownnow_pressed_timer := Unset;
     reboot_pressed_timer := Unset; e_all_shows_ended_callback_timer := Unset |}.

(** A registry of three shows of which the first and the last are running. *)
Definition three_shows : list ShowEntry :=
  [ {| show_ref := "main"; show_obj := Some 1 |};
    {| show_ref := "menu"; show_obj := None |};
    {| show_ref := "clock"; show_obj := Some 2 |} ].

Definition running : World :=
  {| pp := started three_shows; glib := GLib.empty; trace := [] |}.

(** Collaborators that accept everything and keep the registry as it is; the
    shows count as exited when no entry has a show object. *)
Definition fine {A} (h : list Event) (a : A) : string * string := ("normal", "").

Definition demo_animate_fields (h : list Event) (line : string)
  : string * string * (string * string * string * list string) :=
  ("normal", "", ("0", "out", "state", ["on"])).

Definition demo_output_event (h : list Event) (symbol param_type : string)
    (param_values : list string) (req_time : Z) : string * string := ("normal", "").

Definition demo_control_a_show (h : list Event) (sh : list ShowEntry) (ref command : string)
  : string * string * list ShowEntry := ("normal", "", sh).

Definition demo_exit_all_shows (h : list Event) (sh : list ShowEntry)
  : string * string * list ShowEntry := ("normal", "", sh).

Definition demo_all_shows_exited (sh : list ShowEntry) : bool :=
  forallb (fun e => match show_obj e with None => true | Some _ => false end) sh.

Definition demo_display_connected (h : list Event) (d : string) : string * string * string :=
  ("normal", "", d).

Definition demo_handle_input_event : string -> string -> M World unit :=
  handle_input_event demo_exit_all_shows demo_all_shows_exited.

Definition demo_handle_command : string -> string -> string -> M World unit :=
  handle_command fine fine fine fine fine fine demo_animate_fields demo_output_event
    demo_control_a_show demo_exit_all_shows demo_all_shows_exited.

Definition demo_run : list Op -> World -> World :=
  run fine fine fine fine fine fine demo_animate_fields demo_output_event
    demo_control_a_show demo_exit_all_shows demo_all_shows_exited
    ["HDMI-1"] demo_display_connected.

(** The running installation after the touch screen sent 'pp-exitpipresents'. *)
Definition exit_requested : World :=
  demo_run [op_handle_input_event "pp-exitpipresents" "touch"] running.

End Dispatcher.

(* ===================================================================== *)
(** * The playback driver: further vocabulary                             *)
(* ===================================================================== *)

Module MPVMore.
Import Py Py.Notations MPV.

(** The values [self.state] is ever assigned, [__init__] included. *)
Definition states : list string :=
  ["idle"; "load-loading"; "load-ok"; "load-frozen"; "load-fail"; "load-unloaded";
   "show-showing"; "show-pauseatend"; "show-niceday"].

(** [n] ticks of the load poll in a row. *)
Fixpoint load_ticks (n : nat) (w : World) : World :=
  match n with
  | O => w
  | S k => load_ticks k (world_of (load_status_loop w))
  end.

(** The options in front of the first one the engine refuses. *)
Fixpoint accepted_prefix (accepts : string -> string -> bool) (opts : list (string * string))
  : list (string * string) :=
  match opts with
  | [] => []
  | (k, v) :: rest => if accepts k v then (k, v) :: accepted_prefix accepts rest else []
  end.

(** The first option the engine refuses. *)
Fixpoint first_refused (accepts : string -> string -> bool) (opts : list (string * string))
  : option (string * string) :=
  match opts with
  | [] => None
  | (k, v) :: rest => if accepts k v then first_refused accepts rest else Some (k, v)
  end.

(** The state a completed load ends in. *)
Definition loaded_state (freeze_at_start : string) : string :=
  if String.eqb freeze_at_start "before-first-frame"
     || String.eqb freeze_at_start "after-first-frame"
  then "load-frozen" else "load-ok".

(** The world after the engine and the user pause were both set to [b]. *)
Definition paused (b : bool) (p : Player) (w : World) : World :=
  on_self (fun d => set_user_pause b (set_player (Val (set_p_pause b p)) d)) w.

(** The position that ends a load: a 'time-pos' value that is a number not
    below zero, as [load_property_change] tests it. *)
Definition valid_position (name : string) (value : option PrimFloat.float)
  : option PrimFloat.float :=
  match value with
  | Some v => if String.eqb name "time-pos" && PrimFloat.leb 0%float v then Some v else None
  | None => None
  end.

(** A driver in the middle of a load that nothing has ended yet: its poll is
    armed, no quit is requested, no position was observed, and [budget] ticks
    are left. *)
Record polling (budget : Z) (position : PrimFloat.float) (w : World) : Prop := {
  polling_timer : load_status_timer (self w) <> None;
  polling_quit : quit_load_signal (self w) = false;
  polling_signal : load_complete_signal (self w) = Val false;
  polling_budget : load_timeout (self w) = Val budget;
  polling_position : load_position (self w) = Val position
}.

(** The driver of the scenario right after its widget was realised. *)
Definition realised : World :=
  demo_run [ c_load "/home/pp/pp_home/media/suits-short.mkv" [("vo", "gpu"); ("sid", "auto")]
                    100 100 1820 980;
             c_realize new_player ]
           (new_world (init "no" "no" "green")).

(** A driver that freezes after the first frame, with the first position
    observed and the load poll not yet run. *)
Definition first_frame_seen : World :=
  demo_run [ c_load "/home/pp/pp_home/media/suits-short.mkv" [("vo", "gpu"); ("sid", "auto")]
                    100 100 1820 980;
             c_realize new_player;
             c_observed load_property_change_h "time-pos" (Some 0.04%float) ]
           (new_world (init "after-first-frame" "no" "green")).

End MPVMore.

(* ===================================================================== *)
(** * The dispatcher: further vocabulary                                  *)
(* ===================================================================== *)

Module DispatcherMore.
Import Py Py.Notations Dispatcher.

(** The verbs [handle_command] hands to the show manager. *)
Definition show_verbs : list string := ["open"; "close"; "closeall"; "openexclusive"].

(** Whether an entry of the registry has a show object. *)
Definition is_running (e : ShowEntry) : bool :=
  match show_obj e with Some _ => true | None => false end.

(** The [terminate] calls the loop of [terminate] makes over a registry. *)
Definition terminations (entries : list ShowEntry) : list Event :=
  flat_map (fun e => match show_obj e with
                     | Some o => [ShowTerminate (show_ref e) o]
                     | None => []
                     end) entries.

(** What a 'killed' end does before it exits. *)
Definition killed_end_events (d : PiPresents) : list Event :=
  tidy_events d ++
  (if email_enabled d && email_on_terminate d then [SendEmail "killed"] else []) ++
  [MonFinish].

(** What an end that is neither 'killed' nor 'error' does before it exits or
    returns. *)
Definition normal_end_events (d : PiPresents) : list Event :=
  tidy_events d ++
  [MonFinish] ++
  (if restartpipresents_required d then [AppQuit]
   else (if reboot_required d then [SubprocessCall ["sudo"; "reboot"]] else []) ++
        (if shutdown_required d
         then [SubprocessCall ["sudo"; "shutdown"; "now"; "SHUTTING DOWN"]] else [])).

Definition end_events (reason : string) (d : PiPresents) : list Event :=
  if String.eqb reason "killed" then killed_end_events d
  else if String.eqb reason "error" then error_end_events d
  else normal_end_events d.

(** The code [end] exits the process with; [None] when it returns. *)
Definition exit_code (reason : string) (d : PiPresents) : option Z :=
  if String.eqb reason "killed" then Some 101%Z
  else if String.eqb reason "error" then (if in_error_exit d then Some 102%Z else None)
  else if restartpipresents_required d then None
  else Some 100%Z.

(** How a call that may exit the process ends. *)
Definition exits_with (code : option Z) (w : World) : Result World unit :=
  match code with
  | Some c => Raise (SystemExit c) w
  | None => Ok tt w
  end.

(** The backgrounds the loop of [all_shows_ended_callback] restyles, and the
    message the loop leaves; [h] is what has happened before the loop. *)
Fixpoint restyled (is_display_connected : list Event -> string -> string * string * string)
    (h : list Event) (ds : list string) (message : string) : list Event * string :=
  match ds with
  | [] => ([], message)
  | d :: rest =>
      let '(status, message', d') := is_display_connected h d in
      let es := if String.eqb status "normal" then [StyleBackground d'] else [] in
      let '(es', m) := restyled is_display_connected (h ++ es) rest message' in
      ((es ++ es')%list, m)
  end.

(** The condition under which [all_shows_ended_callback] ends the run. *)
Definition ends_the_run (reason : string) (d : PiPresents) : bool :=
  mem reason ["killed"; "error"] || shutdown_required d || exitpipresents_required d
  || reboot_required d || restartpipresents_required d.

(** The running installation with no show left. *)
Definition idle : World := on_pp (set_shows []) running.

(** [handle_cec_command] on its own: what it returns and what it runs. *)
Inductive CecOutcome (args : list string) (w : World) : Result World (string * string) -> Prop :=
| cec_ran (com : string) :
    CecOutcome args w (Ok ("normal", "") (add_events [OsSystem com] w))
| cec_refused (message : string) :
    CecOutcome args w (Ok ("error", message) w)
| cec_unbound :
    3 <= length args ->
    mem (hd "" args) ["on"; "standby"] = true ->
    CecOutcome args w (Raise (UnboundLocalError "device") w).

(** The world in which the main loop holds a fresh source for [cb] and the
    dispatcher has stored its id with [store]. *)
Definition deferred (cb : Callback) (store : attr nat -> PiPresents -> PiPresents)
    (w : World) : World :=
  on_pp (store (Val (GLib.next_id (glib w))))
        (mkWorld (pp w) (snd (GLib.timeout_add 1 cb (glib w))) (trace w)).

(** An animate collaborator that refuses every line. *)
Definition bad_animate_fields (h : list Event) (line : string)
  : string * string * (string * string * string * list string) :=
  ("error", "bad animate line", ("", "", "", [])).

(** What 'pp-exitpipresents' and 'pp-restartpipresents' leave behind: the
    intent [flag] is set; then, with every show exited, the all-shows-ended
    callback is armed on the main loop, and otherwise the show manager is told
    to exit all shows and its registry is taken over. *)
Definition exit_request
    (exit_all_shows : list Event -> list ShowEntry -> string * string * list ShowEntry)
    (all_shows_exited : list ShowEntry -> bool)
    (flag : bool -> PiPresents -> PiPresents) (w : World) : World :=
  let w1 := on_pp (flag true) w in
  if all_shows_exited (shows (pp w1))
  then deferred e_all_shows_ended_callback_cb set_e_all_shows_ended_callback_timer w1
  else
    let '(_, _, sh') := exit_all_shows (trace w1) (shows (pp w1)) in
    on_pp (set_shows sh') (add_events [ExitAllShows] w1).

(** The running installation with the OSC driver enabled. *)
Definition osc_running : World :=
  on_pp (fun d =>
    {| in_error_exit := in_error_exit d; options_vibes := options_vibes d;
       monitor_manager := monitor_manager d; dm := dm d; animate := animate d;
       ioplugin_manager := ioplugin_manager d; osc_enabled := true;
       tod_enabled := tod_enabled d; email_enabled := email_enabled d;
       email_on_terminate := email_on_terminate d; email_on_error := email_on_error d;
       start_show := start_show d; shutdown_required := shutdown_required d;
       reboot_required := reboot_required d; terminate_required := terminate_required d;
       exitpipresents_required := exitpipresents_required d;
       restartpipresents_required := restartpipresents_required d; shows := shows d;
       handle_timer := handle_timer d;
       shutdownnow_pressed_timer := shutdownnow_pressed_timer d;
       reboot_pressed_timer := reboot_pressed_timer d;
       e_all_shows_ended_callback_timer := e_all_shows_ended_callback_timer d |}) running.

End DispatcherMore.

(* ===================================================================== *)
(** * pipresents.py: ending during start-up                               *)
(* ===================================================================== *)

(** [on_activate] creates the attributes of [PiPresents] one after the other,
    and calls [error_exit] at many places in between.  [Dispatcher] describes
    the dispatcher once all of them exist; here an attribute that [end] and
    [tidy_up] read may still be missing, and reading it raises AttributeError.
    [self.mon] is created at line 105 and read by every [self.mon.log];
    [self.dm] at line 96; [animate], [ioplugin_manager], [osc_enabled],
    [tod_enabled] and [email_enabled] at lines 168 to 173; the intents at
    lines 311 to 315; [in_error_exit] at line 81.  A collaborator that is only
    used when its flag is True ([oscdriver], [tod], [mailer]) exists whenever
    the flag is True, since [on_activate] sets the flag after creating it. *)
Module Startup.
Import Py Py.Notations.
Local Open Scope py_scope.

Record Attributes : Type := mkAttributes {
  mon : attr unit;
  dm : attr bool;
  animate : attr bool;
  ioplugin_manager : attr bool;
  osc_enabled : attr bool;
  tod_enabled : attr bool;
  email_enabled : attr bool;
  email_on_terminate : bool;
  email_on_error : bool;
  in_error_exit : attr bool;
  restartpipresents_required : attr bool;
  reboot_required : attr bool;
  shutdown_required : attr bool
}.

Record World : Type := mkWorld {
  self : Attributes;
  trace : list Dispatcher.Event
}.

Definition attribute {A} (name : string) (f : Attributes -> attr A) : M World A :=
  getattr name (fun w => f (self w)).

Definition emit (e : Dispatcher.Event) : M World unit :=
  modify (fun w => mkWorld (self w) (trace w ++ [e])).

(** [self.mon.log(...)], [self.mon.sched(...)]: the text is left out, the
    read of [self.mon] is not. *)
Definition mon_log : M World unit := attribute "mon" mon.

(** [tidy_up] *)
Definition tidy_up : M World unit :=
  mon_log ;;
  d <- attribute "dm" dm ;;
  (if d then emit Dispatcher.DmTerminate else ret tt) ;;
  a <- attribute "animate" animate ;;
  (if a then emit Dispatcher.AnimateTerminate else ret tt) ;;
  i <- attribute "ioplugin_manager" ioplugin_manager ;;
  (if i then emit Dispatcher.IoPluginTerminate else ret tt) ;;
  o <- attribute "osc_enabled" osc_enabled ;;
  (if o then emit Dispatcher.OscTerminate else ret tt) ;;
  t <- attribute "tod_enabled" tod_enabled ;;
  (if t then emit Dispatcher.TodTerminate else ret tt).

(** [end] *)
Definition end_ (reason message : string) : M World unit :=
  mon_log ;;
  tidy_up ;;
  if String.eqb reason "killed" then
    e <- attribute "email_enabled" email_enabled ;;
    t <- gets (fun w => email_on_terminate (self w)) ;;
    (if e && t then emit (Dispatcher.SendEmail reason) else ret tt) ;;
    mon_log ;;
    emit Dispatcher.MonFinish ;;
    raise (SystemExit 101)
  else if String.eqb reason "error" then
    e <- attribute "email_enabled" email_enabled ;;
    t <- gets (fun w => email_on_error (self w)) ;;
    (if e && t then emit (Dispatcher.SendEmail reason) else ret tt) ;;
    mon_log ;;
    emit Dispatcher.GcCollect ;;
    emit Dispatcher.LeakGraphs ;;
    x <- attribute "in_error_exit" in_error_exit ;;
    if x then raise (SystemExit 102) else ret tt
  else
    mon_log ;;
    emit Dispatcher.MonFinish ;;
    r <- attribute "restartpipresents_required" restartpipresents_required ;;
    if r then emit Dispatcher.AppQuit
    else
      b <- attribute "reboot_required" reboot_required ;;
      (if b then emit (Dispatcher.SubprocessCall ["sudo"; "reboot"]) else ret tt) ;;
      s <- attribute "shutdown_required" shutdown_required ;;
      (if s then emit (Dispatcher.SubprocessCall ["sudo"; "shutdown"; "now"; "SHUTTING DOWN"])
       else ret tt) ;;
      raise (SystemExit 100).

(** [error_exit] *)
Definition error_exit (text : string) : M World unit :=
  mon_log ;;
  end_ "error" "Startup Error".

(** The attributes of a dispatcher on which all of them exist. *)
Definition created (d : Dispatcher.PiPresents) : Attributes :=
  {| mon := Val tt;
     dm := Val (Dispatcher.dm d);
     animate := Val (Dispatcher.animate d);
     ioplugin_manager := Val (Dispatcher.ioplugin_manager d);
     osc_enabled := Val (Dispatcher.osc_enabled d);
     tod_enabled := Val (Dispatcher.tod_enabled d);
     email_enabled := Val (Dispatcher.email_enabled d);
     email_on_terminate := Dispatcher.email_on_terminate d;
     email_on_error := Dispatcher.email_on_error d;
     in_error_exit := Val (Dispatcher.in_error_exit d);
     restartpipresents_required := Val (Dispatcher.restartpipresents_required d);
     reboot_required := Val (Dispatcher.reboot_required d);
     shutdown_required := Val (Dispatcher.shutdown_required d) |}.

(** How a call ended: the exception it raised, if any. *)
Definition outcome {W A} (r : Result W A) : option Exn :=
  match r with
  | Ok _ _ => None
  | Raise e _ => Some e
  end.

(** How a call that may exit the process ends. *)
Definition exits_with (code : option Z) (w : World) : Result World unit :=
  match code with
  | Some c => Raise (SystemExit c) w
  | None => Ok tt w
  end.

(** Whether one of the attributes that [tidy_up] reads is missing. *)
Definition is_unset {A} (a : attr A) : bool :=
  match a with Unset => true | Val _ => false end.

Definition tidy_up_attribute_missing (a : Attributes) : bool :=
  is_unset (mon a) || is_unset (dm a) || is_unset (animate a)
  || is_unset (ioplugin_manager a) || is_unset (osc_enabled a) || is_unset (tod_enabled a).

(** The attributes at line 152 of [on_activate], where running as root is
    refused: logging and the display manager exist, the optional
    collaborators and the intents do not. *)
Definition at_root_check : Attributes :=
  {| mon := Val tt; dm := Val true;
     animate := Unset; ioplugin_manager := Unset; osc_enabled := Unset;
     tod_enabled := Unset; email_enabled := Unset;
     email_on_terminate := false; email_on_error := false;
     in_error_exit := Val true;
     restartpipresents_required := Unset; reboot_required := Unset;
     shutdown_required := Unset |}.

(** The attributes at line 98, where the display manager's failure is
    reported: logging does not exist yet. *)
Definition at_display_check : Attributes :=
  {| mon := Unset; dm := Val true;
     animate := Unset; ioplugin_manager := Unset; osc_enabled := Unset;
     tod_enabled := Unset; email_enabled := Unset;
     email_on_terminate := false; email_on_error := false;
     in_error_exit := Val true;
     restartpipresents_required := Unset; reboot_required := Unset;
     shutdown_required := Unset |}.

End Startup.

(* ===================================================================== *)
(** * pipresents.py: sending mail                                         *)
(* ===================================================================== *)

(** [try_connect] and [send_email] of [PiPresents].  The mailer
    ([pp_email.py]) is not among the sources: what its [connect], [send] and
    [disconnect] answer is a parameter, which may depend on the calls made on
    it so far.  The world is that list of calls, oldest first. *)
Module Mail.
Import Py Py.Notations.
Local Open Scope py_scope.

Inductive Call : Type :=
| Connect
| Send (subject message : string)
| Disconnect.

Section Mailer.

Variable connect : list Call -> bool.
Variable send : list Call -> string -> string -> bool.
Variable disconnect : list Call -> bool.

(** [self.mailer.connect()], its [success] *)
Definition mailer_connect : M (list Call) bool :=
  fun h => Ok (connect h) (h ++ [Connect])%list.

(** [self.mailer.send(subject,message)], its [success] *)
Definition mailer_send (subject message : string) : M (list Call) bool :=
  fun h => Ok (send h subject message) (h ++ [Send subject message])%list.

(** [self.mailer.disconnect()], its [success] *)
Definition mailer_disconnect : M (list Call) bool :=
  fun h => Ok (disconnect h) (h ++ [Disconnect])%list.

(** The [while True] loop of [try_connect], run for at most [fuel] rounds;
    [None] when the rounds are used up before the loop has returned. *)
Fixpoint try_connect_loop (fuel tries : nat) : M (list Call) (option bool) :=
  match fuel with
  | O => ret None
  | S fuel' =>
      success <- mailer_connect ;;
      if success then ret (Some true)
      else
        let tries := S tries in
        if (5 <? tries)%nat then ret (Some false)
        else try_connect_loop fuel' tries
  end.

(** [try_connect] *)
Definition try_connect (fuel : nat) : M (list Call) (option bool) :=
  try_connect_loop fuel 1.

(** [send_email]; the answer of [disconnect] is only logged. *)
Definition send_email (fuel : nat) (reason subject message : string)
  : M (list Call) (option bool) :=
  connected <- try_connect fuel ;;
  match connected with
  | None => ret None
  | Some false => ret (Some false)
  | Some true =>
      success <- mailer_send subject message ;;
      _ <- mailer_disconnect ;;
      ret (Some success)
  end.

End Mailer.

(** [n] connection attempts in a row. *)
Definition attempts (n : nat) : list Call := repeat Connect n.

(** A server that accepts the third connection and sends what it is given. *)
Definition third_time_lucky (h : list Call) : bool := (2 <=? length h)%nat.

End Mail.

(* ===================================================================== *)
(** * pp_utils.py: window rectangles and the monitor's report filter      *)
(* ===================================================================== *)

Module Utils.
Import Py.

(** ** [parse_rectangle]

    A character is a code point below 256.  The tests are Python's on that
    range: [str.strip] removes tab to carriage return, the separators 28 to
    31, the space, NEL (133) and the no-break space (160); [str.isdigit]
    accepts the ten decimal digits and the superscripts two, three and one
    (178, 179, 185), which [int] then refuses with ValueError.  Since CPython
    3.11 [int] also refuses a string of more than
    [sys.get_int_max_str_digits()] characters, once the string is longer
    than [sys.int_info.str_digits_check_threshold]. *)

Definition is_whitespace (c : ascii) : bool :=
  let n := nat_of_ascii c in
  ((9 <=? n) && (n <=? 13) || (28 <=? n) && (n <=? 32) || (n =? 133) || (n =? 160))%nat.

(** [text.strip() == ''] *)
Fixpoint strip_is_empty (s : string) : bool :=
  match s with
  | EmptyString => true
  | String c s' => is_whitespace c && strip_is_empty s'
  end.

(** [c in text], for a single character *)
Fixpoint contains (c : ascii) (s : string) : bool :=
  match s with
  | EmptyString => false
  | String c' s' => Ascii.eqb c' c || contains c s'
  end.

(** [text.split(sep)], for a single character: every occurrence splits, and
    empty fields are kept. *)
Fixpoint split_on (sep : ascii) (s : string) : list string :=
  match s with
  | EmptyString => [EmptyString]
  | String c s' =>
      if Ascii.eqb c sep then EmptyString :: split_on sep s'
      else match split_on sep s' with
           | field :: rest => String c field :: rest
           | [] => [String c EmptyString]
           end
  end.

Definition is_decimal (c : ascii) : bool :=
  ((48 <=? nat_of_ascii c) && (nat_of_ascii c <=? 57))%nat.

Definition is_digit (c : ascii) : bool :=
  let n := nat_of_ascii c in
  (is_decimal c || (n =? 178) || (n =? 179) || (n =? 185))%nat.

Fixpoint all_chars (p : ascii -> bool) (s : string) : bool :=
  match s with
  | EmptyString => true
  | String c s' => p c && all_chars p s'
  end.

(** [s.isdigit()] *)
Definition isdigit (s : string) : bool :=
  match s with
  | EmptyString => false
  | _ => all_chars is_digit s
  end.

(** The number a string of decimal digits denotes, read after [acc]. *)
Fixpoint value_from (acc : Z) (s : string) : Z :=
  match s with
  | EmptyString => acc
  | String c s' => value_from (10 * acc + (Z.of_nat (nat_of_ascii c) - 48)) s'
  end.

Definition value (s : string) : Z := value_from 0 s.

(** What a pure function does: it returns or it raises. *)
Inductive Outcome (A : Type) : Type :=
| Returns (a : A)
| Raises (e : Exn).
Arguments Returns {A} a.
Arguments Raises {A} e.

Definition and_then {A B} (o : Outcome A) (k : A -> Outcome B) : Outcome B :=
  match o with
  | Returns a => k a
  | Raises e => Raises e
  end.

Definition Rectangle : Type := string * string * Z * Z * Z * Z.

Definition rectangle_error (message : string) : Outcome Rectangle :=
  Returns ("error", message, 0, 0, 0, 0)%Z.

Definition plus_sign : ascii := ascii_of_nat 43.
Definition star_sign : ascii := ascii_of_nat 42.

(** [sys.int_info.str_digits_check_threshold]: [int] does not look at the
    limit for a string of at most this many characters, and the interpreter
    accepts no limit below it other than 0. *)
Definition str_digits_check_threshold : nat := 640.

(** A number of [n] digits, for trying the limit. *)
Fixpoint ones (n : nat) : string :=
  match n with
  | O => EmptyString
  | S n' => String (ascii_of_nat 49) (ones n')
  end.

Section IntLimit.

(** [sys.get_int_max_str_digits()]: 4300 unless the interpreter was started
    with another value; 0 means that there is no limit, as in the versions
    before 3.11. *)
Variable int_max_str_digits : nat.

(** Whether [int] accepts a string of the length of [s]: leading zeros count.
    The string is refused when it is longer than the threshold, a limit is
    set, and it is longer than the limit. *)
Definition within_limit (s : string) : bool :=
  negb ((str_digits_check_threshold <? String.length s)
        && (0 <? int_max_str_digits)
        && (int_max_str_digits <? String.length s))%nat.

(** [int(s)] for a string that passed [isdigit]: ValueError unless every
    character is a decimal digit and the string is within the limit. *)
Definition int (s : string) : Outcome Z :=
  if all_chars is_decimal s && within_limit s then Returns (value s)
  else Raises ValueError.

(** [parse_rectangle] *)
Definition parse_rectangle (text : string) : Outcome Rectangle :=
  if strip_is_empty text then rectangle_error ("Window is blank: " ++ text)
  else if contains plus_sign text then
    match split_on plus_sign text with
    | [f0; f1; f2] =>
        match split_on star_sign f2 with
        | [d0; d1] =>
            if negb (isdigit f0) then rectangle_error ("x1 is not a positive integer: " ++ text)
            else
              and_then (int f0) (fun x1 =>
              if negb (isdigit f1)
              then rectangle_error ("y1 is not a positive integer: " ++ text)
              else
                and_then (int f1) (fun y1 =>
                if negb (isdigit d0)
                then rectangle_error ("width is not a positive integer: " ++ text)
                else
                  and_then (int d0) (fun width =>
                  if negb (isdigit d1)
                  then rectangle_error ("height is not a positive integer: " ++ text)
                  else
                    and_then (int d1) (fun height =>
                    Returns ("normal", "", x1, y1, width, height)))))
        | _ => rectangle_error ("Bad window form: " ++ text)
        end
    | _ => rectangle_error ("Bad window form: " ++ text)
    end
  else if negb (contains star_sign text) then rectangle_error ("Bad window form: " ++ text)
  else
    match split_on star_sign text with
    | [d0; d1] =>
        if negb (isdigit d0) then rectangle_error ("width is not a positive integer: " ++ text)
        else
          and_then (int d0) (fun width =>
          if negb (isdigit d1)
          then rectangle_error ("height is not a positive integer: " ++ text)
          else
            and_then (int d1) (fun height =>
            Returns ("normal", "", (-1)%Z, (-1)%Z, width, height)))
    | _ => rectangle_error ("Bad window form: " ++ text)
    end.

End IntLimit.

(** The limit of an interpreter started with the defaults. *)
Definition default_int_max_str_digits : nat := 4300.

(** A string of decimal digits, at least one. *)
Definition decimal (s : string) : bool :=
  match s with
  | EmptyString => false
  | _ => all_chars is_decimal s
  end.

(** Text in which every character is ASCII. *)
Definition is_ascii (s : string) : bool :=
  all_chars (fun c => (nat_of_ascii c <? 128)%nat) s.

(** ** [Monitor.enabled] *)

(** The report classes of [Monitor]. *)
Definition m_fatal : Z := 1.
Definition m_err : Z := 2.
Definition m_warn : Z := 4.
Definition m_info : Z := 4.
Definition m_log : Z := 8.
Definition m_trace : Z := 16.
Definition m_trace_instance : Z := 32.
Definition m_leak : Z := 64.
Definition m_stats : Z := 128.
Definition m_sched : Z := 256.

(** What [enabled] reads: the instance's [this_class_level] and the class
    attributes [log_level], [classes] and [enable_in_code]. *)
Record Monitor : Type := mkMonitor {
  this_class_level : Z;
  log_level : Z;
  classes : list string;
  enable_in_code : bool
}.

(** [Monitor.__init__] on the class attributes [Monitor.init] leaves. *)
Definition new_monitor : Monitor :=
  {| this_class_level := Z.lor (Z.lor m_fatal m_err) m_warn;
     log_level := 0; classes := []; enable_in_code := false |}.

(** [set_log_level] *)
Definition set_log_level (level : Z) (m : Monitor) : Monitor :=
  {| this_class_level := level; log_level := log_level m; classes := classes m;
     enable_in_code := enable_in_code m |}.

(** [enabled] *)
Definition enabled (m : Monitor) (r_class : string) (report : Z) : bool :=
  let enabled_in_code :=
    negb (Z.land report (this_class_level m) =? 0)%Z && enable_in_code m in
  let globally_enabled :=
    negb (Z.land report (log_level m) =? 0)%Z && existsb (String.eqb r_class) (classes m) in
  if enabled_in_code || globally_enabled then true else false.

(** Every bit of [a] is a bit of [b]. *)
Definition within (a b : Z) : Prop := Z.land a b = a.

End Utils.

(* ===================================================================== *)
(** * Properties of the playback driver                                   *)
(* ===================================================================== *)

Module MPVFacts.
Import Py Py.Notations MPV.

(** Unfolds one layer of the method monad. *)
Ltac py_unfold :=
  cbv beta iota zeta delta
    [bind ret raise gets modify getattr field attribute upd
     player_set player_stop player_observe player_unobserve set_volume
     rend_set_visible source_remove timeout_add] in *.

(** *** Sanity checks on the scenario worlds *)

Example loaded_no_freeze_state :
  state (self loaded_no_freeze) = "load-ok"
  /\ frozen_at_start (self loaded_no_freeze) = true.
Proof. vm_compute. split; reflexivity. Qed.

Example showing_freeze_at_end_state :
  state (self showing_freeze_at_end) = "show-showing"
  /\ duration (self showing_freeze_at_end) = Val (Some 2%float)
  /\ show_status_timer (self showing_freeze_at_end) = Some 2.
Proof. vm_compute. repeat split; reflexivity. Qed.

(** *** show *)

(** C9. A driver built with a freeze-at-start mode other than 'no' ignores
    [show]: the call returns and the world (state, engine, widget, timers) is
    exactly what it was. *)
Theorem show_is_noop_unless_freeze_at_start_no (initial_volume : Z) (w : World) :
  freeze_at_start (self w) <> "no" ->
  show initial_volume w = Ok tt w.
Proof.
  intros Hfas. unfold show. py_unfold.
  destruct (String.eqb_spec (freeze_at_start (self w)) "no") as [E | _].
  - contradiction.
  - reflexivity.
Qed.

Lemma show_is_noop_unless_freeze_at_start_no_witness :
  show 100 (new_world (init "before-first-frame" "no" "black"))
  = Ok tt (new_world (init "before-first-frame" "no" "black")).
Proof.
  apply (show_is_noop_unless_freeze_at_start_no 100
           (new_world (init "before-first-frame" "no" "black"))).
  simpl. discriminate.
Defined.

(** *** pause *)

Lemma can_pause_true (d : MPVDriver) :
  can_pause d = true <->
  state d = "show-showing" /\ frozen_at_end d = false /\ frozen_at_start d = false.
Proof.
  unfold can_pause. rewrite !andb_true_iff, !negb_true_iff, String.eqb_eq. tauto.
Qed.

(** C6. While the state is 'show-showing' and neither freeze flag is up,
    [pause] flips [user_pause], sets the engine's pause to the new value and
    answers 'pause-on-ok' or 'pause-off-ok'; in every other situation it
    answers 'pause-reject' and leaves the world exactly as it was. *)
Theorem pause_toggles_only_while_showing (w : World) :
  (state (self w) = "show-showing" /\ frozen_at_end (self w) = false
     /\ frozen_at_start (self w) = false ->
   forall p, player (self w) = Val p ->
     pause w =
     Ok (if user_pause (self w) then "pause-off-ok" else "pause-on-ok")
        (on_self (fun d => set_user_pause (negb (user_pause d))
                             (set_player (Val (set_p_pause (negb (user_pause d)) p)) d)) w))
  /\ (~ (state (self w) = "show-showing" /\ frozen_at_end (self w) = false
         /\ frozen_at_start (self w) = false) ->
      pause w = Ok "pause-reject" w).
Proof.
  split.
  - intros Hguard p Hp. apply can_pause_true in Hguard.
    unfold pause. py_unfold. rewrite Hguard.
    destruct (user_pause (self w)) eqn:Hup; cbn; rewrite Hp; unfold on_self; cbn;
      rewrite Hup; reflexivity.
  - intros Hguard. unfold pause. py_unfold.
    destruct (can_pause (self w)) eqn:Hc.
    + apply can_pause_true in Hc. contradiction.
    + reflexivity.
Qed.

Lemma pause_toggles_only_while_showing_witness :
  returned (pause showing_freeze_at_end) = Some "pause-on-ok"
  /\ pause loaded_no_freeze = Ok "pause-reject" loaded_no_freeze.
Proof.
  destruct (pause_toggles_only_while_showing showing_freeze_at_end) as [Hacc _].
  destruct (pause_toggles_only_while_showing loaded_no_freeze) as [_ Hrej].
  split.
  - rewrite (Hacc (conj eq_refl (conj eq_refl eq_refl)) _ eq_refl). reflexivity.
  - apply Hrej. vm_compute. intros [H _]. discriminate H.
Defined.

(** *** stop *)

(** C10. With [frozen_at_start] up, [stop] acts at once: the engine is stopped
    and the state is 'show-niceday' when the call returns, [quit_show_signal]
    and the timers are untouched.  With the flag down, [stop] only raises
    [quit_show_signal]; the state changes at the next tick of the show poll,
    which takes its quit branch. *)
Theorem stop_is_synchronous_only_when_frozen_at_start (w : World) (p : Player) :
  player (self w) = Val p ->
  (frozen_at_start (self w) = true ->
     stop w = Ok tt (on_self (fun d => set_state "show-niceday"
                                         (set_player (Val (set_p_file None p)) d)) w))
  /\ (frozen_at_start (self w) = false ->
        stop w = Ok tt (on_self (set_quit_show_signal true) w)
        /\ state (self (world_of (show_status_loop (world_of (stop w))))) =
           (if String.eqb (freeze_at_end (self w)) "yes"
            then "show-pauseatend" else "show-niceday")).
Proof.
  intros Hp. split; intros Hf.
  - unfold stop. py_unfold. rewrite Hf. cbn. rewrite Hp. reflexivity.
  - assert (Hs : stop w = Ok tt (on_self (set_quit_show_signal true) w)).
    { unfold stop. py_unfold. rewrite Hf. reflexivity. }
    split; [exact Hs |].
    rewrite Hs. unfold show_status_loop, on_self. py_unfold. cbn.
    destruct (show_status_timer (self w)); cbn;
      destruct (String.eqb (freeze_at_end (self w)) "yes"); cbn;
      rewrite Hp; reflexivity.
Qed.

Lemma stop_is_synchronous_only_when_frozen_at_start_witness :
  state (self (world_of (stop loaded_no_freeze))) = "show-niceday"
  /\ quit_show_signal (self (world_of (stop loaded_no_freeze))) = false
  /\ state (self (world_of (stop showing_freeze_at_end))) = "show-showing"
  /\ quit_show_signal (self (world_of (stop showing_freeze_at_end))) = true.
Proof.
  destruct (stop_is_synchronous_only_when_frozen_at_start loaded_no_freeze _ eq_refl)
    as [Hfrozen _].
  destruct (stop_is_synchronous_only_when_frozen_at_start showing_freeze_at_end _ eq_refl)
    as [_ Hshowing].
  rewrite (Hfrozen eq_refl). rewrite (proj1 (Hshowing eq_refl)).
  repeat split; reflexivity.
Defined.

(** *** go *)

(** C1, as the code has it.  [go] answers 'go-reject', and then leaves the
    world exactly as it was, precisely when the [frozen_at_start] flag is
    down.  With the flag up it never rejects, whatever the state string is:
    on a loaded driver it answers 'go-ok' and starts showing. *)
Theorem go_rejects_exactly_when_not_frozen_at_start (initial_volume : Z) (w : World) :
  (frozen_at_start (self w) = false -> go initial_volume w = Ok "go-reject" w)
  /\ (frozen_at_start (self w) = true ->
        returned (go initial_volume w) <> Some "go-reject")
  /\ (frozen_at_start (self w) = true ->
      forall p r, player (self w) = Val p -> rend (self w) = Val r ->
        go initial_volume w = Ok "go-ok" (started_showing initial_volume p r w)).
Proof.
  split; [| split].
  - intros Hf. unfold go. py_unfold. rewrite Hf. reflexivity.
  - intros Hf. unfold go. py_unfold. rewrite Hf. cbn.
    destruct (player (self w)) eqn:Hp; cbn; [discriminate |].
    destruct (rend (self w)) eqn:Hr; cbn; discriminate.
  - intros Hf p r Hp Hr. unfold go. py_unfold. rewrite Hf. cbn.
    rewrite Hp. cbn. rewrite Hr. reflexivity.
Qed.

Lemma go_rejects_exactly_when_not_frozen_at_start_witness :
  go 100 showing_freeze_at_end = Ok "go-reject" showing_freeze_at_end
  /\ returned (go 100 loaded_no_freeze) = Some "go-ok".
Proof.
  destruct (go_rejects_exactly_when_not_frozen_at_start 100 showing_freeze_at_end)
    as [Hrej _].
  destruct (go_rejects_exactly_when_not_frozen_at_start 100 loaded_no_freeze)
    as [_ [_ Hacc]].
  split.
  - apply Hrej. reflexivity.
  - rewrite (Hacc eq_refl _ _ eq_refl eq_refl). reflexivity.
Defined.

(** C1, as the specification words it, fails: a driver built with
    [freeze_at_start = 'no'] whose load completed is in state 'load-ok', not
    'load-frozen', and [go(100)] is accepted there and starts the show. *)
Lemma go_is_accepted_in_load_ok :
  state (self loaded_no_freeze) = "load-ok"
  /\ state (self loaded_no_freeze) <> "load-frozen"
  /\ returned (go 100 loaded_no_freeze) = Some "go-ok"
  /\ world_of (go 100 loaded_no_freeze) <> loaded_no_freeze
  /\ state (self (world_of (go 100 loaded_no_freeze))) = "show-showing".
Proof.
  repeat split; try reflexivity.
  - vm_compute. discriminate.
  - intros H. apply (f_equal (fun w => state (self w))) in H.
    vm_compute in H. discriminate H.
Qed.

(** *** The poll loops: quit before completion *)

Lemma load_tick_with_quit_pending (w : World) (p : Player) (id : nat) :
  player (self w) = Val p ->
  load_status_timer (self w) = Some id ->
  quit_load_signal (self w) = true ->
  load_status_loop w =
  Ok tt (mkWorld (set_state "load-unloaded"
                    (set_player (Val (set_p_file None p))
                       (set_quit_load_signal false
                          (set_load_status_timer None (self w)))))
                 (GLib.source_remove id (glib w)) (monitor w)).
Proof.
  intros Hp Ht Hq. unfold load_status_loop. py_unfold.
  rewrite Ht. cbn. rewrite Hq. cbn. rewrite Hp. reflexivity.
Qed.

Lemma show_tick_with_quit_pending (w : World) (p : Player) :
  player (self w) = Val p ->
  quit_show_signal (self w) = true ->
  show_status_loop w =
  Ok tt (on_self (fun d =>
                    if String.eqb (freeze_at_end d) "yes"
                    then set_state "show-pauseatend"
                           (set_player (Val (set_p_pause true p))
                              (set_frozen_at_end true (set_quit_show_signal false d)))
                    else set_state "show-niceday"
                           (set_player (Val (set_p_file None p))
                              (set_quit_show_signal false d)))
                 (show_timer_cancelled w)).
Proof.
  intros Hp Hq. unfold show_status_loop, show_timer_cancelled, on_self. py_unfold.
  destruct (show_status_timer (self w)); cbn; rewrite Hq; cbn;
    destruct (String.eqb (freeze_at_end (self w)) "yes"); cbn;
    rewrite Hp; reflexivity.
Qed.

(** C2. A tick that finds both the quit signal and the completion signal set
    takes the quit branch.  The load poll ends in 'load-unloaded' with the
    engine stopped; the show poll ends in 'show-pauseatend' (freeze at end)
    or 'show-niceday' with the widget and the engine's video left alone.  In
    both, the quit signal is consumed and the completion signal is still
    pending, so nothing of the completion branch has run. *)
Theorem quit_check_precedes_completion_check (w : World) (p : Player) :
  player (self w) = Val p ->
  (forall id,
      load_status_timer (self w) = Some id ->
      quit_load_signal (self w) = true ->
      load_complete_signal (self w) = Val true ->
      exists w', load_status_loop w = Ok tt w'
        /\ state (self w') = "load-unloaded"
        /\ quit_load_signal (self w') = false
        /\ load_complete_signal (self w') = Val true
        /\ frozen_at_start (self w') = frozen_at_start (self w)
        /\ duration (self w') = duration (self w)
        /\ player (self w') = Val (set_p_file None p))
  /\ (quit_show_signal (self w) = true ->
      show_complete_signal (self w) = Val true ->
      exists w', show_status_loop w = Ok tt w'
        /\ state (self w') =
           (if String.eqb (freeze_at_end (self w)) "yes"
            then "show-pauseatend" else "show-niceday")
        /\ quit_show_signal (self w') = false
        /\ show_complete_signal (self w') = Val true
        /\ rend (self w') = rend (self w)
        /\ player (self w') =
           Val (if String.eqb (freeze_at_end (self w)) "yes"
                then set_p_pause true p else set_p_file None p)).
Proof.
  intros Hp. split.
  - intros id Ht Hq Hc. eexists. split.
    + apply (load_tick_with_quit_pending w p id Hp Ht Hq).
    + cbn. repeat split; try reflexivity. exact Hc.
  - intros Hq Hc. eexists. split.
    + apply (show_tick_with_quit_pending w p Hp Hq).
    + unfold show_timer_cancelled, on_self.
      destruct (show_status_timer (self w)); cbn;
        destruct (String.eqb (freeze_at_end (self w)) "yes"); cbn;
        repeat split; try reflexivity; exact Hc.
Qed.

Lemma quit_check_precedes_completion_check_witness :
  state (self (world_of (show_status_loop stop_and_end_in_one_tick))) = "show-pauseatend"
  /\ show_complete_signal (self (world_of (show_status_loop stop_and_end_in_one_tick)))
     = Val true.
Proof.
  assert (Hp : exists p, player (self stop_and_end_in_one_tick) = Val p)
    by (vm_compute; eexists; reflexivity).
  destruct Hp as [p Hp].
  destruct (quit_check_precedes_completion_check stop_and_end_in_one_tick p Hp)
    as [_ Hshow].
  assert (Hq : quit_show_signal (self stop_and_end_in_one_tick) = true)
    by (vm_compute; reflexivity).
  assert (Hc : show_complete_signal (self stop_and_end_in_one_tick) = Val true)
    by (vm_compute; reflexivity).
  destruct (Hshow Hq Hc) as [w' [Hrun [Hstate [_ [Hpending _]]]]].
  rewrite Hrun. cbn [world_of]. split.
  - rewrite Hstate. vm_compute. reflexivity.
  - exact Hpending.
Defined.

(** *** Completion with freeze at end *)

Lemma show_tick_after_completion (w : World) (p : Player) :
  freeze_at_end (self w) = "yes" ->
  player (self w) = Val p ->
  show_complete_signal (self w) = Val true ->
  exists w2, show_status_loop w = Ok tt w2
    /\ state (self w2) = "show-pauseatend"
    /\ frozen_at_end (self w2) = true
    /\ player (self w2) = Val (set_p_pause true p).
Proof.
  intros Hfae Hp Hsig. unfold show_status_loop. py_unfold.
  destruct (show_status_timer (self w)); cbn;
    destruct (quit_show_signal (self w)); cbn;
    rewrite ?Hsig; cbn; rewrite Hfae; cbn; rewrite Hp; cbn;
    eexists; repeat split; reflexivity.
Qed.

(** C7. With [freeze_at_end = 'yes'], a 'time-pos' observation completes the
    show exactly when the value is [None] or lies above [duration - 0.12]:
    then the completion signal is raised and the volume is set to 0 in the
    callback, and the next tick of the show poll pauses the engine and sets the
    state to 'show-pauseatend' (through the quit branch as well, should a stop
    have been requested meanwhile).  Any other observation only overwrites
    [show_position]. *)
Theorem freeze_at_end_completion (w : World) (p : Player) (dur : PrimFloat.float)
    (value : option PrimFloat.float) :
  freeze_at_end (self w) = "yes" ->
  state (self w) = "show-showing" ->
  player (self w) = Val p ->
  existsb (observer_eqb ("time-pos", show_complete_change_h)) (p_observers p) = true ->
  duration (self w) = Val (Some dur) ->
  show_complete_signal (self w) = Val false ->
  exists w1, show_complete_change "time-pos" value w = Ok tt w1
    /\ (show_complete_signal (self w1) = Val true <-> at_end dur value = true)
    /\ (at_end dur value = false ->
          w1 = on_self (set_show_position (Val (Some (-1)%float))) w)
    /\ (at_end dur value = true ->
          (exists p1, player (self w1) = Val p1 /\ p_volume p1 = 0%Z
                      /\ p_pause p1 = p_pause p)
          /\ state (self w1) = "show-showing"
          /\ exists w2 p2, show_status_loop w1 = Ok tt w2
               /\ state (self w2) = "show-pauseatend"
               /\ frozen_at_end (self w2) = true
               /\ player (self w2) = Val p2
               /\ p_pause p2 = true /\ p_volume p2 = 0%Z).
Proof.
  intros Hfae Hst Hp Hobs Hdur Hsig.
  assert (Hrun : exists w1, show_complete_change "time-pos" value w = Ok tt w1
     /\ (if at_end dur value
         then w1 = on_self (fun d => set_show_position (Val value)
                     (set_player (Val (set_p_observers
                                         (remove_first ("time-pos", show_complete_change_h)
                                                       (p_observers p))
                                         (set_p_volume 0 p)))
                        (set_show_complete_signal (Val true) d))) w
         else w1 = on_self (set_show_position (Val (Some (-1)%float))) w)).
  { unfold show_complete_change, near_end, at_end. py_unfold. cbn.
    rewrite Hfae. cbn.
    destruct value as [v |]; cbn.
    - rewrite Hdur. cbn.
      destruct (PrimFloat.ltb (dur - 0.12)%float v); cbn.
      + rewrite Hp. cbn. rewrite Hobs. cbn. eexists. split; reflexivity.
      + eexists. split; reflexivity.
    - rewrite Hp. cbn. rewrite Hobs. cbn. eexists. split; reflexivity. }
  destruct Hrun as [w1 [Hrun Hw1]]. exists w1. split; [exact Hrun |].
  destruct (at_end dur value) eqn:Hend; subst w1; cbn.
  - split; [tauto |]. split; [discriminate |]. intros _.
    split; [eexists; repeat split; reflexivity |].
    split; [exact Hst |].
    edestruct (show_tick_after_completion
                 (on_self (fun d => set_show_position (Val value)
                     (set_player (Val (set_p_observers
                                         (remove_first ("time-pos", show_complete_change_h)
                                                       (p_observers p))
                                         (set_p_volume 0 p)))
                        (set_show_complete_signal (Val true) d))) w))
      as [w2 [Htick [Hs2 [Hf2 Hp2]]]]; try reflexivity.
    + exact Hfae.
    + exists w2. eexists. repeat split; try eassumption; reflexivity.
  - rewrite Hsig. split; [split; discriminate |]. split; [reflexivity |]. discriminate.
Qed.

Example at_end_of_two_seconds :
  at_end 2%float (Some 1.87%float) = false
  /\ at_end 2%float (Some 1.89%float) = true
  /\ at_end 2%float None = true.
Proof. vm_compute. repeat split; reflexivity. Qed.

Lemma freeze_at_end_completion_witness :
  exists w1 w2,
    show_complete_change "time-pos" (Some 1.89%float) showing_freeze_at_end = Ok tt w1
    /\ show_status_loop w1 = Ok tt w2
    /\ state (self w2) = "show-pauseatend".
Proof.
  assert (Hp : exists p, player (self showing_freeze_at_end) = Val p
                 /\ existsb (observer_eqb ("time-pos", show_complete_change_h))
                            (p_observers p) = true)
    by (vm_compute; eexists; split; reflexivity).
  destruct Hp as [p [Hp Hobs]].
  destruct (freeze_at_end_completion showing_freeze_at_end p 2%float (Some 1.89%float))
    as [w1 [Hrun [_ [_ Hend]]]];
    try (vm_compute; reflexivity); try assumption.
  destruct Hend as [_ [_ [w2 [p2 [Htick [Hstate _]]]]]]; [vm_compute; reflexivity |].
  exists w1, w2. repeat split; assumption.
Defined.

(** *** close *)

(** On a driver whose engine and widget exist, [close] succeeds, passes each
    timer handle that is set to [GLib.source_remove] once and clears it, and
    a second [close] changes nothing at all. *)
Lemma close_twice (w : World) (p : Player) (r : MyRenderer) :
  player (self w) = Val p ->
  rend (self w) = Val r ->
  exists w1, close w = Ok tt w1
    /\ load_status_timer (self w1) = None
    /\ show_status_timer (self w1) = None
    /\ GLib.removed (glib w1) =
       (handle_list (show_status_timer (self w)) ++
        handle_list (load_status_timer (self w)) ++ GLib.removed (glib w))%list
    /\ close w1 = Ok tt w1.
Proof.
  intros Hp Hr. destruct w as [d g m]. destruct d. cbn in Hp, Hr. subst.
  destruct load_status_timer0, show_status_timer0;
    (eexists; split; [vm_compute; reflexivity |]);
    vm_compute; repeat split; reflexivity.
Qed.

(** *** The timer discipline is kept by every call *)

(** Runs a method on a world given as a record, leaving the tests on
    unknown values folded. *)
Ltac run_cbv :=
  cbv -[String.eqb PrimFloat.ltb PrimFloat.leb PrimFloat.sub Z.leb Z.sub Nat.eqb
        existsb remove_first app In lt not MPV.apply_options find filter] in *.

(** Splits on the next test the run is stuck on. *)
Ltac case_ctrl :=
  match goal with
  | |- context [match ?x with Unset => _ | Val _ => _ end] => destruct x eqn:?
  | |- context [match ?x with Some _ => _ | None => _ end] => destruct x eqn:?
  | |- context [if ?b then _ else _] => destruct b eqn:?
  | |- context [let (_, _) := ?x in _] => destruct x
  end.

(** Breaks the invariant of the world before the call into its facts. *)
Ltac use_timers_ok :=
  match goal with
  | H : timers_ok _ |- _ => destruct H as [HE HW HN HO HL HS HD]; run_cbv
  end;
  repeat match goal with
  | H : forall id, Some ?n = Some id -> _ |- _ => specialize (H n eq_refl)
  | H : forall id, None = Some id -> _ |- _ => clear H
  | H : forall a b, Some ?n = Some a -> Some ?k = Some b -> _ |- _ =>
      specialize (H n k eq_refl eq_refl)
  | H : forall a b, None = Some a -> _ |- _ => clear H
  | H : forall a b, Some _ = Some a -> None = Some b -> _ |- _ => clear H
  | H : Unset = Unset -> _ |- _ => specialize (H eq_refl)
  | H : Val _ = Unset -> _ |- _ => clear H
  | H : _ /\ _ |- _ => destruct H
  end;
  subst; try discriminate.

(** Closes one clause of the invariant of the world after the call. *)
Ltac timers_goal :=
  cbn [find filter] in *;
  repeat match goal with
  | |- _ /\ _ => split
  | |- forall _, _ => intro
  | |- ~ _ => intro
  | H : Some _ = Some _ |- _ => injection H as H; subst
  | H : None = Some _ |- _ => discriminate H
  | H : Some _ = None |- _ => discriminate H
  | H : Val _ = Unset |- _ => discriminate H
  | H : Unset = Val _ |- _ => discriminate H
  | H : In _ (_ :: _) |- _ => destruct H as [H | H]; subst
  | |- NoDup (_ :: _) => constructor
  | HO : forall id, In id ?rm -> id < _, H : In ?i ?rm |- _ =>
      lazymatch goal with
      | _ : i < _ |- _ => fail
      | _ => pose proof (HO i H)
      end
  end;
  try solve [ reflexivity | assumption | contradiction | lia | congruence | tauto ].

Section Reach.
Variable parse : string -> list string.
Variable accepts : string -> string -> bool.
Variable dur : string -> option PrimFloat.float.

Lemma apply_options_only_sets_options (opts : list (string * string)) (w : World) :
  exists r pl,
    apply_options accepts opts w = Ok r (on_self (set_player pl) w)
    /\ (pl = Unset <-> player (self w) = Unset).
Proof.
  revert w. induction opts as [| [k v] rest IH]; intros w.
  - exists ("normal", ""), (player (self w)). split; [| tauto].
    destruct w as [d g m]; destruct d; reflexivity.
  - cbn [apply_options]. destruct (player (self w)) as [| p] eqn:Hp.
    + do 2 eexists. split.
      * destruct w as [d g m]; destruct d; cbn in Hp; subst. reflexivity.
      * tauto.
    + destruct (accepts k v).
      * py_unfold.
        destruct (IH (on_self (set_player (Val (set_p_options (p_options p ++ [(k, v)]) p)))
                              w)) as [r [pl [Hrun Hpl]]].
        rewrite Hrun. exists r, pl. split.
        -- destruct w as [d g m]; destruct d. reflexivity.
        -- rewrite Hpl. destruct w as [d g m]; destruct d; cbn in *. subst.
           split; discriminate.
      * exists ("error", "bad MPV option: " ++ k ++ " " ++ v), (Val p). split.
        -- destruct w as [d g m]; destruct d; cbn in Hp; subst. reflexivity.
        -- split; discriminate.
Qed.

(** Replaces a call of [apply_options] by what it leaves. *)
Ltac options_applied :=
  match goal with
  | |- context [MPV.apply_options ?acc ?o ?W] =>
      let r := fresh "r" in let pl := fresh "pl" in
      let Hrun := fresh "Hrun" in let Hpl := fresh "Hpl" in
      destruct (apply_options_only_sets_options o W) as [r [pl [Hrun Hpl]]];
      rewrite Hrun; clear Hrun; cbn in Hpl;
      destruct pl; [exfalso; destruct Hpl as [Hpl _]; discriminate (Hpl eq_refl) |];
      clear Hpl
  end.

Lemma perform_keeps_timers_ok (c : Call) (w : World) :
  timers_ok w -> timers_ok (perform parse accepts dur c w).
Proof.
  intros H. destruct w as [d g m]. destruct d. destruct g as [nx src rm].
  destruct show_status_timer0, load_status_timer0, player0, rend0;
    use_timers_ok;
    destruct c as [| | | | | | | | | | | | [|] |]; unfold perform.
  all: unfold load, on_renderer_ready, handler, callback, registered, GLib.callback_of,
              load_property_change, load_status_loop, show,
              show_complete_change, near_end, show_status_loop, close, go, pause, pause_on,
              pause_off, can_pause, stop, unload, mute, unmute, file_has_video;
       py_unfold; run_cbv;
       repeat (case_ctrl; run_cbv);
       try (options_applied; run_cbv; repeat (case_ctrl; run_cbv));
       constructor; run_cbv; timers_goal.
Qed.

Lemma new_world_timers_ok (fas fae bg : string) : timers_ok (new_world (init fas fae bg)).
Proof.
  constructor; cbn; try tauto; try discriminate.
  - constructor.
Qed.

Lemma run_keeps_timers_ok (cs : list Call) (w : World) :
  timers_ok w -> timers_ok (run parse accepts dur cs w).
Proof.
  revert w. induction cs as [| c cs IH]; intros w H.
  - exact H.
  - cbn. apply IH. apply perform_keeps_timers_ok. exact H.
Qed.

Lemma reachable_timers_ok (w : World) :
  reachable parse accepts dur w -> timers_ok w.
Proof.
  intros [fas [fae [bg [cs ->]]]].
  apply run_keeps_timers_ok. apply new_world_timers_ok.
Qed.

(** C8. On every driver a call sequence can produce, [close] leaves both timer
    handles [None]; a second [close] changes nothing at all, so it
    de-registers no timer and does not touch the engine again; and no source
    id was passed to [GLib.source_remove] twice.  When the engine exists,
    the first [close] succeeds and de-registers exactly the handles that were
    set, each once. *)
Theorem close_is_idempotent (w : World) :
  reachable parse accepts dur w ->
  load_status_timer (self (world_of (close w))) = None
  /\ show_status_timer (self (world_of (close w))) = None
  /\ world_of (close (world_of (close w))) = world_of (close w)
  /\ NoDup (GLib.removed (glib (world_of (close w))))
  /\ (forall p, player (self w) = Val p ->
        close w = Ok tt (world_of (close w))
        /\ close (world_of (close w)) = Ok tt (world_of (close w))
        /\ GLib.removed (glib (world_of (close w))) =
           (handle_list (show_status_timer (self w)) ++
            handle_list (load_status_timer (self w)) ++ GLib.removed (glib w))%list).
Proof.
  intros Hreach. apply reachable_timers_ok in Hreach.
  pose proof (perform_keeps_timers_ok c_close w Hreach) as Hclosed.
  cbn [perform] in Hclosed.
  destruct (player (self w)) as [| p] eqn:Hp.
  - destruct (no_engine_no_timer w Hreach Hp) as [Hl [Hs _]].
    assert (Hraise : close w = Raise (AttributeError "player") w).
    { unfold close. py_unfold. rewrite Hp. reflexivity. }
    rewrite Hraise. cbn [world_of]. rewrite Hraise. cbn [world_of].
    split; [exact Hl |]. split; [exact Hs |]. split; [reflexivity |].
    split; [apply (removed_once w Hreach) |].
    intros q Hq. discriminate Hq.
  - destruct (rend (self w)) as [| r] eqn:Hr.
    + apply (no_widget_no_engine w Hreach) in Hr. congruence.
    + destruct (close_twice w p r Hp Hr) as [w1 [Hrun [Hl [Hs [Hrm Hagain]]]]].
      rewrite Hrun in *. cbn [world_of] in *. rewrite Hagain. cbn [world_of].
      split; [exact Hl |]. split; [exact Hs |]. split; [reflexivity |].
      split; [apply (removed_once w1 Hclosed) |].
      intros q _. split; [reflexivity |]. split; [reflexivity | exact Hrm].
Qed.

End Reach.

Lemma close_is_idempotent_witness :
  load_status_timer (self (world_of (close showing_freeze_at_end))) = None
  /\ show_status_timer (self (world_of (close showing_freeze_at_end))) = None
  /\ world_of (close (world_of (close showing_freeze_at_end)))
     = world_of (close showing_freeze_at_end).
Proof.
  assert (Hreach : reachable demo_parse demo_accepts demo_duration showing_freeze_at_end).
  { exists "no", "yes", "white", (load_calls ++ [c_show 100])%list.
    unfold showing_freeze_at_end, demo_run. reflexivity. }
  destruct (close_is_idempotent demo_parse demo_accepts demo_duration
              showing_freeze_at_end Hreach) as [Hl [Hs [Hsame _]]].
  split; [exact Hl | split; [exact Hs | exact Hsame]].
Defined.

Example close_cancels_the_show_timer :
  GLib.removed (glib showing_freeze_at_end) = [1]
  /\ GLib.removed (glib (world_of (close showing_freeze_at_end))) = [2; 1]
  /\ GLib.removed (glib (world_of (close (world_of (close showing_freeze_at_end)))))
     = [2; 1].
Proof. vm_compute. repeat split; reflexivity. Qed.

End MPVFacts.

(* ===================================================================== *)
(** * Properties of the dispatcher                                        *)
(* ===================================================================== *)

Module DispatcherFacts.
Import Py Py.Notations Dispatcher.

(** *** Tokens *)

Lemma split_from_token (s t : string) : split_from s (Some t) <> [].
Proof.
  revert t. induction s as [| c s IH]; intros t; cbn.
  - discriminate.
  - destruct (is_space c).
    + discriminate.
    + apply IH.
Qed.

Lemma blank_iff_no_token (s : string) : blank s = true <-> split s = [].
Proof.
  unfold split. induction s as [| c s IH]; cbn.
  - tauto.
  - destruct (is_space c); cbn.
    + exact IH.
    + split; [discriminate |]. intros H. exfalso. exact (split_from_token _ _ H).
Qed.

Lemma not_in_vocabulary (f0 : string) (l : list string) :
  mem f0 l = false -> forall v, In v l -> String.eqb f0 v = false.
Proof.
  unfold mem. intros H v Hin.
  destruct (String.eqb f0 v) eqn:E; [| reflexivity].
  rewrite <- H. symmetry. apply existsb_exists. exists v. split; assumption.
Qed.

Create HintDb keeps discriminated.

(** *** Relations every dispatcher method keeps *)

Section Keeping.

Variable R : World -> World -> Prop.
Hypothesis R_refl : forall w, R w w.
Hypothesis R_trans : forall w1 w2 w3, R w1 w2 -> R w2 w3 -> R w1 w3.

Lemma keeps_ret {A} (a : A) : keeps R (ret a).
Proof. intros w. apply R_refl. Qed.

Lemma keeps_raise {A} (e : Exn) : keeps R (raise (A := A) e).
Proof. intros w. apply R_refl. Qed.

Lemma keeps_gets {A} (f : World -> A) : keeps R (gets f).
Proof. intros w. apply R_refl. Qed.

Lemma keeps_getattr {A} (name : string) (f : World -> attr A) : keeps R (getattr name f).
Proof. intros w. unfold getattr. destruct (f w); apply R_refl. Qed.

Lemma keeps_bind {A B} (c : M World A) (k : A -> M World B) :
  keeps R c -> (forall a, keeps R (k a)) -> keeps R (bind c k).
Proof.
  intros Hc Hk w. unfold bind. specialize (Hc w).
  destruct (c w) as [a w' | e w']; cbn in *.
  - apply (R_trans _ w'); [exact Hc | apply Hk].
  - exact Hc.
Qed.

End Keeping.
Section Methods.

Variable parse_osc_command : list Event -> list string -> string * string.
Variable parse_counter_command : list Event -> list string -> string * string.
Variable play_show_beep : list Event -> string -> string * string.
Variable play_show_vibe : list Event -> string -> string * string.
Variable do_backlight_command : list Event -> string -> string * string.
Variable handle_monitor_command : list Event -> list string -> string * string.
Variable parse_animate_fields :
  list Event -> string -> string * string * (string * string * string * list string).
Variable io_handle_output_event :
  list Event -> string -> string -> list string -> Z -> string * string.
Variable control_a_show :
  list Event -> list ShowEntry -> string -> string -> string * string * list ShowEntry.
Variable exit_all_shows : list Event -> list ShowEntry -> string * string * list ShowEntry.
Variable all_shows_exited : list ShowEntry -> bool.
Variable displays : list string.
Variable is_display_connected : list Event -> string -> string * string * string.

(** The relation: reflexive, transitive, blind to the main loop's sources,
    kept by every event other than a delivery to a show and by every update
    of the dispatcher's attributes that clears no intent. *)
Variable R : World -> World -> Prop.
Hypothesis R_refl : forall w, R w w.
Hypothesis R_trans : forall w1 w2 w3, R w1 w2 -> R w2 w3 -> R w1 w3.
Hypothesis R_glib : forall g w, R w (mkWorld (pp w) g (trace w)).
Hypothesis R_emit : forall e w, is_show_input e = false -> R w (add_events [e] w).
Hypothesis R_upd : forall f w, (forall d, intents_kept d (f d)) -> R w (on_pp f w).

Lemma keeps_emit (e : Event) : is_show_input e = false -> keeps R (emit e).
Proof. intros He w. apply R_emit. exact He. Qed.

Lemma keeps_upd (f : PiPresents -> PiPresents) :
  (forall d, intents_kept d (f d)) -> keeps R (upd f).
Proof. intros Hf w. apply R_upd. exact Hf. Qed.

Lemma keeps_timeout_add (interval : nat) (cb : Callback) : keeps R (timeout_add interval cb).
Proof. intros w. unfold timeout_add. cbn. apply R_glib. Qed.

Lemma keeps_source_remove (id : nat) : keeps R (source_remove id).
Proof. intros w. unfold source_remove, modify. cbn. apply R_glib. Qed.

Lemma setters_keep_intents (d : PiPresents) :
  intents_kept d (set_shutdown_required true d)
  /\ intents_kept d (set_reboot_required true d)
  /\ intents_kept d (set_terminate_required true d)
  /\ intents_kept d (set_exitpipresents_required true d)
  /\ intents_kept d (set_restartpipresents_required true d)
  /\ (forall sh, intents_kept d (set_shows sh d))
  /\ (forall v, intents_kept d (set_handle_timer v d))
  /\ (forall v, intents_kept d (set_shutdownnow_pressed_timer v d))
  /\ (forall v, intents_kept d (set_reboot_pressed_timer v d))
  /\ (forall v, intents_kept d (set_e_all_shows_ended_callback_timer v d)).
Proof. unfold intents_kept. cbn. tauto. Qed.

(** The lemmas proved so far, tried first on every subgoal. *)
Ltac keeps_known := solve [auto 1 with keeps nocore].

(** One step of a proof that a method keeps [R]: through a bind, a branch or
    a destructured answer, down to the primitives. *)
Ltac keeps_step :=
  first
    [ keeps_known
    | apply (keeps_bind R R_trans); [| intro]
    | apply (keeps_ret R R_refl)
    | apply (keeps_raise R R_refl)
    | apply (keeps_gets R R_refl)
    | apply (keeps_getattr R R_refl)
    | apply keeps_emit; reflexivity
    | apply keeps_timeout_add
    | apply keeps_source_remove
    | apply keeps_upd; intro; apply setters_keep_intents
    | assumption
    | match goal with
      | |- keeps _ (if ?b then _ else _) => destruct b
      | |- keeps _ (match ?x with Some _ => _ | None => _ end) => destruct x
      | |- keeps _ (let '(_, _) := ?x in _) => destruct x
      | |- keeps _ (match ?x with pair _ _ => _ end) => destruct x
      end ].

Ltac keeps_all := repeat keeps_step.

Lemma keeps_mon_err (text : string) : keeps R (mon_err text).
Proof. unfold mon_err, field. keeps_all. Qed.
#[local] Hint Resolve keeps_mon_err : keeps.

Lemma keeps_tidy_up : keeps R tidy_up.
Proof. unfold tidy_up, field. keeps_all. Qed.
#[local] Hint Resolve keeps_tidy_up : keeps.

Lemma keeps_end (reason message : string) : keeps R (end_ reason message).
Proof. unfold end_, field, send_email. keeps_all. Qed.
#[local] Hint Resolve keeps_end : keeps.

Lemma keeps_on_ok_clicked (finish : Z) : keeps R (on_ok_clicked finish).
Proof. unfold on_ok_clicked. keeps_all. Qed.
#[local] Hint Resolve keeps_on_ok_clicked : keeps.

Lemma keeps_restyle_displays (ds : list string) (message : string) :
  keeps R (restyle_displays is_display_connected ds message).
Proof.
  revert message. induction ds as [| d ds IH]; intros message; cbn [restyle_displays];
    unfold history; keeps_all; apply IH.
Qed.
#[local] Hint Resolve keeps_restyle_displays : keeps.

Lemma keeps_all_shows_ended_callback (reason message : string) :
  keeps R (all_shows_ended_callback displays is_display_connected reason message).
Proof. unfold all_shows_ended_callback, field. keeps_all. Qed.
#[local] Hint Resolve keeps_all_shows_ended_callback : keeps.

Lemma keeps_sm_exit_all_shows : keeps R (sm_exit_all_shows exit_all_shows).
Proof. unfold sm_exit_all_shows, history, field. keeps_all. Qed.
#[local] Hint Resolve keeps_sm_exit_all_shows : keeps.

Lemma keeps_sm_control_a_show (ref command : string) :
  keeps R (sm_control_a_show control_a_show ref command).
Proof. unfold sm_control_a_show, history, field. keeps_all. Qed.
#[local] Hint Resolve keeps_sm_control_a_show : keeps.

Lemma keeps_sm_all_shows_exited : keeps R (sm_all_shows_exited all_shows_exited).
Proof. unfold sm_all_shows_exited, field. keeps_all. Qed.
#[local] Hint Resolve keeps_sm_all_shows_exited : keeps.

Lemma keeps_terminate_shows (entries : list ShowEntry) (needs : bool) :
  keeps R (terminate_shows entries needs).
Proof.
  revert needs. induction entries as [| e entries IH]; intros needs; cbn [terminate_shows];
    keeps_all; apply IH.
Qed.
#[local] Hint Resolve keeps_terminate_shows : keeps.

Lemma keeps_terminate : keeps R terminate.
Proof. unfold terminate, field. keeps_all. Qed.
#[local] Hint Resolve keeps_terminate : keeps.

Lemma keeps_open_start_shows (refs : list string) :
  keeps R (open_start_shows control_a_show refs).
Proof.
  induction refs as [| ref refs IH]; cbn [open_start_shows]; keeps_all; apply IH.
Qed.
#[local] Hint Resolve keeps_open_start_shows : keeps.

Lemma keeps_run_start_shows : keeps R (run_start_shows control_a_show).
Proof. unfold run_start_shows, field. keeps_all. Qed.

Lemma keeps_shutdownnow_pressed :
  keeps R (shutdownnow_pressed exit_all_shows all_shows_exited displays is_display_connected).
Proof. unfold shutdownnow_pressed, attribute. keeps_all. Qed.

Lemma keeps_reboot_pressed :
  keeps R (reboot_pressed exit_all_shows all_shows_exited displays is_display_connected).
Proof. unfold reboot_pressed, attribute. keeps_all. Qed.

Lemma keeps_e_all_shows_ended_callback :
  keeps R (e_all_shows_ended_callback displays is_display_connected).
Proof. unfold e_all_shows_ended_callback, attribute. keeps_all. Qed.

Lemma keeps_handle_output_event (symbol param_type : string) (param_values : list string)
    (req_time : Z) :
  keeps R (handle_output_event io_handle_output_event symbol param_type param_values req_time).
Proof. unfold handle_output_event, history. keeps_all. Qed.
#[local] Hint Resolve keeps_handle_output_event : keeps.

Lemma keeps_animate_line (line : string) :
  keeps R (animate_line parse_animate_fields io_handle_output_event line).
Proof. unfold animate_line, history. keeps_all. Qed.
#[local] Hint Resolve keeps_animate_line : keeps.

Lemma keeps_osc_handle_animate (line : string) :
  keeps R (osc_handle_animate parse_animate_fields io_handle_output_event line).
Proof. unfold osc_handle_animate, attribute. keeps_all. Qed.

Lemma keeps_e_osc_handle_animate (line : string) : keeps R (e_osc_handle_animate line).
Proof. unfold e_osc_handle_animate. keeps_all. Qed.

Lemma keeps_command_result (reason message : string) :
  keeps R (command_result reason message).
Proof. unfold command_result. keeps_all. Qed.
#[local] Hint Resolve keeps_command_result : keeps.

Lemma keeps_handle_cec_command (args : list string) : keeps R (handle_cec_command args).
Proof.
  unfold handle_cec_command, os_system.
  destruct args as [| a0 rest]; [keeps_all |].
  destruct rest as [| d rest]; [| destruct rest]; cbn [length Nat.eqb andb nth]; keeps_all.
Qed.
#[local] Hint Resolve keeps_handle_cec_command : keeps.

(** The lifecycle branches of [handle_input_event]: everything but the
    broadcast. *)
Lemma keeps_lifecycle_event (symbol source : string) :
  mem symbol ["pp-terminate"; "pp-shutdown"; "pp-shutdownnow"; "pp-exitpipresents";
              "pp-restartpipresents"] = true ->
  keeps R (handle_input_event exit_all_shows all_shows_exited symbol source).
Proof.
  unfold mem. cbn [existsb]. intros Hmem.
  unfold handle_input_event, handle_user_abort.
  destruct (String.eqb symbol "pp-terminate"); [keeps_all |].
  destruct (String.eqb symbol "pp-shutdown"); [keeps_all |].
  destruct (String.eqb symbol "pp-shutdownnow"); [keeps_all |].
  destruct (String.eqb symbol "pp-exitpipresents"); [keeps_all |].
  destruct (String.eqb symbol "pp-restartpipresents"); [keeps_all |].
  discriminate Hmem.
Qed.

(** With deliveries to shows kept as well, all of [handle_input_event] and
    [handle_command] keep [R], and so does every run. *)
Hypothesis R_deliver : forall e w, R w (add_events [e] w).

Lemma keeps_broadcast (symbol : string) (entries : list ShowEntry) :
  keeps R (broadcast symbol entries).
Proof.
  induction entries as [| e entries IH]; cbn [broadcast]; keeps_all; try apply IH.
  intros w. apply R_deliver.
Qed.
#[local] Hint Resolve keeps_broadcast : keeps.

Lemma keeps_handle_input_event (symbol source : string) :
  keeps R (handle_input_event exit_all_shows all_shows_exited symbol source).
Proof.
  destruct (mem symbol ["pp-terminate"; "pp-shutdown"; "pp-shutdownnow";
                        "pp-exitpipresents"; "pp-restartpipresents"]) eqn:Hmem.
  - apply keeps_lifecycle_event. exact Hmem.
  - unfold mem in Hmem. cbn [existsb] in Hmem.
    repeat (apply orb_false_elim in Hmem; destruct Hmem as [? Hmem]).
    unfold handle_input_event.
    repeat match goal with H : String.eqb _ _ = false |- _ => rewrite H; clear H end.
    unfold field. keeps_all.
Qed.
#[local] Hint Resolve keeps_handle_input_event : keeps.

Lemma keeps_handle_command (command_text source show : string) :
  keeps R (handle_command parse_osc_command parse_counter_command play_show_beep
             play_show_vibe do_backlight_command handle_monitor_command
             parse_animate_fields io_handle_output_event control_a_show exit_all_shows
             all_shows_exited command_text source show).
Proof.
  unfold handle_command, show_control_handle_animate, history, field.
  destruct (blank command_text); [keeps_all |].
  destruct (split command_text) as [| f0 args]; keeps_all.
Qed.

Lemma keeps_perform (o : Op) :
  keeps R (perform parse_osc_command parse_counter_command play_show_beep
             play_show_vibe do_backlight_command handle_monitor_command
             parse_animate_fields io_handle_output_event control_a_show exit_all_shows
             all_shows_exited displays is_display_connected o).
Proof.
  destruct o; cbn [perform].
  - apply keeps_run_start_shows.
  - apply keeps_handle_input_event.
  - apply keeps_handle_command.
  - apply keeps_e_osc_handle_animate.
  - apply keeps_handle_output_event.
  - apply keeps_terminate.
  - apply keeps_terminate.
  - apply keeps_all_shows_ended_callback.
  - intros w. destruct (GLib.callback_of id (glib w)) as [cb |]; [| apply R_refl].
    assert (Hcb : keeps R (callback parse_animate_fields io_handle_output_event
                             exit_all_shows all_shows_exited displays
                             is_display_connected cb)).
    { destruct cb; cbn [callback].
      - apply keeps_shutdownnow_pressed.
      - apply keeps_reboot_pressed.
      - apply keeps_e_all_shows_ended_callback.
      - apply keeps_osc_handle_animate. }
    specialize (Hcb w).
    destruct (callback _ _ _ _ _ _ cb w) as [a w' | e w']; cbn [world_of] in *;
      (apply (R_trans _ w'); [exact Hcb | apply (R_glib (GLib.drop id (glib w')) w')]).
  - apply keeps_on_ok_clicked.
  - apply keeps_upd. intro. apply setters_keep_intents.
Qed.

Lemma keeps_run (ops : list Op) (w : World) :
  R w (run parse_osc_command parse_counter_command play_show_beep
         play_show_vibe do_backlight_command handle_monitor_command
         parse_animate_fields io_handle_output_event control_a_show exit_all_shows
         all_shows_exited displays is_display_connected ops w).
Proof.
  revert w. induction ops as [| o ops IH]; intros w; cbn [run].
  - apply R_refl.
  - pose proof (keeps_perform o w) as Hstep.
    destruct (perform _ _ _ _ _ _ _ _ _ _ _ _ _ o w) as [a w' | e w']; cbn [world_of] in Hstep.
    + apply (R_trans _ w'); [exact Hstep | apply IH].
    + destruct e; try (apply (R_trans _ w'); [exact Hstep | apply IH]). exact Hstep.
Qed.

End Methods.

(** *** The two relations *)

Lemma intents_kept_refl (d : PiPresents) : intents_kept d d.
Proof. unfold intents_kept. tauto. Qed.

Lemma intents_kept_trans (d1 d2 d3 : PiPresents) :
  intents_kept d1 d2 -> intents_kept d2 d3 -> intents_kept d1 d3.
Proof. unfold intents_kept. tauto. Qed.

Lemma deliveries_in_app (t es : list Event) :
  deliveries_in (t ++ es) = (deliveries_in t ++ deliveries_in es)%list.
Proof. unfold deliveries_in. apply filter_app. Qed.

Lemma add_events_app (es1 es2 : list Event) (w : World) :
  add_events es2 (add_events es1 w) = add_events (es1 ++ es2) w.
Proof. unfold add_events. cbn. rewrite <- app_assoc. reflexivity. Qed.

Lemma add_events_nil (w : World) : add_events [] w = w.
Proof. destruct w. unfold add_events. cbn. rewrite app_nil_r. reflexivity. Qed.

(** *** Input events *)

Section InputEvents.

Variable exit_all_shows : list Event -> list ShowEntry -> string * string * list ShowEntry.
Variable all_shows_exited : list ShowEntry -> bool.

Lemma broadcast_delivers (symbol : string) (entries : list ShowEntry) (w : World) :
  broadcast symbol entries w = Ok tt (add_events (deliveries symbol entries) w).
Proof.
  revert w. induction entries as [| e entries IH]; intros w; cbn [broadcast deliveries flat_map].
  - unfold ret. rewrite add_events_nil. reflexivity.
  - unfold bind. destruct (show_obj e) as [o |].
    + unfold emit, modify. rewrite IH. rewrite add_events_app. reflexivity.
    + unfold ret. rewrite IH. reflexivity.
Qed.

End InputEvents.

(** C3, as the specification words it, fails: 'pp-shutdown' is none of the four
    lifecycle symbols it names, yet it is not broadcast.  With two shows
    running, the dispatcher reports the error, tidies up, and no show hears of
    the event. *)
Lemma pp_shutdown_is_not_broadcast :
  mem "pp-shutdown" ["pp-terminate"; "pp-shutdownnow"; "pp-exitpipresents";
                     "pp-restartpipresents"] = false
  /\ deliveries "pp-shutdown" (shows (pp running))
     = [ShowInput "main" 1 "pp-shutdown"; ShowInput "clock" 2 "pp-shutdown"]
  /\ demo_handle_input_event "pp-shutdown" "touch" running
     = Ok tt (add_events
                [MonErr "pp-shutdown removed in version 1.3.3a, see Release Notes";
                 Dialog "Profile Error"
                   ("PiPresents" ++ newline
                    ++ "pp-shutdown removed in version 1.3.3a, see Release Notes") 102;
                 DmTerminate; AnimateTerminate; IoPluginTerminate; GcCollect; LeakGraphs]
                running)
  /\ demo_handle_input_event "pp-shutdown" "touch" running
     <> Ok tt (add_events (deliveries "pp-shutdown" (shows (pp running))) running).
Proof.
  split; [reflexivity |]. split; [reflexivity |]. split; [vm_compute; reflexivity |].
  vm_compute. discriminate.
Qed.

(** *** Commands *)

Lemma mon_err_run (text : string) (w : World) :
  mon_err text w = Ok tt (add_events (err_events (pp w) text) w).
Proof.
  unfold mon_err, err_events, bind, emit, modify, field, gets, ret. cbn.
  destruct (monitor_manager (pp w)).
  - reflexivity.
  - rewrite add_events_app. reflexivity.
Qed.

Lemma tidy_up_run (w : World) : tidy_up w = Ok tt (add_events (tidy_events (pp w)) w).
Proof.
  destruct w as [d g t]. destruct d.
  unfold tidy_up, tidy_events, bind, emit, modify, field, gets, ret, add_events.
  destruct dm0, animate0, ioplugin_manager0, osc_enabled0, tod_enabled0;
    cbn; rewrite <- ?app_assoc; cbn; rewrite ?app_nil_r; reflexivity.
Qed.

Lemma end_error_run (message : string) (w : World) :
  end_ "error" message w
  = (if in_error_exit (pp w) then Raise (SystemExit 102) else Ok tt)
      (add_events (error_end_events (pp w)) w).
Proof.
  unfold end_, error_end_events, bind. rewrite tidy_up_run. cbn [String.eqb Ascii.eqb].
  destruct w as [d g t]. destruct d.
  unfold send_email, emit, modify, field, gets, ret, raise, add_events.
  destruct email_enabled0, email_on_error0, in_error_exit0;
    cbn; rewrite <- ?app_assoc; reflexivity.
Qed.

Lemma command_error_run (message : string) (w : World) :
  command_result "error" message w
  = (if in_error_exit (pp w) then Raise (SystemExit 102) else Ok tt)
      (add_events (err_events (pp w) message ++ error_end_events (pp w)) w).
Proof.
  unfold command_result. rewrite String.eqb_refl. unfold bind.
  rewrite mon_err_run, end_error_run.
  change (pp (add_events (err_events (pp w) message) w)) with (pp w).
  rewrite add_events_app. reflexivity.
Qed.

(** The OK button of the dialog [Monitor.err] opened ends the process with
    the dialog's finish code. *)
Lemma error_dialog_ok_exits (w : World) :
  on_ok_clicked 102 w = Raise (SystemExit 102) (add_events [MonFinish] w).
Proof. reflexivity. Qed.

Section Commands.

Variable parse_osc_command : list Event -> list string -> string * string.
Variable parse_counter_command : list Event -> list string -> string * string.
Variable play_show_beep : list Event -> string -> string * string.
Variable play_show_vibe : list Event -> string -> string * string.
Variable do_backlight_command : list Event -> string -> string * string.
Variable handle_monitor_command : list Event -> list string -> string * string.
Variable parse_animate_fields :
  list Event -> string -> string * string * (string * string * string * list string).
Variable io_handle_output_event :
  list Event -> string -> string -> list string -> Z -> string * string.
Variable control_a_show :
  list Event -> list ShowEntry -> string -> string -> string * string * list ShowEntry.
Variable exit_all_shows : list Event -> list ShowEntry -> string * string * list ShowEntry.
Variable all_shows_exited : list ShowEntry -> bool.

(** C4, as the code has it.  A command whose first token is none of the verbs
    [handle_command] knows ('OSC' is one, next to 'osc') is reported through
    [Monitor.err] as 'command not recognised' and handed to [end] with reason
    'error', which tidies up.  During start-up that call exits the process
    with code 102.  On a started dispatcher outside manager mode [Monitor.err]
    has opened the modal 'Profile Error' dialog with finish code 102, and the
    dialog's OK button ends the run with that code. *)
Theorem unrecognised_command_takes_the_error_path
    (command_text source show f0 : string) (args : list string) (w : World) :
  split command_text = f0 :: args ->
  mem f0 vocabulary = false ->
  let run_command :=
    handle_command parse_osc_command parse_counter_command play_show_beep play_show_vibe
      do_backlight_command handle_monitor_command parse_animate_fields
      io_handle_output_event control_a_show exit_all_shows all_shows_exited
      command_text source show in
  let dialog :=
    Dialog "Profile Error" ("PiPresents" ++ newline ++ "command not recognised: " ++ f0) 102 in
  run_command w
  = (if in_error_exit (pp w) then Raise (SystemExit 102) else Ok tt)
      (add_events (err_events (pp w) ("command not recognised: " ++ f0)
                   ++ error_end_events (pp w)) w)
  /\ In (MonErr ("command not recognised: " ++ f0)) (trace (world_of (run_command w)))
  /\ (monitor_manager (pp w) = false ->
      In dialog (trace (world_of (run_command w)))
      /\ on_ok_clicked 102 (world_of (run_command w))
         = Raise (SystemExit 102) (add_events [MonFinish] (world_of (run_command w)))).
Proof.
  intros Hsplit Hmem. cbv zeta.
  assert (Hblank : blank command_text = false).
  { destruct (blank command_text) eqn:Hb; [| reflexivity].
    apply blank_iff_no_token in Hb. congruence. }
  pose proof (not_in_vocabulary f0 vocabulary Hmem) as Hno.
  assert (Hrun : handle_command parse_osc_command parse_counter_command play_show_beep
                   play_show_vibe do_backlight_command handle_monitor_command
                   parse_animate_fields io_handle_output_event control_a_show
                   exit_all_shows all_shows_exited command_text source show w
                 = (if in_error_exit (pp w) then Raise (SystemExit 102) else Ok tt)
                     (add_events (err_events (pp w) ("command not recognised: " ++ f0)
                                  ++ error_end_events (pp w)) w)).
  { unfold handle_command. rewrite Hblank, Hsplit.
    unfold mem. cbn [existsb].
    rewrite !(fun v H => Hno v H) by (cbn; tauto).
    cbn [orb]. apply command_error_run. }
  rewrite Hrun.
  assert (Htrace : trace (world_of
                     ((if in_error_exit (pp w) then Raise (SystemExit 102) else Ok tt)
                        (add_events (err_events (pp w) ("command not recognised: " ++ f0)
                                     ++ error_end_events (pp w)) w)))
                   = (trace w ++ err_events (pp w) ("command not recognised: " ++ f0)
                      ++ error_end_events (pp w))%list)
    by (destruct (in_error_exit (pp w)); reflexivity).
  split; [reflexivity |]. split.
  - rewrite Htrace. apply in_or_app. right. apply in_or_app. left. left. reflexivity.
  - intros Hmanager. split; [| reflexivity].
    rewrite Htrace. apply in_or_app. right. apply in_or_app. left.
    unfold err_events. rewrite Hmanager. right. left. reflexivity.
Qed.

End Commands.

Lemma unrecognised_command_takes_the_error_path_witness :
  demo_handle_command "restartpipresents now" "osc" "main" running
  = Ok tt (add_events
             (err_events (pp running) "command not recognised: restartpipresents"
              ++ error_end_events (pp running)) running)
  /\ on_ok_clicked 102
       (world_of (demo_handle_command "restartpipresents now" "osc" "main" running))
     = Raise (SystemExit 102)
         (add_events [MonFinish]
            (world_of (demo_handle_command "restartpipresents now" "osc" "main" running))).
Proof.
  destruct (unrecognised_command_takes_the_error_path fine fine fine fine fine fine
              demo_animate_fields demo_output_event demo_control_a_show demo_exit_all_shows
              demo_all_shows_exited "restartpipresents now" "osc" "main"
              "restartpipresents" ["now"] running eq_refl eq_refl)
    as [Hrun [_ Hdialog]].
  unfold demo_handle_command. split; [exact Hrun |].
  exact (proj2 (Hdialog eq_refl)).
Defined.

(** C4, as the specification words it, fails: 'OSC' is not in the vocabulary
    it lists, and an 'OSC' command is no error.  With OSC disabled it is
    ignored; with OSC enabled it is handed to the OSC driver.  In neither case
    is an error reported or the run ended. *)
Lemma command_errors_differ_from_the_spec :
  mem "OSC" spec_vocabulary = false
  /\ demo_handle_command "OSC /pp/core/open main" "osc" "" running = Ok tt running
  /\ demo_handle_command "OSC /pp/core/open main" "osc" "" DispatcherMore.osc_running
     = Ok tt (add_events [OscCommand ["/pp/core/open"; "main"]]
                DispatcherMore.osc_running).
Proof.
  split; [reflexivity |]. split; vm_compute; reflexivity.
Qed.

(** *** Pending intents *)

Section Intents.

Variable parse_osc_command : list Event -> list string -> string * string.
Variable parse_counter_command : list Event -> list string -> string * string.
Variable play_show_beep : list Event -> string -> string * string.
Variable play_show_vibe : list Event -> string -> string * string.
Variable do_backlight_command : list Event -> string -> string * string.
Variable handle_monitor_command : list Event -> list string -> string * string.
Variable parse_animate_fields :
  list Event -> string -> string * string * (string * string * string * list string).
Variable io_handle_output_event :
  list Event -> string -> string -> list string -> Z -> string * string.
Variable control_a_show :
  list Event -> list ShowEntry -> string -> string -> string * string * list ShowEntry.
Variable exit_all_shows : list Event -> list ShowEntry -> string * string * list ShowEntry.
Variable all_shows_exited : list ShowEntry -> bool.
Variable displays : list string.
Variable is_display_connected : list Event -> string -> string * string * string.

(** C5. Whatever the collaborators answer, no sequence of operations on a
    running dispatcher clears an intent that is set: each of
    [shutdown_required], [reboot_required], [terminate_required],
    [exitpipresents_required] and [restartpipresents_required], once True,
    is True after the sequence.  (Only [on_activate], which begins a run,
    assigns False to them.) *)
Theorem pending_intent_is_never_cleared (i : Intent) (ops : list Op) (w : World) :
  pending i (pp w) = true ->
  pending i (pp (run parse_osc_command parse_counter_command play_show_beep
                   play_show_vibe do_backlight_command handle_monitor_command
                   parse_animate_fields io_handle_output_event control_a_show
                   exit_all_shows all_shows_exited displays is_display_connected
                   ops w)) = true.
Proof.
  assert (Hkept : intents_stay w
            (run parse_osc_command parse_counter_command play_show_beep
               play_show_vibe do_backlight_command handle_monitor_command
               parse_animate_fields io_handle_output_event control_a_show
               exit_all_shows all_shows_exited displays is_display_connected ops w)).
  { apply keeps_run.
    - intros w0. apply intents_kept_refl.
    - intros w1 w2 w3. apply intents_kept_trans.
    - intros g w0. apply intents_kept_refl.
    - intros e w0 _. apply intents_kept_refl.
    - intros f w0 Hf. apply Hf.
    - intros e w0. apply intents_kept_refl. }
  destruct Hkept as [Hs [Hb [Ht [He Hr]]]].
  destruct i; cbn [pending]; assumption.
Qed.

End Intents.

Lemma pending_intent_is_never_cleared_witness :
  pending exit_app
    (pp (demo_run [op_handle_command "open main" "tod" "";
                   op_registry [];
                   op_handle_input_event "pp-restartpipresents" "touch";
                   op_timeout 1]
                  exit_requested)) = true.
Proof.
  apply (pending_intent_is_never_cleared fine fine fine fine fine fine
           demo_animate_fields demo_output_event demo_control_a_show demo_exit_all_shows
           demo_all_shows_exited ["HDMI-1"] demo_display_connected exit_app).
  vm_compute. reflexivity.
Defined.

Example intents_after_exit_and_restart :
  let w := demo_run [op_handle_command "open main" "tod" "";
                     op_registry [];
                     op_handle_input_event "pp-restartpipresents" "touch";
                     op_timeout 1]
                    exit_requested in
  exitpipresents_required (pp w) = true
  /\ restartpipresents_required (pp w) = true
  /\ shutdown_required (pp w) = false
  /\ trace w = [ExitAllShows; ControlAShow "main" "open"; StyleBackground "HDMI-1";
                DmTerminate; AnimateTerminate; IoPluginTerminate; MonFinish; AppQuit].
Proof. vm_compute. repeat split; reflexivity. Qed.

End DispatcherFacts.

(* ===================================================================== *)
(** * Further properties of the playback driver                         *)
(* ===================================================================== *)

Module MPVMoreFacts.
Import Py Py.Notations MPV MPVMore MPVFacts.

(** Runs a method on a world whose driver is a record. *)
Ltac run_method := py_unfold; run_cbv.

(** *** Load *)

(** X1. The tick of the load poll that finds the completion signal set (and
    no quit pending) completes the load: the state becomes 'load-frozen' when
    [freeze_at_start] is 'before-first-frame' or 'after-first-frame' and
    'load-ok' otherwise, [frozen_at_start] is raised in both cases, the
    duration is read from the engine, the signal is consumed, and the poll is
    not re-armed.  The widget is shown again only for 'after-first-frame'. *)
Theorem load_completes_in_ok_or_frozen (w : World) (p : Player) (r : MyRenderer) (id : nat) :
  load_status_timer (self w) = Some id ->
  quit_load_signal (self w) = false ->
  load_complete_signal (self w) = Val true ->
  player (self w) = Val p ->
  rend (self w) = Val r ->
  exists w', load_status_loop w = Ok tt w'
    /\ state (self w') = loaded_state (freeze_at_start (self w))
    /\ frozen_at_start (self w') = true
    /\ duration (self w') = Val (p_duration p)
    /\ load_complete_signal (self w') = Val false
    /\ load_status_timer (self w') = None
    /\ GLib.next_id (glib w') = GLib.next_id (glib w)
    /\ rend (self w') =
       Val (if String.eqb (freeze_at_start (self w)) "after-first-frame"
            then r_set_visible true r else r).
Proof.
  intros Ht Hq Hc Hp Hr. destruct w as [d g m]. destruct d. cbn in Ht, Hq, Hc, Hp, Hr. subst.
  unfold load_status_loop, loaded_state. run_method.
  destruct (String.eqb freeze_at_start0 "before-first-frame");
    destruct (String.eqb freeze_at_start0 "after-first-frame");
    run_cbv; eexists; (split; [reflexivity |]); run_cbv;
    repeat (split; [reflexivity |]); reflexivity.
Qed.

Lemma load_completes_in_ok_or_frozen_witness :
  state (self (world_of (load_status_loop first_frame_seen))) = "load-frozen"
  /\ frozen_at_start (self (world_of (load_status_loop first_frame_seen))) = true
  /\ load_status_timer (self (world_of (load_status_loop first_frame_seen))) = None.
Proof.
  assert (Hp : exists p r, player (self first_frame_seen) = Val p
                           /\ rend (self first_frame_seen) = Val r)
    by (vm_compute; do 2 eexists; split; reflexivity).
  destruct Hp as [p [r [Hp Hr]]].
  destruct (load_completes_in_ok_or_frozen first_frame_seen p r 1)
    as [w' [Hrun [Hstate [Hfrozen [_ [_ [Htimer _]]]]]]];
    try assumption; try (vm_compute; reflexivity).
  rewrite Hrun. cbn [world_of]. rewrite Hstate, Hfrozen, Htimer.
  split; [vm_compute; reflexivity |]. split; reflexivity.
Defined.

Lemma idle_load_tick (w : World) (budget : Z) (position : PrimFloat.float) :
  polling budget position w ->
  (1 < budget)%Z ->
  polling (budget - 1) position (world_of (load_status_loop w))
  /\ state (self (world_of (load_status_loop w))) = state (self w)
  /\ monitor (world_of (load_status_loop w)) = monitor w.
Proof.
  intros [Ht Hq Hc Hb Hpos] Hlt. destruct w as [d g m]. destruct d. destruct g.
  cbn in Ht, Hq, Hc, Hb, Hpos. subst.
  destruct load_status_timer0 as [id |]; [| congruence].
  assert (Hb : (budget - 1 <=? 0)%Z = false) by (apply Z.leb_gt; lia). clear Hlt Ht.
  unfold load_status_loop. run_method. rewrite Hb. run_cbv.
  split; [constructor; cbn; try reflexivity; discriminate |]. split; reflexivity.
Qed.

Lemma last_load_tick (w : World) (budget : Z) (position : PrimFloat.float) :
  polling budget position w ->
  (budget <= 1)%Z ->
  state (self (world_of (load_status_loop w))) = "load-fail"
  /\ load_status_timer (self (world_of (load_status_loop w))) = None
  /\ monitor (world_of (load_status_loop w)) = mon_fatal position :: monitor w
  /\ GLib.next_id (glib (world_of (load_status_loop w))) = GLib.next_id (glib w).
Proof.
  intros [Ht Hq Hc Hb Hpos] Hle. destruct w as [d g m]. destruct d. destruct g.
  cbn in Ht, Hq, Hc, Hb, Hpos. subst.
  destruct load_status_timer0 as [id |]; [| congruence].
  assert (Hb : (budget - 1 <=? 0)%Z = true) by (apply Z.leb_le; lia). clear Hle Ht.
  unfold load_status_loop. run_method. rewrite Hb. run_cbv.
  repeat split; reflexivity.
Qed.

(** X2. A load that nothing ends fails by timeout: with a budget of [n+1]
    ticks left, the first [n] ticks of the poll only count the budget down -
    the state, the position and the signals stay as they are and the poll is
    re-armed each time - and tick [n+1] sets the state to 'load-fail', reports
    the fatal error with the load position and leaves the poll disarmed.
    [on_renderer_ready] sets the budget to 500, so the load fails at tick
    500. *)
Theorem load_fails_when_the_budget_is_spent (n : nat) (w : World)
    (position : PrimFloat.float) :
  polling (Z.of_nat (S n)) position w ->
  (forall k, k <= n ->
     polling (Z.of_nat (S n - k)) position (load_ticks k w)
     /\ state (self (load_ticks k w)) = state (self w))
  /\ state (self (load_ticks (S n) w)) = "load-fail"
  /\ load_status_timer (self (load_ticks (S n) w)) = None
  /\ monitor (load_ticks (S n) w) = mon_fatal position :: monitor w.
Proof.
  revert w. induction n as [| n IH]; intros w Hpoll.
  - split.
    + intros k Hk. assert (k = 0) by lia. subst. cbn. split; [exact Hpoll | reflexivity].
    + cbn [load_ticks].
      destruct (last_load_tick w 1 position Hpoll) as [Hs [Ht [Hm _]]]; [lia |].
      split; [exact Hs |]. split; [exact Ht | exact Hm].
  - destruct (idle_load_tick w (Z.of_nat (S (S n))) position Hpoll) as [Hnext [Hs Hm]];
      [lia |].
    replace (Z.of_nat (S (S n)) - 1)%Z with (Z.of_nat (S n)) in Hnext by lia.
    destruct (IH _ Hnext) as [Hmid [Hfs [Hft Hfm]]].
    split.
    + intros k Hk. destruct k as [| k].
      * cbn. split; [exact Hpoll | reflexivity].
      * cbn [load_ticks]. destruct (Hmid k) as [Hp Hst]; [lia |].
        split; [| rewrite Hst; exact Hs].
        replace (S (S n) - S k) with (S n - k) by lia. exact Hp.
    + change (load_ticks (S (S n)) w)
        with (load_ticks (S n) (world_of (load_status_loop w))).
      split; [exact Hfs |]. split; [exact Hft |].
      rewrite Hfm, Hm. reflexivity.
Qed.

Lemma realised_is_polling : polling 500 (-1)%float realised.
Proof. constructor; vm_compute; try reflexivity. discriminate. Qed.

Lemma load_fails_when_the_budget_is_spent_witness :
  state (self (load_ticks 499 realised)) = "load-loading"
  /\ state (self (load_ticks 500 realised)) = "load-fail".
Proof.
  destruct (load_fails_when_the_budget_is_spent 499 realised (-1)%float realised_is_polling)
    as [Hmid [Hfail _]].
  split.
  - destruct (Hmid 499) as [_ Hs]; [lia |]. rewrite Hs. vm_compute. reflexivity.
  - exact Hfail.
Defined.

(** X3. While loading, the engine's property changes are ignored until
    'time-pos' first has a value that is a number not below zero: any other
    property, a missing value and a negative position leave the driver as it
    is.  That first valid position hides the widget, pauses the engine,
    removes the load observer, raises the completion signal and records the
    position. *)
Theorem load_ends_on_the_first_valid_position (name : string)
    (value : option PrimFloat.float) (w : World) :
  (valid_position name value = None -> load_property_change name value w = Ok tt w)
  /\ (forall v p r,
        valid_position name value = Some v ->
        player (self w) = Val p -> rend (self w) = Val r ->
        existsb (observer_eqb ("time-pos", load_property_change_h)) (p_observers p) = true ->
        load_property_change name value w
        = Ok tt (on_self (fun d =>
                   set_load_position (Val v)
                     (set_load_complete_signal (Val true)
                        (set_player
                           (Val (set_p_observers
                                   (remove_first ("time-pos", load_property_change_h)
                                                 (p_observers p))
                                   (set_p_pause true p)))
                           (set_rend (Val (r_set_visible false r)) d)))) w)).
Proof.
  unfold valid_position, load_property_change. split.
  - destruct value as [v |]; [| reflexivity].
    destruct (String.eqb name "time-pos" && PrimFloat.leb 0%float v);
      [discriminate | reflexivity].
  - intros v p r Hv Hp Hr Hobs. destruct value as [v' |]; [| discriminate].
    destruct (String.eqb name "time-pos" && PrimFloat.leb 0%float v'); [| discriminate].
    injection Hv as ->. destruct w as [d g m]. destruct d. cbn in Hp, Hr. subst.
    run_method. rewrite Hobs. run_cbv. reflexivity.
Qed.

Lemma load_ends_on_the_first_valid_position_witness :
  load_property_change "time-pos" (Some (-1)%float) realised = Ok tt realised
  /\ load_complete_signal
       (self (world_of (load_property_change "time-pos" (Some 0.04%float) realised)))
     = Val true.
Proof.
  destruct (load_ends_on_the_first_valid_position "time-pos" (Some (-1)%float) realised)
    as [Hignored _].
  destruct (load_ends_on_the_first_valid_position "time-pos" (Some 0.04%float) realised)
    as [_ Hvalid].
  assert (Hp : exists p r, player (self realised) = Val p /\ rend (self realised) = Val r
                 /\ existsb (observer_eqb ("time-pos", load_property_change_h))
                            (p_observers p) = true)
    by (vm_compute; do 2 eexists; repeat split; reflexivity).
  destruct Hp as [p [r [Hp [Hr Hobs]]]].
  split.
  - apply Hignored. vm_compute. reflexivity.
  - rewrite (Hvalid 0.04%float p r eq_refl Hp Hr Hobs). reflexivity.
Defined.

(** X4. [unload] is immediate except during a load: in state 'load-loading'
    it only raises the quit signal, and it is the next tick of the load poll
    that stops the engine, consumes the signal, sets 'load-unloaded' and
    leaves the poll disarmed; in every other state [unload] sets
    'load-unloaded' at once and touches nothing else - the engine is not
    stopped. *)
Theorem unload_waits_for_the_poll_only_while_loading (w : World) :
  (state (self w) = "load-loading" ->
     unload w = Ok tt (on_self (set_quit_load_signal true) w)
     /\ forall p id, player (self w) = Val p -> load_status_timer (self w) = Some id ->
          exists w', load_status_loop (on_self (set_quit_load_signal true) w) = Ok tt w'
            /\ state (self w') = "load-unloaded"
            /\ quit_load_signal (self w') = false
            /\ load_status_timer (self w') = None
            /\ player (self w') = Val (set_p_file None p))
  /\ (state (self w) <> "load-loading" ->
        unload w = Ok tt (on_self (set_state "load-unloaded") w)).
Proof.
  split; intros Hs.
  - assert (Hrun : unload w = Ok tt (on_self (set_quit_load_signal true) w)).
    { unfold unload. py_unfold. rewrite Hs. reflexivity. }
    split; [exact Hrun |]. intros p id Hp Ht.
    destruct w as [d g m]. destruct d. cbn in Hp, Ht, Hs. subst.
    unfold load_status_loop. run_method.
    eexists. split; [reflexivity |]. repeat split; reflexivity.
  - unfold unload. py_unfold.
    destruct (String.eqb_spec (state (self w)) "load-loading"); [contradiction |].
    reflexivity.
Qed.

Lemma unload_waits_for_the_poll_only_while_loading_witness :
  state (self (world_of (unload realised))) = "load-loading"
  /\ quit_load_signal (self (world_of (unload realised))) = true
  /\ state (self (world_of (unload loaded_no_freeze))) = "load-unloaded".
Proof.
  destruct (unload_waits_for_the_poll_only_while_loading realised) as [Hloading _].
  destruct (unload_waits_for_the_poll_only_while_loading loaded_no_freeze) as [_ Hother].
  rewrite (proj1 (Hloading eq_refl)). rewrite Hother.
  - split; [reflexivity |]. split; reflexivity.
  - vm_compute. discriminate.
Defined.

(** *** Pause *)

Lemma pause_on_and_pause_off_reject (w : World) :
  can_pause (self w) = false ->
  pause_on w = Ok "pause-on-reject" w /\ pause_off w = Ok "pause-off-reject" w.
Proof.
  intros Hc. unfold pause_on, pause_off. py_unfold. rewrite Hc. split; reflexivity.
Qed.

(** X5. [pause_on] and [pause_off] obey the guard of [pause]: outside a
    running show they return 'pause-on-reject' and 'pause-off-reject' and
    change nothing.  Inside one they set the engine's pause and [user_pause]
    to the same value, whatever it was before, so each is idempotent and each
    undoes the other; [pause] after [pause_on] is [pause_off] and the other
    way round, and two [pause] calls in a row restore the pause the user had
    set. *)
Theorem pause_commands_compose (w : World) (p : Player) :
  (can_pause (self w) = false ->
     pause_on w = Ok "pause-on-reject" w /\ pause_off w = Ok "pause-off-reject" w)
  /\ (can_pause (self w) = true ->
      player (self w) = Val p ->
      pause_on w = Ok "pause-on-ok" (paused true p w)
      /\ pause_off w = Ok "pause-off-ok" (paused false p w)
      /\ pause_on (paused true p w) = Ok "pause-on-ok" (paused true p w)
      /\ pause_off (paused true p w) = Ok "pause-off-ok" (paused false p w)
      /\ pause (paused true p w) = Ok "pause-off-ok" (paused false p w)
      /\ pause (paused false p w) = Ok "pause-on-ok" (paused true p w)
      /\ world_of (pause (world_of (pause w))) = paused (user_pause (self w)) p w).
Proof.
  split; [apply pause_on_and_pause_off_reject |].
  intros Hc Hp. destruct w as [d g m]. destruct d. cbn in Hp. subst.
  apply can_pause_true in Hc. cbn in Hc. destruct Hc as [-> [-> ->]].
  unfold pause_on, pause_off, pause, paused, can_pause.
  repeat split; try (run_method; reflexivity).
  destruct user_pause0; run_method; reflexivity.
Qed.

Lemma pause_commands_compose_witness :
  pause_on loaded_no_freeze = Ok "pause-on-reject" loaded_no_freeze
  /\ returned (pause_on showing_freeze_at_end) = Some "pause-on-ok"
  /\ user_pause (self (world_of (pause (world_of (pause showing_freeze_at_end))))) = false.
Proof.
  assert (Hp : exists p, player (self showing_freeze_at_end) = Val p)
    by (vm_compute; eexists; reflexivity).
  destruct Hp as [p Hp].
  assert (Hc : can_pause (self showing_freeze_at_end) = true) by (vm_compute; reflexivity).
  destruct (pause_commands_compose loaded_no_freeze new_player) as [Hreject _].
  destruct (pause_commands_compose showing_freeze_at_end p) as [_ Haccept].
  destruct (Haccept Hc Hp) as [Hon [_ [_ [_ [_ [_ Htwice]]]]]].
  split; [apply Hreject; vm_compute; reflexivity |].
  rewrite Hon, Htwice. split; [reflexivity |]. vm_compute. reflexivity.
Defined.

(** *** Show *)

(** X6. On a driver built with [freeze_at_start] 'no', [show] starts the
    show as [go] does: state 'show-showing', engine unpaused, volume set,
    completion signal cleared, the show observer registered,
    [frozen_at_start] cleared and the show poll armed.  On a loaded driver
    whose file has a video track the two calls leave the same world.  The one
    difference is the widget, which [show] does not make visible when the
    file has no video track. *)
Theorem show_starts_the_show_like_go (initial_volume : Z) (w : World) (p : Player)
    (r : MyRenderer) (hv : bool) :
  freeze_at_start (self w) = "no" ->
  player (self w) = Val p ->
  rend (self w) = Val r ->
  has_video (self w) = Val hv ->
  show initial_volume w
  = Ok tt (if hv then started_showing initial_volume p r w
           else on_self (set_rend (Val r)) (started_showing initial_volume p r w))
  /\ (frozen_at_start (self w) = true ->
      hv = true ->
      world_of (go initial_volume w) = world_of (show initial_volume w)).
Proof.
  intros Hfas Hp Hr Hhv. destruct w as [d g m]. destruct d. destruct g.
  cbn in Hfas, Hp, Hr, Hhv. subst. split.
  - unfold show, started_showing, on_self. destruct hv; run_method; reflexivity.
  - cbn [self frozen_at_start]. intros -> ->.
    unfold show, go. run_method. reflexivity.
Qed.

Lemma show_starts_the_show_like_go_witness :
  state (self (world_of (show 100 loaded_no_freeze))) = "show-showing"
  /\ frozen_at_start (self (world_of (show 100 loaded_no_freeze))) = false
  /\ world_of (go 100 loaded_no_freeze) = world_of (show 100 loaded_no_freeze).
Proof.
  assert (Hp : exists p r, player (self loaded_no_freeze) = Val p
                           /\ rend (self loaded_no_freeze) = Val r)
    by (vm_compute; do 2 eexists; split; reflexivity).
  destruct Hp as [p [r [Hp Hr]]].
  destruct (show_starts_the_show_like_go 100 loaded_no_freeze p r true eq_refl Hp Hr)
    as [Hshow Hgo]; [vm_compute; reflexivity |].
  split; [rewrite Hshow; reflexivity |]. split; [rewrite Hshow; reflexivity |].
  apply Hgo; [vm_compute; reflexivity | reflexivity].
Defined.

(** X7. After a tick of the show poll the driver holds a timer - a fresh
    one, whose callback is the poll again - only when neither a quit nor a
    completion was pending; in that case the state and the engine are
    untouched.  When one was pending the poll is left disarmed.  A quit is
    always consumed; a completion is consumed only when no quit was pending
    with it. *)
Theorem show_poll_rearms_only_while_nothing_is_pending (w : World) (p : Player)
    (r : MyRenderer) (c : bool) :
  player (self w) = Val p ->
  rend (self w) = Val r ->
  show_complete_signal (self w) = Val c ->
  exists w', show_status_loop w = Ok tt w'
    /\ show_status_timer (self w') =
       (if quit_show_signal (self w) || c then None
        else Some (GLib.next_id (glib w)))
    /\ quit_show_signal (self w') = false
    /\ show_complete_signal (self w') =
       Val (if quit_show_signal (self w) then c else false)
    /\ (quit_show_signal (self w) || c = false ->
          state (self w') = state (self w)
          /\ player (self w') = Val p
          /\ GLib.callback_of (GLib.next_id (glib w)) (glib w') = Some show_status_loop_cb).
Proof.
  intros Hp Hr Hc. destruct w as [d g m]. destruct d. destruct g as [nx src rm].
  cbn in Hp, Hr, Hc. subst.
  unfold show_status_loop, GLib.callback_of.
  destruct show_status_timer0, quit_show_signal0, c;
    destruct (String.eqb freeze_at_end0 "yes") eqn:Hfae;
    run_method; rewrite ?Hfae; run_cbv;
    eexists; (split; [reflexivity |]); run_cbv;
    (split; [reflexivity |]); (split; [reflexivity |]); (split; [reflexivity |]);
    intros Hq; try discriminate Hq;
    (split; [reflexivity |]); (split; [reflexivity |]);
    cbn [find fst]; rewrite Nat.eqb_refl; reflexivity.
Qed.

Lemma show_poll_rearms_only_while_nothing_is_pending_witness :
  show_status_timer (self (world_of (show_status_loop showing_freeze_at_end))) = Some 3
  /\ show_status_timer (self (world_of (show_status_loop stop_and_end_in_one_tick))) = None.
Proof.
  assert (Hp : exists p r, player (self showing_freeze_at_end) = Val p
                           /\ rend (self showing_freeze_at_end) = Val r)
    by (vm_compute; do 2 eexists; split; reflexivity).
  destruct Hp as [p [r [Hp Hr]]].
  assert (Hq : exists p r, player (self stop_and_end_in_one_tick) = Val p
                           /\ rend (self stop_and_end_in_one_tick) = Val r)
    by (vm_compute; do 2 eexists; split; reflexivity).
  destruct Hq as [p' [r' [Hp' Hr']]].
  destruct (show_poll_rearms_only_while_nothing_is_pending showing_freeze_at_end p r false
              Hp Hr) as [w1 [Hrun1 [Ht1 _]]]; [vm_compute; reflexivity |].
  destruct (show_poll_rearms_only_while_nothing_is_pending stop_and_end_in_one_tick p' r'
              true Hp' Hr') as [w2 [Hrun2 [Ht2 _]]]; [vm_compute; reflexivity |].
  rewrite Hrun1, Hrun2. cbn [world_of]. rewrite Ht1, Ht2. split; vm_compute; reflexivity.
Defined.

(** X8. Without [freeze_at_end], no position ends a show, however close to
    the duration: a 'time-pos' that is a number only resets [show_position]
    to -1.  Only the end of the stream ('time-pos' becoming None) ends it: the
    observer callback then raises the completion signal without changing the
    state, and the next tick of the show poll sets 'show-niceday', turns the
    video off, hides the widget and stops the engine, leaving the poll
    disarmed and [frozen_at_end] False. *)
Theorem show_without_freeze_ends_only_at_end_of_stream (w : World) (p : Player)
    (r : MyRenderer) :
  freeze_at_end (self w) <> "yes" ->
  player (self w) = Val p ->
  rend (self w) = Val r ->
  existsb (observer_eqb ("time-pos", show_complete_change_h)) (p_observers p) = true ->
  quit_show_signal (self w) = false ->
  (forall v, show_complete_change "time-pos" (Some v) w
             = Ok tt (on_self (set_show_position (Val (Some (-1)%float))) w))
  /\ exists w1 w2,
       show_complete_change "time-pos" None w = Ok tt w1
       /\ show_complete_signal (self w1) = Val true
       /\ state (self w1) = state (self w)
       /\ show_status_loop w1 = Ok tt w2
       /\ state (self w2) = "show-niceday"
       /\ frozen_at_end (self w2) = false
       /\ show_status_timer (self w2) = None
       /\ rend (self w2) = Val (r_set_visible false r)
       /\ player (self w2) =
          Val (set_p_file None
                 (set_p_video false
                    (set_p_observers
                       (remove_first ("time-pos", show_complete_change_h) (p_observers p))
                       (set_p_volume 0 p)))).
Proof.
  intros Hfae Hp Hr Hobs Hq. destruct w as [d g m]. destruct d. destruct g.
  cbn in Hfae, Hp, Hr, Hq. subst.
  destruct (String.eqb_spec freeze_at_end0 "yes") as [| _]; [contradiction |].
  assert (Hno : String.eqb freeze_at_end0 "yes" = false)
    by (apply String.eqb_neq; exact Hfae).
  split.
  - intros v. unfold show_complete_change. run_method. rewrite Hno. reflexivity.
  - unfold show_complete_change.
    destruct show_status_timer0; run_method; rewrite Hno;
      change (String.eqb "time-pos" "time-pos") with true; run_cbv;
      rewrite Hobs; run_cbv;
      do 2 eexists; (split; [reflexivity |]); (split; [reflexivity |]);
      (split; [reflexivity |]);
      unfold show_status_loop; run_method; rewrite Hno; run_cbv;
      repeat (split; [reflexivity |]); reflexivity.
Qed.

Lemma show_without_freeze_ends_only_at_end_of_stream_witness :
  state (self (world_of (show_complete_change "time-pos" (Some 2.5%float)
                           (world_of (show 100 loaded_no_freeze))))) = "show-showing"
  /\ show_complete_signal
       (self (world_of (show_complete_change "time-pos" (Some 2.5%float)
                          (world_of (show 100 loaded_no_freeze))))) = Val false.
Proof.
  assert (Hp : exists p r, player (self (world_of (show 100 loaded_no_freeze))) = Val p
                 /\ rend (self (world_of (show 100 loaded_no_freeze))) = Val r
                 /\ existsb (observer_eqb ("time-pos", show_complete_change_h))
                            (p_observers p) = true)
    by (vm_compute; do 2 eexists; repeat split; reflexivity).
  destruct Hp as [p [r [Hp [Hr Hobs]]]].
  destruct (show_without_freeze_ends_only_at_end_of_stream
              (world_of (show 100 loaded_no_freeze)) p r) as [Hvalue _];
    try assumption; try (vm_compute; reflexivity).
  - vm_compute. discriminate.
  - rewrite Hvalue. split; vm_compute; reflexivity.
Defined.

(** *** Engine options *)

Lemma set_player_twice (a b : attr Player) (w : World) :
  on_self (set_player a) (on_self (set_player b) w) = on_self (set_player a) w.
Proof. destruct w as [d g m]. destruct d. reflexivity. Qed.

Lemma set_player_same (w : World) : on_self (set_player (player (self w))) w = w.
Proof. destruct w as [d g m]. destruct d. reflexivity. Qed.

Section Options.

Variable accepts : string -> string -> bool.

(** X9. [apply_options] sets the options in order and stops at the first one
    the engine refuses: the options before it stay set, the refused one and
    all after it are not, and the result is 'error' with a message naming the
    refused option.  With none refused all are set and the result is 'normal'
    with an empty message. *)
Theorem apply_options_stops_at_the_first_refusal (opts : list (string * string))
    (w : World) (p : Player) :
  player (self w) = Val p ->
  apply_options accepts opts w
  = Ok (match first_refused accepts opts with
        | None => ("normal", "")
        | Some (k, v) => ("error", "bad MPV option: " ++ k ++ " " ++ v)
        end)
       (on_self (set_player
                   (Val (set_p_options (p_options p ++ accepted_prefix accepts opts) p)))
                w).
Proof.
  revert w p. induction opts as [| [k v] rest IH]; intros w p Hp.
  - cbn [apply_options first_refused accepted_prefix]. unfold ret.
    rewrite app_nil_r.
    replace (set_p_options (p_options p) p) with p by (destruct p; reflexivity).
    rewrite <- Hp, set_player_same. reflexivity.
  - cbn [apply_options first_refused accepted_prefix]. rewrite Hp.
    destruct (accepts k v).
    + unfold bind, upd, modify.
      rewrite (IH _ (set_p_options (p_options p ++ [(k, v)]) p))
        by (destruct w as [d g m]; destruct d; reflexivity).
      rewrite set_player_twice.
      replace (set_p_options
                 (p_options (set_p_options (p_options p ++ [(k, v)]) p)
                  ++ accepted_prefix accepts rest)
                 (set_p_options (p_options p ++ [(k, v)]) p))
        with (set_p_options (p_options p ++ (k, v) :: accepted_prefix accepts rest) p).
      * reflexivity.
      * destruct p. cbn. rewrite <- app_assoc. reflexivity.
    + rewrite app_nil_r.
      replace (set_p_options (p_options p) p) with p by (destruct p; reflexivity).
      rewrite <- Hp, set_player_same. reflexivity.
Qed.

End Options.

Lemma apply_options_stops_at_the_first_refusal_witness :
  returned (apply_options (fun k _ => negb (String.eqb k "sid"))
              [("vo", "gpu"); ("sid", "auto"); ("mute", "yes")] realised)
  = Some ("error", "bad MPV option: sid auto").
Proof.
  assert (Hp : exists p, player (self realised) = Val p) by (vm_compute; eexists; reflexivity).
  destruct Hp as [p Hp].
  rewrite (apply_options_stops_at_the_first_refusal
             (fun k _ => negb (String.eqb k "sid"))
             [("vo", "gpu"); ("sid", "auto"); ("mute", "yes")] realised p Hp).
  reflexivity.
Defined.

(** *** The state vocabulary *)

Section Vocabulary.

Variable parse : string -> list string.
Variable accepts : string -> string -> bool.
Variable dur : string -> option PrimFloat.float.

Ltac after_options :=
  match goal with
  | |- context [MPV.apply_options ?acc ?o ?W] =>
      let r := fresh "r" in let pl := fresh "pl" in
      let Hrun := fresh "Hrun" in
      destruct (apply_options_only_sets_options parse acc dur o W) as [r [pl [Hrun _]]];
      rewrite Hrun; clear Hrun; destruct pl
  end.

Ltac known :=
  first [ assumption | solve [repeat (first [left; reflexivity | right])] ].

Lemma perform_keeps_the_state_known (c : Call) (w : World) :
  In (state (self w)) states ->
  In (state (self (perform parse accepts dur c w))) states.
Proof.
  intros H. destruct w as [d g m]. destruct d. destruct g as [nx src rm].
  cbn [self state] in H.
  destruct c as [| | | | | | | | | | | | [|] |]; unfold perform.
  all: unfold load, on_renderer_ready, handler, callback, registered, GLib.callback_of,
              load_property_change, load_status_loop, show,
              show_complete_change, near_end, show_status_loop, close, go, pause, pause_on,
              pause_off, can_pause, stop, unload, mute, unmute, file_has_video;
       py_unfold; run_cbv;
       repeat (first [after_options | case_ctrl]; run_cbv);
       known.
Qed.

(** X10. Whatever is called on a driver, in whatever order and with whatever
    the engine reports, [state] is always one of nine values: 'idle', the five
    'load-' states and the three 'show-' states. *)
Theorem state_is_always_a_known_one (w : World) :
  reachable parse accepts dur w -> In (state (self w)) states.
Proof.
  intros [fas [fae [bg [cs ->]]]].
  assert (Hinit : In (state (self (new_world (init fas fae bg)))) states)
    by (left; reflexivity).
  revert Hinit. generalize (new_world (init fas fae bg)).
  induction cs as [| c cs IH]; intros w Hw.
  - exact Hw.
  - cbn [run fold_left]. apply IH. apply perform_keeps_the_state_known. exact Hw.
Qed.

End Vocabulary.

Lemma state_is_always_a_known_one_witness : In (state (self stop_and_end_in_one_tick)) states.
Proof.
  apply (state_is_always_a_known_one demo_parse demo_accepts demo_duration).
  exists "no", "yes", "white",
    ((load_calls ++ [c_show 100])
     ++ [c_stop; c_observed show_complete_change_h "time-pos" None])%list.
  unfold stop_and_end_in_one_tick, showing_freeze_at_end, demo_run, run.
  symmetry. apply fold_left_app.
Defined.

End MPVMoreFacts.

(* ===================================================================== *)
(** * Further properties of the dispatcher                              *)
(* ===================================================================== *)

Module DispatcherMoreFacts.
Import Py Py.Notations Dispatcher DispatcherMore DispatcherFacts.

(** *** Ending *)

Lemma end_killed_run (message : string) (w : World) :
  end_ "killed" message w
  = Raise (SystemExit 101) (add_events (killed_end_events (pp w)) w).
Proof.
  unfold end_, killed_end_events, bind. rewrite tidy_up_run. cbn [String.eqb Ascii.eqb].
  destruct w as [d g t]. destruct d.
  unfold send_email, emit, modify, field, gets, ret, raise, add_events.
  destruct email_enabled0, email_on_terminate0; cbn; rewrite <- ?app_assoc; reflexivity.
Qed.

Lemma end_normal_run (reason message : string) (w : World) :
  String.eqb reason "killed" = false ->
  String.eqb reason "error" = false ->
  end_ reason message w
  = exits_with (if restartpipresents_required (pp w) then None else Some 100%Z)
      (add_events (normal_end_events (pp w)) w).
Proof.
  intros Hk He.
  unfold end_, normal_end_events, bind. rewrite tidy_up_run. rewrite Hk, He.
  destruct w as [d g t]. destruct d.
  unfold exits_with, emit, modify, field, gets, ret, raise, add_events.
  destruct restartpipresents_required0, reboot_required0, shutdown_required0;
    cbn; rewrite <- ?app_assoc; reflexivity.
Qed.

Lemma end_run (reason message : string) (w : World) :
  end_ reason message w
  = exits_with (exit_code reason (pp w)) (add_events (end_events reason (pp w)) w).
Proof.
  unfold exit_code, end_events.
  destruct (String.eqb reason "killed") eqn:Hk.
  - apply String.eqb_eq in Hk. subst. apply end_killed_run.
  - destruct (String.eqb reason "error") eqn:He.
    + apply String.eqb_eq in He. subst. rewrite end_error_run.
      destruct (in_error_exit (pp w)); reflexivity.
    + rewrite (end_normal_run reason message w Hk He).
      destruct (restartpipresents_required (pp w)); reflexivity.
Qed.

(** *** Termination *)

Lemma terminate_shows_run (entries : list ShowEntry) (b : bool) (w : World) :
  terminate_shows entries b w
  = Ok (b || existsb is_running entries) (add_events (terminations entries) w).
Proof.
  revert b w. induction entries as [| e entries IH]; intros b w;
    cbn [terminate_shows terminations flat_map existsb].
  - unfold ret. rewrite add_events_nil, orb_false_r. reflexivity.
  - unfold is_running at 1. destruct (show_obj e) as [o |].
    + unfold bind, emit, modify. rewrite IH, add_events_app.
      rewrite orb_true_r. reflexivity.
    + rewrite IH. reflexivity.
Qed.



(** *** Lifecycle events *)

Lemma terminate_run (w : World) :
  terminate w
  = (if existsb is_running (shows (pp w))
     then Ok tt (add_events (terminations (shows (pp w)))
                   (on_pp (set_terminate_required true) w))
     else Raise (SystemExit 101)
            (add_events (killed_end_events (pp w))
               (on_pp (set_terminate_required true) w))).
Proof.
  unfold terminate, bind, upd, modify, field, gets.
  change (shows (pp (on_pp (set_terminate_required true) w))) with (shows (pp w)).
  rewrite terminate_shows_run. cbn [orb].
  destruct (existsb is_running (shows (pp w))) eqn:Hrun; [reflexivity |].
  rewrite end_killed_run.
  assert (Hnone : terminations (shows (pp w)) = []).
  { clear - Hrun. induction (shows (pp w)) as [| e l IH]; [reflexivity |].
    cbn [existsb] in Hrun. apply orb_false_elim in Hrun. destruct Hrun as [He Hl].
    cbn [terminations flat_map]. unfold is_running in He.
    destruct (show_obj e); [discriminate |]. apply IH. exact Hl. }
  rewrite Hnone, add_events_nil.
  destruct w as [d g t]. destruct d. reflexivity.
Qed.

Section Lifecycle.

Variable exit_all_shows : list Event -> list ShowEntry -> string * string * list ShowEntry.
Variable all_shows_exited : list ShowEntry -> bool.

Local Abbreviation input_event := (handle_input_event exit_all_shows all_shows_exited).

Lemma exit_request_run (flag : bool -> PiPresents -> PiPresents) (w : World) :
  (upd (flag true) ;;
   x <- sm_all_shows_exited all_shows_exited ;;
   if x then
     id <- timeout_add 1 e_all_shows_ended_callback_cb ;;
     upd (set_e_all_shows_ended_callback_timer (Val id))
   else _ <- sm_exit_all_shows exit_all_shows ;; ret tt)%py w
  = Ok tt (exit_request exit_all_shows all_shows_exited flag w).
Proof.
  unfold exit_request.
  cbv beta iota delta [bind upd modify sm_all_shows_exited field gets ret].
  destruct (all_shows_exited (shows (pp (on_pp (flag true) w)))); [reflexivity |].
  cbv beta iota delta [sm_exit_all_shows bind history field gets emit upd modify ret].
  destruct (exit_all_shows _ _) as [[reason message] sh']. reflexivity.
Qed.

(** C3, as the code has it.  [handle_input_event] treats five symbols itself
    and delivers none of them to any show.  'pp-terminate' is the user's
    abort: the intent is recorded and the running shows are told to terminate,
    or, with none running, the run ends with 101.  'pp-shutdown' is rejected:
    the error is reported and handed to [end].  'pp-shutdownnow' arms the
    shutdown on the main loop.  'pp-exitpipresents' and 'pp-restartpipresents'
    record their intent and, with every show exited, arm the all-shows-ended
    callback, otherwise tell the show manager to exit all shows.  Every other
    symbol is delivered to each entry of the registry that has a show object,
    in the registry's order, and nothing else happens. *)
Theorem input_event_is_broadcast_unless_lifecycle (symbol source : string) (w : World) :
  (mem symbol lifecycle_symbols = false ->
     input_event symbol source w
     = Ok tt (add_events (deliveries symbol (shows (pp w))) w))
  /\ (mem symbol lifecycle_symbols = true ->
        deliveries_in (trace (world_of (input_event symbol source w)))
        = deliveries_in (trace w))
  /\ input_event "pp-terminate" source w
     = (if existsb is_running (shows (pp w))
        then Ok tt (add_events (terminations (shows (pp w)))
                      (on_pp (set_terminate_required true) w))
        else Raise (SystemExit 101)
               (add_events (killed_end_events (pp w))
                  (on_pp (set_terminate_required true) w)))
  /\ input_event "pp-shutdown" source w
     = (if in_error_exit (pp w) then Raise (SystemExit 102) else Ok tt)
         (add_events
            (err_events (pp w) "pp-shutdown removed in version 1.3.3a, see Release Notes"
             ++ error_end_events (pp w)) w)
  /\ input_event "pp-shutdownnow" source w
     = Ok tt (deferred shutdownnow_pressed_cb set_shutdownnow_pressed_timer w)
  /\ input_event "pp-exitpipresents" source w
     = Ok tt (exit_request exit_all_shows all_shows_exited set_exitpipresents_required w)
  /\ input_event "pp-restartpipresents" source w
     = Ok tt (exit_request exit_all_shows all_shows_exited
                set_restartpipresents_required w).
Proof.
  repeat match goal with |- _ /\ _ => split end.
  - intros Hmem. unfold mem, lifecycle_symbols in Hmem. cbn [existsb] in Hmem.
    repeat (apply orb_false_elim in Hmem; destruct Hmem as [? Hmem]).
    unfold handle_input_event.
    repeat match goal with H : String.eqb _ _ = false |- _ => rewrite H; clear H end.
    unfold bind, field, gets. apply broadcast_delivers.
  - intros Hmem.
    apply (keeps_lifecycle_event exit_all_shows all_shows_exited same_deliveries).
    + intros w0. reflexivity.
    + intros w1 w2 w3 H12 H23. unfold same_deliveries in *. congruence.
    + intros g w0. reflexivity.
    + intros e w0 He. unfold same_deliveries, add_events. cbn [trace].
      rewrite deliveries_in_app. unfold deliveries_in at 2. cbn [filter]. rewrite He.
      apply app_nil_r.
    + intros f w0 _. reflexivity.
    + exact Hmem.
  - unfold handle_input_event, handle_user_abort. cbn [String.eqb Ascii.eqb Bool.eqb].
    apply terminate_run.
  - unfold handle_input_event. cbn [String.eqb Ascii.eqb Bool.eqb].
    unfold bind. rewrite mon_err_run, end_error_run. cbn [pp add_events].
    rewrite add_events_app. reflexivity.
  - reflexivity.
  - unfold handle_input_event. cbn [String.eqb Ascii.eqb Bool.eqb].
    apply exit_request_run.
  - unfold handle_input_event. cbn [String.eqb Ascii.eqb Bool.eqb].
    apply exit_request_run.
Qed.

End Lifecycle.

Lemma input_event_is_broadcast_unless_lifecycle_witness :
  demo_handle_input_event "pp-play" "touch" running
  = Ok tt (add_events [ShowInput "main" 1 "pp-play"; ShowInput "clock" 2 "pp-play"] running)
  /\ deliveries_in (trace (world_of (demo_handle_input_event "pp-terminate" "touch" running)))
     = []
  /\ demo_handle_input_event "pp-terminate" "touch" running
     = Ok tt (add_events [ShowTerminate "main" 1; ShowTerminate "clock" 2]
                (on_pp (set_terminate_required true) running))
  /\ demo_handle_input_event "pp-exitpipresents" "touch" running
     = Ok tt (add_events [ExitAllShows] (on_pp (set_exitpipresents_required true) running)).
Proof.
  destruct (input_event_is_broadcast_unless_lifecycle
              demo_exit_all_shows demo_all_shows_exited "pp-play" "touch" running)
    as [Hother [_ [Hterminate [_ [_ [Hexit _]]]]]].
  destruct (input_event_is_broadcast_unless_lifecycle
              demo_exit_all_shows demo_all_shows_exited "pp-terminate" "touch" running)
    as [_ [Hlife _]].
  unfold demo_handle_input_event.
  split; [exact (Hother eq_refl) |]. split; [exact (Hlife eq_refl) |].
  split; [rewrite Hterminate; reflexivity |].
  rewrite Hexit. vm_compute. reflexivity.
Defined.

(** *** The end of all shows *)

Section Ended.

Variable displays : list string.
Variable is_display_connected : list Event -> string -> string * string * string.

Lemma restyle_displays_run (ds : list string) (message : string) (w : World) :
  restyle_displays is_display_connected ds message w
  = Ok (snd (restyled is_display_connected (trace w) ds message))
       (add_events (fst (restyled is_display_connected (trace w) ds message)) w).
Proof.
  revert message w. induction ds as [| d ds IH]; intros message w;
    cbn [restyle_displays restyled].
  - unfold ret. cbn [fst snd]. rewrite add_events_nil. reflexivity.
  - unfold bind, history, gets.
    destruct (is_display_connected (trace w) d) as [[status message'] d'].
    destruct (String.eqb status "normal").
    + unfold emit, modify. rewrite IH. cbn [add_events trace].
      destruct (restyled is_display_connected (trace w ++ [StyleBackground d']) ds message')
        as [es' m]. cbn [fst snd]. rewrite add_events_app. reflexivity.
    + unfold ret. rewrite IH. rewrite app_nil_r.
      destruct (restyled is_display_connected (trace w) ds message') as [es' m].
      reflexivity.
Qed.

Lemma restyled_are_backgrounds (h : list Event) (ds : list string) (message : string) :
  Forall (fun e => exists d, e = StyleBackground d)
         (fst (restyled is_display_connected h ds message))
  /\ length (fst (restyled is_display_connected h ds message)) <= length ds.
Proof.
  revert h message. induction ds as [| d ds IH]; intros h message; cbn [restyled].
  - split; [constructor | apply le_n].
  - destruct (is_display_connected h d) as [[status message'] d'].
    destruct (String.eqb status "normal").
    + destruct (IH (h ++ [StyleBackground d'])%list message') as [Hall Hlen].
      destruct (restyled is_display_connected (h ++ [StyleBackground d']) ds message')
        as [es' m]. cbn [fst] in *. split.
      * constructor; [eexists; reflexivity | exact Hall].
      * cbn [length app]. lia.
    + destruct (IH (h ++ [])%list message') as [Hall Hlen].
      destruct (restyled is_display_connected (h ++ []) ds message') as [es' m].
      cbn [fst app] in *. split; [exact Hall | cbn [length]; lia].
Qed.

Lemma all_shows_ended_callback_run (reason message : string) (w : World) :
  all_shows_ended_callback displays is_display_connected reason message w
  = (if ends_the_run reason (pp w)
     then end_ reason (snd (restyled is_display_connected (trace w) displays message))
            (add_events (fst (restyled is_display_connected (trace w) displays message)) w)
     else Ok tt
            (add_events (fst (restyled is_display_connected (trace w) displays message)) w)).
Proof.
  unfold all_shows_ended_callback, bind. rewrite restyle_displays_run.
  unfold field, gets, ret, ends_the_run. cbn [pp add_events].
  destruct (mem reason ["killed"; "error"] || shutdown_required (pp w)
            || exitpipresents_required (pp w) || reboot_required (pp w)
            || restartpipresents_required (pp w)); reflexivity.
Qed.

(** X13. The callback the show manager makes when all shows have ended first
    restyles the background of every connected display.  It then ends the run
    exactly when the reason is 'killed' or 'error' or one of the shutdown,
    exit, reboot and restart intents is pending, passing on the message the
    display loop left.  [terminate_required] is not among the
    conditions: with only that intent pending and a 'normal' reason the
    callback returns, nothing is tidied up and the process goes on. *)
Theorem all_shows_ended_ends_the_run_only_for_a_reason (reason message : string)
    (w : World) :
  let es := fst (restyled is_display_connected (trace w) displays message) in
  let message' := snd (restyled is_display_connected (trace w) displays message) in
  all_shows_ended_callback displays is_display_connected reason message w
  = (if ends_the_run reason (pp w)
     then end_ reason message' (add_events es w)
     else Ok tt (add_events es w))
  /\ Forall (fun e => exists d, e = StyleBackground d) es
  /\ length es <= length displays
  /\ ends_the_run reason (set_terminate_required true (pp w)) = ends_the_run reason (pp w).
Proof.
  cbv zeta. split; [| split; [| split]].
  - apply all_shows_ended_callback_run.
  - apply restyled_are_backgrounds.
  - apply restyled_are_backgrounds.
  - destruct w as [d g t]. destruct d. reflexivity.
Qed.

End Ended.

Lemma all_shows_ended_ends_the_run_only_for_a_reason_witness :
  all_shows_ended_callback ["HDMI-1"] demo_display_connected "normal" "no shows running"
    (on_pp (set_terminate_required true) idle)
  = Ok tt (add_events [StyleBackground "HDMI-1"] (on_pp (set_terminate_required true) idle)).
Proof.
  destruct (all_shows_ended_ends_the_run_only_for_a_reason ["HDMI-1"]
              demo_display_connected "normal" "no shows running"
              (on_pp (set_terminate_required true) idle)) as [Hrun _].
  rewrite Hrun. reflexivity.
Defined.

(** *** Commands *)

Lemma split_not_blank (command_text f0 : string) (args : list string) :
  split command_text = f0 :: args -> blank command_text = false.
Proof.
  intros Hsplit. destruct (blank command_text) eqn:Hb; [| reflexivity].
  apply blank_iff_no_token in Hb. congruence.
Qed.

(** X14. A CEC command either runs exactly one shell command through
    [os.system] and returns 'normal', or runs nothing and returns 'error' with
    a message, or - for 'on' and 'standby' with more than one further argument,
    where [device] is never bound - raises UnboundLocalError having run
    nothing.  With exactly two arguments a command is run only if the second
    is all digits; a lone 'on' or 'standby' addresses device 0. *)
Theorem cec_command_runs_at_most_one_shell_command (args : list string) (w : World) :
  CecOutcome args w (handle_cec_command args w)
  /\ (length args = 2 -> isdigit (nth 1 args "") = false ->
      handle_cec_command args w = Ok ("error", "device is not a positive integer") w)
  /\ (forall verb, args = [verb] ->
      handle_cec_command args w
      = if mem verb ["scan"; "as"]
        then Ok ("normal", "")
               (add_events [OsSystem ("echo " ++ verb ++ " | cec-client -s -d 1")] w)
        else if mem verb ["on"; "standby"]
        then Ok ("normal", "")
               (add_events [OsSystem ("echo " ++ dquote ++ verb ++ " 0" ++ dquote
                                      ++ " | cec-client -s -d 1")] w)
        else Ok ("error", "Unknown CEC command: " ++ verb) w).
Proof.
  split; [| split].
  - destruct args as [| a0 [| a1 [| a2 rest]]]; unfold handle_cec_command.
    + apply cec_refused.
    + cbn [length Nat.eqb andb nth].
      destruct (String.eqb a0 "scan"); [apply cec_ran |].
      destruct (String.eqb a0 "as"); [apply cec_ran |].
      destruct (String.eqb a0 "on"); [apply cec_ran |].
      destruct (String.eqb a0 "standby"); [apply cec_ran | apply cec_refused].
    + cbn [length Nat.eqb andb nth].
      destruct (isdigit a1); cbn [negb]; [| apply cec_refused].
      destruct (String.eqb a0 "on"); [apply cec_ran |].
      destruct (String.eqb a0 "standby"); [apply cec_ran | apply cec_refused].
    + cbn [length Nat.eqb andb nth].
      destruct (String.eqb a0 "on") eqn:Hon.
      * apply cec_unbound; [cbn; lia |]. cbn [hd mem existsb]. rewrite Hon. reflexivity.
      * destruct (String.eqb a0 "standby") eqn:Hsb; [| apply cec_refused].
        apply cec_unbound; [cbn; lia |]. cbn [hd mem existsb]. rewrite Hon, Hsb. reflexivity.
  - intros Hlen Hdig. destruct args as [| a0 [| a1 [| a2 rest]]]; try discriminate Hlen.
    cbn [nth] in Hdig. unfold handle_cec_command. cbn [length Nat.eqb andb nth].
    rewrite Hdig. reflexivity.
  - intros verb ->. unfold handle_cec_command, mem. cbn [length Nat.eqb andb nth existsb].
    destruct (String.eqb_spec verb "scan") as [-> | _]; [reflexivity |].
    destruct (String.eqb_spec verb "as") as [-> | _]; [reflexivity |].
    cbn [orb].
    destruct (String.eqb_spec verb "on") as [-> | _]; [reflexivity |].
    destruct (String.eqb_spec verb "standby") as [-> | _]; reflexivity.
Qed.

Lemma cec_command_runs_at_most_one_shell_command_witness :
  handle_cec_command ["on"; "tv"] running
  = Ok ("error", "device is not a positive integer") running
  /\ handle_cec_command ["standby"] running
     = Ok ("normal", "")
          (add_events [OsSystem ("echo " ++ dquote ++ "standby 0" ++ dquote
                                 ++ " | cec-client -s -d 1")] running).
Proof.
  destruct (cec_command_runs_at_most_one_shell_command ["on"; "tv"] running)
    as [_ [Hdevice _]].
  destruct (cec_command_runs_at_most_one_shell_command ["standby"] running)
    as [_ [_ Hverb]].
  split.
  - apply Hdevice; reflexivity.
  - rewrite (Hverb "standby" eq_refl). reflexivity.
Defined.

Section MoreCommands.

Variable parse_osc_command : list Event -> list string -> string * string.
Variable parse_counter_command : list Event -> list string -> string * string.
Variable play_show_beep : list Event -> string -> string * string.
Variable play_show_vibe : list Event -> string -> string * string.
Variable do_backlight_command : list Event -> string -> string * string.
Variable handle_monitor_command : list Event -> list string -> string * string.
Variable parse_animate_fields :
  list Event -> string -> string * string * (string * string * string * list string).
Variable io_handle_output_event :
  list Event -> string -> string -> list string -> Z -> string * string.
Variable control_a_show :
  list Event -> list ShowEntry -> string -> string -> string * string * list ShowEntry.
Variable exit_all_shows : list Event -> list ShowEntry -> string * string * list ShowEntry.
Variable all_shows_exited : list ShowEntry -> bool.
Variable displays : list string.
Variable is_display_connected : list Event -> string -> string * string * string.

Local Abbreviation command :=
  (handle_command parse_osc_command parse_counter_command play_show_beep play_show_vibe
     do_backlight_command handle_monitor_command parse_animate_fields
     io_handle_output_event control_a_show exit_all_shows all_shows_exited).

Local Abbreviation input_event := (handle_input_event exit_all_shows all_shows_exited).

Local Abbreviation run_callback :=
  (callback parse_animate_fields io_handle_output_event exit_all_shows all_shows_exited
     displays is_display_connected).

Local Abbreviation fire :=
  (perform parse_osc_command parse_counter_command play_show_beep play_show_vibe
     do_backlight_command handle_monitor_command parse_animate_fields
     io_handle_output_event control_a_show exit_all_shows all_shows_exited
     displays is_display_connected).

(** X15. The show verbs 'open', 'close', 'closeall' and 'openexclusive' are
    dropped without a trace once a shutdown or a termination is pending; a
    pending reboot, exit or restart does not stop them.  Otherwise the show
    manager is asked once, with the first argument as the show reference (the
    empty string when there is none), its registry is taken over, and an
    'error' answer takes the error path. *)
Theorem show_commands_are_dropped_during_shutdown
    (command_text source show verb : string) (args : list string) (w : World) :
  split command_text = verb :: args ->
  mem verb show_verbs = true ->
  command command_text source show w
  = if shutdown_required (pp w) || terminate_required (pp w) then Ok tt w
    else
      let '(reason, message, sh') :=
        control_a_show (trace w) (shows (pp w)) (hd "" args) verb in
      command_result reason message
        (on_pp (set_shows sh') (add_events [ControlAShow (hd "" args) verb] w)).
Proof.
  intros Hsplit Hverb.
  pose proof (split_not_blank _ _ _ Hsplit) as Hblank.
  unfold handle_command. rewrite Hblank, Hsplit.
  assert (Hcase : verb = "open" \/ verb = "close" \/ verb = "closeall"
                  \/ verb = "openexclusive").
  { unfold mem, show_verbs in Hverb. cbn [existsb] in Hverb.
    repeat (apply orb_true_iff in Hverb; destruct Hverb as [Hverb | Hverb]);
      try discriminate Hverb; apply String.eqb_eq in Hverb; tauto. }
  replace (match args with a :: _ => a | [] => "" end) with (hd "" args)
    by (destruct args; reflexivity).
  destruct Hcase as [-> | [-> | [-> | ->]]];
    cbn [mem existsb String.eqb Ascii.eqb Bool.eqb orb];
    unfold bind, field, gets;
    destruct (shutdown_required (pp w)), (terminate_required (pp w)); cbn [negb andb orb];
    try reflexivity;
    unfold sm_control_a_show, bind, history, field, gets;
    destruct (control_a_show (trace w) (shows (pp w)) (hd "" args) _)
      as [[reason message] sh'];
    reflexivity.
Qed.

(** X16. An 'event' command is the input event its first argument names, from
    the source 'Show Control': a lifecycle symbol is treated as such, and any
    other symbol goes to every running show.  Without an argument the symbol
    is the empty string, which is broadcast like any other. *)
Theorem event_command_raises_an_input_event
    (command_text source show : string) (args : list string) (w : World) :
  split command_text = "event" :: args ->
  command command_text source show w = input_event (hd "" args) "Show Control" w
  /\ (mem (hd "" args) lifecycle_symbols = false ->
      command command_text source show w
      = Ok tt (add_events (deliveries (hd "" args) (shows (pp w))) w)).
Proof.
  intros Hsplit.
  pose proof (split_not_blank _ _ _ Hsplit) as Hblank.
  assert (Hrun : command command_text source show w
                 = input_event (hd "" args) "Show Control" w).
  { unfold handle_command. rewrite Hblank, Hsplit.
    cbn [mem existsb String.eqb Ascii.eqb Bool.eqb orb].
    destruct args; reflexivity. }
  split; [exact Hrun |].
  intros Hmem. rewrite Hrun.
  unfold mem, lifecycle_symbols in Hmem. cbn [existsb] in Hmem.
  repeat (apply orb_false_elim in Hmem; destruct Hmem as [? Hmem]).
  unfold handle_input_event.
  repeat match goal with H : String.eqb _ _ = false |- _ => rewrite H; clear H end.
  unfold bind, field, gets. apply broadcast_delivers.
Qed.

(** *** Deferred shutdown *)

Lemma shutdownnow_pressed_run (w : World) (id : nat) :
  shutdownnow_pressed_timer (pp w) = Val id ->
  shutdownnow_pressed exit_all_shows all_shows_exited displays is_display_connected w
  = (if all_shows_exited (shows (pp w))
     then all_shows_ended_callback displays is_display_connected "normal" "no shows running"
     else (fun w' => let '(reason, message, sh') := exit_all_shows (trace w') (shows (pp w')) in
                     Ok tt (on_pp (set_shows sh') (add_events [ExitAllShows] w'))))
      (on_pp (set_shutdown_required true)
         (mkWorld (pp w) (GLib.source_remove id (glib w)) (trace w))).
Proof.
  intros Hid. unfold shutdownnow_pressed, bind, attribute, getattr. rewrite Hid.
  unfold source_remove, upd, modify, sm_all_shows_exited, bind, field, gets, ret.
  change (shows (pp (on_pp (set_shutdown_required true)
                       (mkWorld (pp w) (GLib.source_remove id (glib w)) (trace w)))))
    with (shows (pp w)).
  destruct (all_shows_exited (shows (pp w))); [reflexivity |].
  unfold sm_exit_all_shows, bind, history, field, gets.
  destruct (exit_all_shows _ _) as [[reason message] sh']. reflexivity.
Qed.

(** X17. 'shutdownnow' - as a command or as the input event 'pp-shutdownnow' -
    does nothing in the call but arm a main-loop source: no intent changes and
    nothing is told to any collaborator.  The shutdown begins when the main
    loop fires that source: the intent is then recorded and, if shows are
    still running, they are asked to exit; if none is, the run ends at once -
    the displays are restyled, the peripherals tidied up, and unless a restart
    is pending the machine's shutdown command is run and the process exits
    with 100. *)
Theorem shutdownnow_is_deferred_to_the_main_loop
    (command_text source show : string) (args : list string) (w : World) :
  split command_text = "shutdownnow" :: args ->
  let id := GLib.next_id (glib w) in
  let w1 := deferred shutdownnow_pressed_cb set_shutdownnow_pressed_timer w in
  command command_text source show w = Ok tt w1
  /\ input_event "pp-shutdownnow" source w = Ok tt w1
  /\ intents_kept (pp w1) (pp w)
  /\ trace w1 = trace w
  /\ GLib.callback_of id (glib w1) = Some shutdownnow_pressed_cb
  /\ shutdown_required (pp (world_of (fire (op_timeout id) w1))) = true
  /\ (all_shows_exited (shows (pp w)) = false ->
      exists w2, fire (op_timeout id) w1 = Ok tt w2
                 /\ trace w2 = (trace w ++ [ExitAllShows])%list)
  /\ (all_shows_exited (shows (pp w)) = true ->
      restartpipresents_required (pp w) = false ->
      exists w2 es, fire (op_timeout id) w1 = Raise (SystemExit 100) w2
        /\ trace w2
           = (trace w ++ es ++ tidy_events (pp w)
              ++ MonFinish
                 :: (if reboot_required (pp w) then [SubprocessCall ["sudo"; "reboot"]] else [])
              ++ [SubprocessCall ["sudo"; "shutdown"; "now"; "SHUTTING DOWN"]])%list
        /\ Forall (fun e => exists d, e = StyleBackground d) es).
Proof.
  intros Hsplit. cbv zeta.
  pose proof (split_not_blank _ _ _ Hsplit) as Hblank.
  assert (Hfire : fire (op_timeout (GLib.next_id (glib w)))
                    (deferred shutdownnow_pressed_cb set_shutdownnow_pressed_timer w)
                  = match shutdownnow_pressed exit_all_shows all_shows_exited displays
                            is_display_connected
                            (deferred shutdownnow_pressed_cb set_shutdownnow_pressed_timer w)
                    with
                    | Ok a w' =>
                        Ok a (mkWorld (pp w')
                                (GLib.drop (GLib.next_id (glib w)) (glib w')) (trace w'))
                    | Raise e w' =>
                        Raise e (mkWorld (pp w')
                                   (GLib.drop (GLib.next_id (glib w)) (glib w')) (trace w'))
                    end).
  { unfold perform, deferred, GLib.callback_of, GLib.timeout_add, on_pp.
    cbn [glib snd GLib.sources find fst]. rewrite Nat.eqb_refl. reflexivity. }
  assert (Htimer : shutdownnow_pressed_timer
                     (pp (deferred shutdownnow_pressed_cb set_shutdownnow_pressed_timer w))
                   = Val (GLib.next_id (glib w))) by reflexivity.
  rewrite (shutdownnow_pressed_run _ _ Htimer) in Hfire.
  assert (Hshows : shows (pp (deferred shutdownnow_pressed_cb
                                set_shutdownnow_pressed_timer w)) = shows (pp w))
    by reflexivity.
  rewrite Hshows in Hfire.
  repeat match goal with |- _ /\ _ => split end.
  - unfold handle_command. rewrite Hblank, Hsplit.
    cbn [mem existsb String.eqb Ascii.eqb Bool.eqb orb]. reflexivity.
  - reflexivity.
  - destruct w as [d g t]. destruct d. unfold intents_kept. cbn. tauto.
  - reflexivity.
  - unfold deferred, GLib.callback_of, GLib.timeout_add, on_pp.
    cbn [glib snd GLib.sources find fst]. rewrite Nat.eqb_refl. reflexivity.
  - rewrite Hfire. destruct (all_shows_exited (shows (pp w))).
    + match goal with
      | |- context [all_shows_ended_callback ?ds ?idc ?r ?m ?W] =>
          pose proof (keeps_all_shows_ended_callback ds idc intents_stay
                        (fun w0 => intents_kept_refl (pp w0))
                        (fun w1 w2 w3 => intents_kept_trans (pp w1) (pp w2) (pp w3))
                        (fun e w0 _ => intents_kept_refl (pp w0)) r m W) as Hkept;
          destruct (all_shows_ended_callback ds idc r m W) as [a w' | e w']
      end; cbn [world_of pp] in *; apply Hkept; destruct w as [d g t]; destruct d;
        reflexivity.
    + destruct (exit_all_shows _ _) as [[reason message] sh'].
      destruct w as [d g t]. destruct d. reflexivity.
  - intros Hrunning. rewrite Hfire, Hrunning.
    destruct (exit_all_shows _ _) as [[reason message] sh'].
    eexists. split; [reflexivity |]. reflexivity.
  - intros Hnone Hrestart. rewrite Hfire, Hnone.
    rewrite all_shows_ended_callback_run.
    replace (ends_the_run "normal" _) with true
      by (destruct w as [d g t]; destruct d; reflexivity).
    rewrite end_run.
    destruct (restyled_are_backgrounds is_display_connected (trace w) displays
                "no shows running") as [Hstyle _].
    destruct w as [d g t]. destruct d. cbn [pp shows restartpipresents_required] in *.
    subst. unfold deferred, on_pp, add_events, exit_code, end_events, normal_end_events,
      exits_with, tidy_events.
    cbn -[restyled GLib.drop GLib.source_remove GLib.timeout_add app] in *.
    do 2 eexists. split; [reflexivity |]. split; [| exact Hstyle].
    cbn [trace]. rewrite <- !app_assoc. reflexivity.
Qed.

(** *** Animate lines *)

Lemma handle_output_event_run (symbol param_type : string) (param_values : list string)
    (req_time : Z) (w : World) :
  handle_output_event io_handle_output_event symbol param_type param_values req_time w
  = let '(reason, message) :=
      io_handle_output_event (trace w) symbol param_type param_values req_time in
    if String.eqb reason "error"
    then (if in_error_exit (pp w) then Raise (SystemExit 102) else Ok tt)
           (add_events (OutputEvent symbol param_type param_values req_time
                        :: err_events (pp w) message ++ error_end_events (pp w)) w)
    else Ok tt (add_events [OutputEvent symbol param_type param_values req_time] w).
Proof.
  unfold handle_output_event, bind, history, gets.
  destruct (io_handle_output_event (trace w) symbol param_type param_values req_time)
    as [reason message].
  unfold emit, modify. destruct (String.eqb_spec reason "error") as [-> | _]; [| reflexivity].
  unfold bind. rewrite mon_err_run, end_error_run.
  cbn [pp add_events]. unfold add_events. cbn [pp glib trace].
  rewrite <- !app_assoc. reflexivity.
Qed.

(** X18. An animate line its parser refuses is reported and ends the run with
    an 'error' end - but on a started dispatcher that end returns, and the
    line's output event, such as the parser left it, is then handed to the
    I/O plugin manager all the same, after the peripherals (the plugin manager
    among them) have been terminated.  Only during start-up does the error
    stop the line, with exit code 102.  This holds for the OSC route and for
    the 'animate' command alike. *)
Theorem refused_animate_line_still_reaches_the_plugins
    (line message delay name param_type : string) (param_values : list string)
    (w : World) :
  parse_animate_fields (trace w) line
  = ("error", message, (delay, name, param_type, param_values)) ->
  let reported := (err_events (pp w) message ++ error_end_events (pp w))%list in
  animate_line parse_animate_fields io_handle_output_event line w
  = (if in_error_exit (pp w)
     then Raise (SystemExit 102) (add_events reported w)
     else handle_output_event io_handle_output_event name param_type param_values 0
            (add_events reported w))
  /\ (in_error_exit (pp w) = false ->
      exists rest,
        trace (world_of (animate_line parse_animate_fields io_handle_output_event line w))
        = (trace w ++ reported ++ OutputEvent name param_type param_values 0 :: rest)%list)
  /\ (ioplugin_manager (pp w) = true -> In IoPluginTerminate reported).
Proof.
  intros Hparse. cbv zeta.
  assert (Hrun : animate_line parse_animate_fields io_handle_output_event line w
                 = (if in_error_exit (pp w)
                    then Raise (SystemExit 102)
                           (add_events (err_events (pp w) message
                                        ++ error_end_events (pp w)) w)
                    else handle_output_event io_handle_output_event name param_type
                           param_values 0
                           (add_events (err_events (pp w) message
                                        ++ error_end_events (pp w)) w))).
  { unfold animate_line, bind, history, gets. rewrite Hparse.
    cbn [String.eqb Ascii.eqb Bool.eqb].
    rewrite mon_err_run, end_error_run. cbn [pp add_events].
    destruct (in_error_exit (pp w)); rewrite add_events_app; reflexivity. }
  split; [exact Hrun |]. split.
  - intros Hstarted. rewrite Hrun, Hstarted, handle_output_event_run.
    destruct (io_handle_output_event _ name param_type param_values 0%Z)
      as [reason message'].
    destruct (String.eqb reason "error"); [destruct (in_error_exit _) |];
      cbn [world_of add_events trace]; rewrite <- app_assoc; eexists; reflexivity.
  - intros Hio. apply in_or_app. right. unfold error_end_events, tidy_events.
    rewrite Hio. apply in_or_app. left.
    apply in_or_app. right. apply in_or_app. right. left. reflexivity.
Qed.

Lemma animate_line_keeps_the_main_loop (line : string) (w : World) :
  glib (world_of (animate_line parse_animate_fields io_handle_output_event line w)) = glib w
  /\ pp (world_of (animate_line parse_animate_fields io_handle_output_event line w)) = pp w.
Proof.
  unfold animate_line, bind, history, gets.
  destruct (parse_animate_fields (trace w) line)
    as [[reason message] [[[delay name] param_type] param_values]].
  destruct (String.eqb_spec reason "error") as [-> | _].
  - rewrite mon_err_run, end_error_run. cbn [pp add_events].
    destruct (in_error_exit (pp w)); [split; reflexivity |].
    rewrite handle_output_event_run.
    destruct (io_handle_output_event _ name param_type param_values 0%Z)
      as [reason' message'].
    destruct (String.eqb reason' "error"); [destruct (in_error_exit _) |];
      split; reflexivity.
  - unfold ret. rewrite handle_output_event_run.
    destruct (io_handle_output_event _ name param_type param_values 0%Z)
      as [reason' message'].
    destruct (String.eqb reason' "error"); [destruct (in_error_exit _) |];
      split; reflexivity.
Qed.

Lemma removed_source_is_not_found {C : Type} (id : nat) (l : list (nat * (nat * C))) :
  find (fun s => Nat.eqb (fst s) id) (filter (fun s => negb (Nat.eqb (fst s) id)) l) = None.
Proof.
  induction l as [| s l IH]; [reflexivity |]. cbn [filter].
  destruct (Nat.eqb (fst s) id) eqn:Hs; cbn [negb]; [exact IH |].
  cbn [find]. rewrite Hs. exact IH.
Qed.

Lemma find_in_filter_none {A : Type} (p q : A -> bool) (l : list A) :
  find p l = None -> find p (filter q l) = None.
Proof.
  induction l as [| a l IH]; [reflexivity |]. cbn [find filter].
  destruct (p a) eqn:Hp; [discriminate |]. intros H.
  destruct (q a); [cbn [find]; rewrite Hp |]; apply IH; exact H.
Qed.

Lemma fired_world (id : nat) (cb : Callback) (w : World) :
  GLib.callback_of id (glib w) = Some cb ->
  world_of (fire (op_timeout id) w)
  = mkWorld (pp (world_of (run_callback cb w)))
            (GLib.drop id (glib (world_of (run_callback cb w))))
            (trace (world_of (run_callback cb w))).
Proof.
  intros Hcb. unfold perform. rewrite Hcb.
  destruct (run_callback cb w); reflexivity.
Qed.

(** X19. The OSC server's animate lines share one timer handle.  When a second
    line arrives before the main loop has run the first, both sources are
    armed but the handle names the second; the callback of the first line
    then cancels the source of the second instead of its own.  So the second
    line is never handled: once the first source has fired, the second is
    gone from the main loop - cancelled by [GLib.source_remove], which the
    first was not - and firing it does nothing. *)
Theorem second_queued_animate_line_is_lost (line1 line2 : string) (w : World) :
  let id1 := GLib.next_id (glib w) in
  let id2 := S id1 in
  let w2 := world_of (e_osc_handle_animate line2
                        (world_of (e_osc_handle_animate line1 w))) in
  let w3 := world_of (fire (op_timeout id1) w2) in
  handle_timer (pp w2) = Val id2
  /\ GLib.callback_of id1 (glib w2) = Some (osc_handle_animate_cb line1)
  /\ GLib.callback_of id2 (glib w2) = Some (osc_handle_animate_cb line2)
  /\ trace w2 = trace w
  /\ GLib.callback_of id2 (glib w3) = None
  /\ GLib.removed (glib w3) = id2 :: GLib.removed (glib w)
  /\ handle_timer (pp w3) = Val id2
  /\ fire (op_timeout id2) w3 = Ok tt w3.
Proof.
  cbv zeta.
  assert (Hne : forall n, Nat.eqb (S n) n = false)
    by (intros n; apply Nat.eqb_neq; lia).
  destruct w as [d g t]. destruct g as [nx src rm].
  pose (g2 := GLib.mk _ (S (S nx))
                ((S nx, (1, osc_handle_animate_cb line2))
                 :: (nx, (1, osc_handle_animate_cb line1)) :: src) rm).
  pose (d2 := set_handle_timer (Val (S nx)) (set_handle_timer (Val nx) d)).
  assert (Hw2 : world_of (e_osc_handle_animate line2
                            (world_of (e_osc_handle_animate line1
                                         {| pp := d; glib := GLib.mk _ nx src rm;
                                            trace := t |})))
                = mkWorld d2 g2 t) by reflexivity.
  rewrite Hw2. clear Hw2. cbn [glib GLib.next_id pp trace].
  assert (Htimer : handle_timer d2 = Val (S nx)) by (destruct d; reflexivity).
  assert (Hfirst : GLib.callback_of nx (glib (mkWorld d2 g2 t))
                   = Some (osc_handle_animate_cb line1)).
  { unfold GLib.callback_of, g2. cbn [glib GLib.sources find fst].
    rewrite Hne, Nat.eqb_refl. reflexivity. }
  assert (Hgone : GLib.callback_of (S nx) (GLib.drop nx (GLib.source_remove (S nx) g2))
                  = None).
  { unfold GLib.callback_of, GLib.drop, GLib.source_remove. cbn [GLib.sources].
    rewrite find_in_filter_none; [reflexivity |]. apply removed_source_is_not_found. }
  assert (Hrun : osc_handle_animate parse_animate_fields io_handle_output_event line1
                   (mkWorld d2 g2 t)
                 = animate_line parse_animate_fields io_handle_output_event line1
                     (mkWorld d2 (GLib.source_remove (S nx) g2) t)).
  { unfold osc_handle_animate, bind, attribute, getattr. cbn [pp]. rewrite Htimer.
    reflexivity. }
  split; [exact Htimer |]. split; [exact Hfirst |]. split.
  { unfold GLib.callback_of, g2. cbn [GLib.sources find fst]. rewrite Nat.eqb_refl.
    reflexivity. }
  split; [reflexivity |].
  rewrite (fired_world nx (osc_handle_animate_cb line1) (mkWorld d2 g2 t) Hfirst).
  cbn [callback]. rewrite Hrun. clear Hrun.
  destruct (animate_line_keeps_the_main_loop line1
              (mkWorld d2 (GLib.source_remove (S nx) g2) t)) as [Hglib Hpp].
  cbn [glib pp] in Hglib, Hpp.
  generalize dependent
    (world_of (animate_line parse_animate_fields io_handle_output_event line1
                 (mkWorld d2 (GLib.source_remove (S nx) g2) t))).
  intros w' Hglib Hpp. cbn [glib pp trace]. rewrite Hglib, Hpp.
  split; [exact Hgone |]. split; [reflexivity |]. split; [exact Htimer |].
  unfold perform. cbn [glib]. rewrite Hgone. reflexivity.
Qed.

End MoreCommands.

Lemma show_commands_are_dropped_during_shutdown_witness :
  demo_handle_command "close main" "" "menu" (on_pp (set_terminate_required true) running)
  = Ok tt (on_pp (set_terminate_required true) running)
  /\ demo_handle_command "close main" "" "menu" (on_pp (set_reboot_required true) running)
     = Ok tt (add_events [ControlAShow "main" "close"]
                (on_pp (set_reboot_required true) running)).
Proof.
  unfold demo_handle_command. split.
  - rewrite (show_commands_are_dropped_during_shutdown fine fine fine fine fine fine
               demo_animate_fields demo_output_event demo_control_a_show
               demo_exit_all_shows demo_all_shows_exited
               "close main" "" "menu" "close" ["main"]
               (on_pp (set_terminate_required true) running) eq_refl eq_refl).
    reflexivity.
  - rewrite (show_commands_are_dropped_during_shutdown fine fine fine fine fine fine
               demo_animate_fields demo_output_event demo_control_a_show
               demo_exit_all_shows demo_all_shows_exited
               "close main" "" "menu" "close" ["main"]
               (on_pp (set_reboot_required true) running) eq_refl eq_refl).
    vm_compute. reflexivity.
Defined.

Lemma event_command_raises_an_input_event_witness :
  demo_handle_command "event" "" "main" running
  = Ok tt (add_events [ShowInput "main" 1 ""; ShowInput "clock" 2 ""] running)
  /\ demo_handle_command "event pp-terminate" "" "main" running
     = demo_handle_input_event "pp-terminate" "Show Control" running.
Proof.
  unfold demo_handle_command, demo_handle_input_event.
  destruct (event_command_raises_an_input_event fine fine fine fine fine fine
              demo_animate_fields demo_output_event demo_control_a_show
              demo_exit_all_shows demo_all_shows_exited
              "event" "" "main" [] running eq_refl) as [_ Hbroadcast].
  destruct (event_command_raises_an_input_event fine fine fine fine fine fine
              demo_animate_fields demo_output_event demo_control_a_show
              demo_exit_all_shows demo_all_shows_exited
              "event pp-terminate" "" "main" ["pp-terminate"] running eq_refl)
    as [Hlifecycle _].
  split.
  - exact (Hbroadcast eq_refl).
  - exact Hlifecycle.
Defined.

Lemma shutdownnow_is_deferred_to_the_main_loop_witness :
  demo_handle_command "shutdownnow" "" "main" idle
  = Ok tt (deferred shutdownnow_pressed_cb set_shutdownnow_pressed_timer idle)
  /\ shutdown_required
       (pp (demo_run [op_handle_command "shutdownnow" "" "main"; op_timeout 1] idle)) = true.
Proof.
  destruct (shutdownnow_is_deferred_to_the_main_loop fine fine fine fine fine fine
              demo_animate_fields demo_output_event demo_control_a_show
              demo_exit_all_shows demo_all_shows_exited ["HDMI-1"] demo_display_connected
              "shutdownnow" "" "main" [] idle eq_refl)
    as [Hcommand [_ [_ [_ [_ [Hfired _]]]]]].
  unfold demo_handle_command. split; [exact Hcommand |].
  unfold demo_run, run.
  change (perform fine fine fine fine fine fine demo_animate_fields demo_output_event
            demo_control_a_show demo_exit_all_shows demo_all_shows_exited ["HDMI-1"]
            demo_display_connected (op_handle_command "shutdownnow" "" "main") idle)
    with (handle_command fine fine fine fine fine fine demo_animate_fields
            demo_output_event demo_control_a_show demo_exit_all_shows
            demo_all_shows_exited "shutdownnow" "" "main" idle).
  rewrite Hcommand.
  change (GLib.next_id (glib idle)) with 1 in Hfired.
  destruct (perform fine fine fine fine fine fine demo_animate_fields demo_output_event
              demo_control_a_show demo_exit_all_shows demo_all_shows_exited ["HDMI-1"]
              demo_display_connected (op_timeout 1)
              (deferred shutdownnow_pressed_cb set_shutdownnow_pressed_timer idle))
    as [a w' | [| | | | |] w']; exact Hfired.
Defined.

Example only_the_first_queued_line_is_handled :
  trace (demo_run [op_e_osc_handle_animate "out state on";
                   op_e_osc_handle_animate "led state on";
                   op_timeout 1; op_timeout 2] running)
  = [OutputEvent "out" "state" ["on"] 0].
Proof. vm_compute. reflexivity. Qed.

Lemma refused_animate_line_still_reaches_the_plugins_witness :
  exists rest,
    trace (world_of (animate_line bad_animate_fields demo_output_event "0 out" running))
    = (MonErr "bad animate line"
       :: Dialog "Profile Error" ("PiPresents" ++ newline ++ "bad animate line") 102
       :: DmTerminate :: AnimateTerminate :: IoPluginTerminate :: GcCollect :: LeakGraphs
       :: OutputEvent "" "" [] 0 :: rest)%list.
Proof.
  destruct (refused_animate_line_still_reaches_the_plugins bad_animate_fields
              demo_output_event "0 out" "bad animate line" "" "" "" [] running eq_refl)
    as [_ [Hstarted _]].
  destruct (Hstarted eq_refl) as [rest Htrace].
  exists rest. rewrite Htrace. reflexivity.
Defined.

(** *** Text beyond ASCII *)

(** A no-break space separates tokens as a space does. *)
Example no_break_space_separates_tokens :
  split ("open" ++ String (ascii_of_nat 160) "main") = ["open"; "main"]
  /\ demo_handle_command ("open" ++ String (ascii_of_nat 160) "main") "" "menu" running
     = Ok tt (add_events [ControlAShow "main" "open"] running)
  /\ demo_handle_command ("event pp-play" ++ String (ascii_of_nat 160) "x") "" "menu" running
     = Ok tt (add_events [ShowInput "main" 1 "pp-play"; ShowInput "clock" 2 "pp-play"]
                running).
Proof. repeat split; vm_compute; reflexivity. Qed.

(** A superscript digit passes [isdigit], so the command is run. *)
Example superscript_device_is_accepted :
  handle_cec_command ["on"; String (ascii_of_nat 178) ""] running
  = Ok ("normal", "")
       (add_events [OsSystem ("echo " ++ dquote ++ "on " ++ String (ascii_of_nat 178) ""
                              ++ dquote ++ " | cec-client -s -d 1")] running).
Proof. vm_compute. reflexivity. Qed.

End DispatcherMoreFacts.

(* ===================================================================== *)
(** * Properties of ending during start-up                             *)
(* ===================================================================== *)

Module StartupFacts.
Import Py Py.Notations Dispatcher DispatcherMore DispatcherFacts DispatcherMoreFacts.

Ltac startup_unfold :=
  cbv beta iota zeta delta
    [Startup.end_ Startup.tidy_up Startup.error_exit Startup.mon_log Startup.attribute
     Startup.emit Startup.created bind ret raise gets modify getattr
     Startup.self Startup.trace Startup.mon Startup.dm Startup.animate
     Startup.ioplugin_manager Startup.osc_enabled Startup.tod_enabled
     Startup.email_enabled Startup.email_on_terminate Startup.email_on_error
     Startup.in_error_exit Startup.restartpipresents_required Startup.reboot_required
     Startup.shutdown_required].

Lemma startup_end_run (reason message : string) (d : PiPresents) (t : list Event) :
  Startup.end_ reason message (Startup.mkWorld (Startup.created d) t)
  = Startup.exits_with (exit_code reason d)
      (Startup.mkWorld (Startup.created d) (t ++ end_events reason d)).
Proof.
  unfold Startup.exits_with, exit_code, end_events, killed_end_events, error_end_events, normal_end_events,
    tidy_events.
  destruct d. cbn [dm animate ioplugin_manager osc_enabled tod_enabled email_enabled
                   email_on_terminate email_on_error in_error_exit
                   restartpipresents_required reboot_required shutdown_required].
  startup_unfold.
  cbn [dm animate ioplugin_manager osc_enabled tod_enabled email_enabled
       email_on_terminate email_on_error in_error_exit
       restartpipresents_required reboot_required shutdown_required].
  destruct (String.eqb_spec reason "killed") as [-> | _];
    [| destruct (String.eqb_spec reason "error") as [-> | _]].
  - destruct dm0, animate0, ioplugin_manager0, osc_enabled0, tod_enabled0,
      email_enabled0, email_on_terminate0;
      cbn; rewrite <- ?app_assoc; reflexivity.
  - destruct dm0, animate0, ioplugin_manager0, osc_enabled0, tod_enabled0,
      email_enabled0, email_on_error0, in_error_exit0;
      cbn; rewrite <- ?app_assoc; reflexivity.
  - destruct dm0, animate0, ioplugin_manager0, osc_enabled0, tod_enabled0,
      restartpipresents_required0, reboot_required0, shutdown_required0;
      cbn; rewrite <- ?app_assoc; reflexivity.
Qed.

Lemma startup_end_needs_its_attributes (reason message : string) (a : Startup.Attributes)
    (t : list Event) :
  Startup.tidy_up_attribute_missing a = true ->
  exists name w',
    Startup.end_ reason message (Startup.mkWorld a t) = Raise (AttributeError name) w'.
Proof.
  intros Hmissing. destruct a as [m d an io os td ee et eo x rs rb sh].
  unfold Startup.tidy_up_attribute_missing in Hmissing.
  cbn [Startup.mon Startup.dm Startup.animate Startup.ioplugin_manager
       Startup.osc_enabled Startup.tod_enabled] in Hmissing.
  startup_unfold.
  destruct m as [| []]; [do 2 eexists; reflexivity |].
  destruct d as [| []]; [do 2 eexists; reflexivity | |];
    (destruct an as [| []]; [do 2 eexists; reflexivity | |];
     (destruct io as [| []]; [do 2 eexists; reflexivity | |];
      (destruct os as [| []]; [do 2 eexists; reflexivity | |];
       (destruct td as [| []]; [do 2 eexists; reflexivity | |];
        discriminate Hmissing)))).
Qed.

(** X11. [end] on a dispatcher all of whose attributes exist first tidies up
    the peripherals, then exits the process with 101 for 'killed', with 102
    for 'error' while [in_error_exit] is set, and with 100 for any other
    reason; it returns to its caller in two cases only, an 'error' with
    [in_error_exit] cleared and another reason with a restart pending, in
    which the application is asked to quit instead.  A pending restart takes
    precedence: neither the reboot nor the shutdown command is then run.  The
    message makes no difference, and the dispatcher's own [end] does the same.
    While one of the attributes [tidy_up] reads does not exist yet, [end]
    exits with no code at all: it raises AttributeError.  So the start-up
    error at line 152 (running as root) terminates the display manager and
    raises AttributeError for [animate], and the one at line 98 raises it for
    [mon] before anything is done. *)
Theorem end_exits_with_the_code_of_its_reason (reason message text : string)
    (t : list Event) :
  (forall d,
     Startup.end_ reason message (Startup.mkWorld (Startup.created d) t)
     = Startup.exits_with (exit_code reason d)
         (Startup.mkWorld (Startup.created d) (t ++ end_events reason d))
     /\ (forall g,
           Startup.outcome
             (Startup.end_ reason message (Startup.mkWorld (Startup.created d) t))
           = Startup.outcome (end_ reason message (mkWorld d g t))
           /\ Startup.trace
                (world_of (Startup.end_ reason message
                             (Startup.mkWorld (Startup.created d) t)))
              = trace (world_of (end_ reason message (mkWorld d g t))))
     /\ (exists rest, end_events reason d = (tidy_events d ++ rest)%list)
     /\ (restartpipresents_required d = true ->
         forall args, ~ In (SubprocessCall args) (end_events reason d)))
  /\ (forall a,
        Startup.tidy_up_attribute_missing a = true ->
        exists name w',
          Startup.end_ reason message (Startup.mkWorld a t)
          = Raise (AttributeError name) w')
  /\ Startup.error_exit text (Startup.mkWorld Startup.at_root_check t)
     = Raise (AttributeError "animate")
         (Startup.mkWorld Startup.at_root_check (t ++ [DmTerminate]))
  /\ Startup.error_exit text (Startup.mkWorld Startup.at_display_check t)
     = Raise (AttributeError "mon") (Startup.mkWorld Startup.at_display_check t).
Proof.
  split; [| split; [| split]].
  - intros d. split; [apply startup_end_run |]. split; [| split].
    + intros g. rewrite startup_end_run, end_run. cbn [pp].
      destruct (exit_code reason d); split; reflexivity.
    + unfold end_events, killed_end_events, error_end_events, normal_end_events.
      destruct (String.eqb reason "killed"); [eexists; reflexivity |].
      destruct (String.eqb reason "error"); eexists; reflexivity.
    + intros Hr args. unfold end_events, killed_end_events, error_end_events,
        normal_end_events, tidy_events. rewrite Hr.
      destruct (String.eqb reason "killed"), (String.eqb reason "error"),
        (dm d), (animate d), (ioplugin_manager d), (osc_enabled d),
        (tod_enabled d), (email_enabled d), (email_on_terminate d),
        (email_on_error d); cbn; intuition discriminate.
  - intros a. apply startup_end_needs_its_attributes.
  - reflexivity.
  - reflexivity.
Qed.

End StartupFacts.

(* ===================================================================== *)
(** * Properties of the mail routines                                     *)
(* ===================================================================== *)

Module MailFacts.
Import Py Py.Notations Mail.

Section Mailer.

Variable connect : list Call -> bool.
Variable send : list Call -> string -> string -> bool.
Variable disconnect : list Call -> bool.

Lemma attempts_after (h : list Call) (n : nat) :
  ((h ++ [Connect]) ++ attempts n = h ++ attempts (S n))%list.
Proof. rewrite <- app_assoc. reflexivity. Qed.

Lemma try_connect_loop_run (fuel tries : nat) (h : list Call) :
  1 <= tries <= 5 ->
  6 - tries <= fuel ->
  exists n,
    1 <= n <= 6 - tries
    /\ try_connect_loop connect fuel tries h
       = Ok (Some (connect (h ++ attempts (n - 1)))) (h ++ attempts n)%list
    /\ (forall k, k < n - 1 -> connect (h ++ attempts k) = false)
    /\ (connect (h ++ attempts (n - 1)) = false -> n = 6 - tries).
Proof.
  revert tries h. induction fuel as [| fuel IH]; intros tries h Htries Hfuel; [lia |].
  cbn [try_connect_loop]. unfold bind, mailer_connect.
  destruct (connect h) eqn:Hfirst.
  - exists 1. change (1 - 1) with 0. cbn [attempts repeat]. rewrite app_nil_r, Hfirst.
    split; [lia |]. split; [reflexivity |]. split; [intros k Hk; lia | discriminate].
  - destruct (5 <? S tries)%nat eqn:Hlast.
    + apply Nat.ltb_lt in Hlast.
      exists 1. change (1 - 1) with 0. cbn [attempts repeat]. rewrite app_nil_r, Hfirst.
      split; [lia |]. split; [reflexivity |]. split; [intros k Hk; lia | intros _; lia].
    + apply Nat.ltb_ge in Hlast.
      destruct (IH (S tries) (h ++ [Connect])%list) as [n [Hn [Hrun [Hbefore Hgave_up]]]];
        [lia | lia |].
      exists (S n).
      assert (Hpred : S n - 1 = S (n - 1)) by lia.
      rewrite Hpred, <- !attempts_after. split; [lia |]. split; [exact Hrun |]. split.
      * intros k Hk. destruct k as [| k].
        -- cbn [attempts repeat]. rewrite app_nil_r. exact Hfirst.
        -- rewrite <- attempts_after. apply Hbefore. lia.
      * intros Hfailed. specialize (Hgave_up Hfailed). lia.
Qed.

(** X20. [try_connect] always returns, after at least one and at most five
    calls of the mailer's [connect] and no other call on it.  It stops at the
    first attempt that succeeds, and its result is that of its last attempt:
    False means that five attempts in a row failed. *)
Theorem try_connect_gives_up_after_five_attempts (fuel : nat) (h : list Call) :
  5 <= fuel ->
  exists n,
    1 <= n <= 5
    /\ try_connect connect fuel h
       = Ok (Some (connect (h ++ attempts (n - 1)))) (h ++ attempts n)%list
    /\ (forall k, k < n - 1 -> connect (h ++ attempts k) = false)
    /\ (connect (h ++ attempts (n - 1)) = false -> n = 5).
Proof.
  intros Hfuel. unfold try_connect.
  destruct (try_connect_loop_run fuel 1 h) as [n [Hn [Hrun [Hbefore Hgave_up]]]];
    [lia | lia |].
  exists n. split; [lia |]. split; [exact Hrun |]. split; [exact Hbefore |].
  intros Hfailed. specialize (Hgave_up Hfailed). lia.
Qed.

(** X21. [send_email] always returns.  It sends the message at most once, and
    only on a connection that succeeded within five attempts; a message that
    was handed to the mailer is always followed by one [disconnect], whether
    the sending succeeded or not.  The result is True exactly when the
    connection and the sending both succeeded; what [disconnect] answers and
    the reason make no difference. *)
Theorem send_email_sends_once_and_disconnects
    (fuel : nat) (reason subject message : string) (h : list Call) :
  5 <= fuel ->
  exists n,
    1 <= n <= 5
    /\ send_email connect send disconnect fuel reason subject message h
       = (if connect (h ++ attempts (n - 1))
          then Ok (Some (send (h ++ attempts n) subject message))
                  (h ++ attempts n ++ [Send subject message; Disconnect])%list
          else Ok (Some false) (h ++ attempts n)%list)
    /\ (connect (h ++ attempts (n - 1)) = false -> n = 5).
Proof.
  intros Hfuel.
  destruct (try_connect_loop_run fuel 1 h) as [n [Hn [Hrun [_ Hgave_up]]]];
    [lia | lia |].
  exists n. split; [lia |]. split.
  - unfold send_email, bind, try_connect. rewrite Hrun.
    destruct (connect (h ++ attempts (n - 1))); [| reflexivity].
    unfold mailer_send, mailer_disconnect, ret.
    rewrite <- !app_assoc. reflexivity.
  - intros Hfailed. specialize (Hgave_up Hfailed). lia.
Qed.

End Mailer.

Lemma try_connect_gives_up_after_five_attempts_witness :
  exists n,
    1 <= n <= 5
    /\ try_connect third_time_lucky 5 []
       = Ok (Some (third_time_lucky ([] ++ attempts (n - 1)))) ([] ++ attempts n)%list
    /\ (forall k, k < n - 1 -> third_time_lucky ([] ++ attempts k) = false)
    /\ (third_time_lucky ([] ++ attempts (n - 1)) = false -> n = 5).
Proof.
  apply (try_connect_gives_up_after_five_attempts third_time_lucky 5 []). apply le_n.
Defined.

Example third_attempt_connects :
  try_connect third_time_lucky 5 [] = Ok (Some true) [Connect; Connect; Connect]
  /\ try_connect (fun _ => false) 5 []
     = Ok (Some false) [Connect; Connect; Connect; Connect; Connect]
  /\ try_connect (fun _ => false) 4 [] = Ok None [Connect; Connect; Connect; Connect].
Proof. repeat split. Qed.

Lemma send_email_sends_once_and_disconnects_witness :
  exists n,
    1 <= n <= 5
    /\ send_email third_time_lucky (fun _ _ _ => false) (fun _ => false) 5
         "error" "PP Exited with reason: Error" "Download log" []
       = (if third_time_lucky ([] ++ attempts (n - 1))
          then Ok (Some false)
                  ([] ++ attempts n
                   ++ [Send "PP Exited with reason: Error" "Download log"; Disconnect])%list
          else Ok (Some false) ([] ++ attempts n)%list)
    /\ (third_time_lucky ([] ++ attempts (n - 1)) = false -> n = 5).
Proof.
  apply (send_email_sends_once_and_disconnects third_time_lucky (fun _ _ _ => false)
           (fun _ => false) 5 "error" "PP Exited with reason: Error" "Download log" []).
  apply le_n.
Defined.

Example failed_sending_still_disconnects :
  send_email third_time_lucky (fun _ _ _ => false) (fun _ => false) 5
    "error" "PP Exited with reason: Error" "Download log" []
  = Ok (Some false)
       [Connect; Connect; Connect;
        Send "PP Exited with reason: Error" "Download log"; Disconnect].
Proof. reflexivity. Qed.

End MailFacts.

(* ===================================================================== *)
(** * Properties of the utilities                                         *)
(* ===================================================================== *)

Module UtilsFacts.
Import Py Utils.

(** *** Window rectangles *)

Lemma decimal_is_no_separator (c sep : ascii) :
  is_decimal c = true -> is_decimal sep = false -> Ascii.eqb c sep = false.
Proof.
  intros Hc Hsep. destruct (Ascii.eqb_spec c sep) as [-> |]; [congruence | reflexivity].
Qed.

Lemma decimal_is_not_whitespace (c : ascii) : is_decimal c = true -> is_whitespace c = false.
Proof.
  unfold is_decimal, is_whitespace. intros H.
  apply andb_prop in H. destruct H as [Hlo Hhi].
  apply Nat.leb_le in Hlo. apply Nat.leb_le in Hhi.
  repeat (apply orb_false_intro); try (apply Nat.eqb_neq; lia);
    apply andb_false_iff; right; apply Nat.leb_gt; lia.
Qed.

Lemma decimal_is_a_digit (c : ascii) : is_decimal c = true -> is_digit c = true.
Proof. unfold is_digit. intros ->. reflexivity. Qed.

Lemma decimal_is_ascii (c : ascii) : is_decimal c = true -> (nat_of_ascii c <? 128)%nat = true.
Proof.
  unfold is_decimal. intros H. apply andb_prop in H. destruct H as [_ Hhi].
  apply Nat.leb_le in Hhi. apply Nat.ltb_lt. lia.
Qed.

Lemma digit_not_decimal_is_not_ascii (c : ascii) :
  is_digit c = true -> is_decimal c = false -> (nat_of_ascii c <? 128)%nat = false.
Proof.
  unfold is_digit. intros Hd Hn. rewrite Hn in Hd. cbn [orb] in Hd.
  apply Nat.ltb_ge.
  repeat (apply orb_prop in Hd; destruct Hd as [Hd | Hd]); apply Nat.eqb_eq in Hd; lia.
Qed.

Lemma all_chars_app (p : ascii -> bool) (a b : string) :
  all_chars p (a ++ b) = all_chars p a && all_chars p b.
Proof.
  induction a as [| c a IH]; [reflexivity |]. cbn. rewrite IH. apply andb_assoc.
Qed.

Lemma contains_app (c : ascii) (a b : string) :
  contains c (a ++ b) = contains c a || contains c b.
Proof.
  induction a as [| c' a IH]; [reflexivity |]. cbn. rewrite IH. apply orb_assoc.
Qed.

Lemma decimals_contain_no (sep : ascii) (s : string) :
  is_decimal sep = false -> all_chars is_decimal s = true -> contains sep s = false.
Proof.
  intros Hsep. induction s as [| c s IH]; [reflexivity |]. cbn. intros H.
  apply andb_prop in H. destruct H as [Hc Hs].
  rewrite (decimal_is_no_separator c sep Hc Hsep). apply IH. exact Hs.
Qed.

Lemma split_on_nonempty (sep : ascii) (s : string) : split_on sep s <> [].
Proof.
  destruct s as [| c s]; cbn; [discriminate |].
  destruct (Ascii.eqb c sep); [discriminate |].
  destruct (split_on sep s); discriminate.
Qed.

Lemma split_on_none (sep : ascii) (s : string) :
  contains sep s = false -> split_on sep s = [s].
Proof.
  induction s as [| c s IH]; [reflexivity |]. cbn. intros H.
  apply orb_false_elim in H. destruct H as [Hc Hs].
  rewrite Hc, (IH Hs). reflexivity.
Qed.

Lemma split_on_first (sep : ascii) (a b : string) :
  contains sep a = false -> split_on sep (a ++ String sep b) = a :: split_on sep b.
Proof.
  induction a as [| c a IH]; cbn.
  - intros _. rewrite Ascii.eqb_refl. reflexivity.
  - intros H. apply orb_false_elim in H. destruct H as [Hc Ha].
    rewrite Hc, (IH Ha). reflexivity.
Qed.

Lemma decimal_all (s : string) : decimal s = true -> all_chars is_decimal s = true.
Proof. destruct s; [discriminate | exact (fun H => H)]. Qed.

Lemma decimal_isdigit (s : string) : decimal s = true -> isdigit s = true.
Proof.
  destruct s as [| c s]; [discriminate |]. unfold decimal, isdigit.
  generalize (String c s). clear. intros s. induction s as [| c s IH]; [reflexivity |].
  cbn. intros H. apply andb_prop in H. destruct H as [Hc Hs].
  rewrite (decimal_is_a_digit c Hc), (IH Hs). reflexivity.
Qed.

Lemma decimal_starts_a_window (s rest : string) :
  decimal s = true -> strip_is_empty (s ++ rest) = false.
Proof.
  destruct s as [| c s]; [discriminate |]. cbn. intros H.
  apply andb_prop in H. destruct H as [Hc _].
  rewrite (decimal_is_not_whitespace c Hc). reflexivity.
Qed.

Lemma plus_is_no_decimal : is_decimal plus_sign = false.
Proof. reflexivity. Qed.

Lemma star_is_no_decimal : is_decimal star_sign = false.
Proof. reflexivity. Qed.

Lemma split_on_keeps_ascii (sep : ascii) (s : string) :
  is_ascii s = true -> Forall (fun f => is_ascii f = true) (split_on sep s).
Proof.
  unfold is_ascii. induction s as [| c s IH]; cbn [all_chars split_on].
  - intros _. constructor; [reflexivity | constructor].
  - intros H. apply andb_prop in H. destruct H as [Hc Hs]. specialize (IH Hs).
    destruct (Ascii.eqb c sep).
    + constructor; [reflexivity | exact IH].
    + destruct (split_on sep s) as [| f rest].
      * constructor; [cbn [all_chars]; rewrite Hc; reflexivity | constructor].
      * inversion IH; subst.
        constructor; [cbn [all_chars]; rewrite Hc; assumption | assumption].
Qed.

Lemma split_on_fields_are_shorter (sep : ascii) (s : string) :
  Forall (fun f => String.length f <= String.length s) (split_on sep s).
Proof.
  induction s as [| c s IH]; cbn [split_on String.length].
  - constructor; [apply le_n | constructor].
  - destruct (Ascii.eqb c sep).
    + constructor; [cbn; lia |].
      apply (Forall_impl _ (fun f (H : String.length f <= String.length s) => le_S _ _ H) IH).
    + destruct (split_on sep s) as [| f rest].
      * constructor; [cbn; lia | constructor].
      * inversion IH; subst. constructor; [cbn [String.length]; lia |].
        apply (Forall_impl _ (fun f (H : String.length f <= String.length s) => le_S _ _ H)).
        assumption.
Qed.

Lemma value_from_nonnegative (s : string) (acc : Z) :
  all_chars is_decimal s = true -> (0 <= acc)%Z -> (0 <= value_from acc s)%Z.
Proof.
  revert acc. induction s as [| c s IH]; intros acc; cbn [value_from all_chars];
    [intros _ H; exact H |].
  intros H Hacc. apply andb_prop in H. destruct H as [Hc Hs].
  apply IH; [exact Hs |]. unfold is_decimal in Hc.
  apply andb_prop in Hc. destruct Hc as [Hlo _]. apply Nat.leb_le in Hlo. lia.
Qed.

Section IntLimit.

Variable limit : nat.

Lemma decimal_int (s : string) :
  decimal s = true -> within_limit limit s = true -> int limit s = Returns (value s).
Proof. intros H Hfits. unfold int. rewrite (decimal_all s H), Hfits. reflexivity. Qed.

Lemma within_limit_of_shorter (f s : string) :
  String.length f <= String.length s ->
  within_limit limit s = true -> within_limit limit f = true.
Proof.
  unfold within_limit. intros Hlen H.
  apply Bool.negb_true_iff in H. apply Bool.negb_true_iff.
  rewrite !Bool.andb_false_iff in *. rewrite !Nat.ltb_ge in *. lia.
Qed.

Lemma int_returns_nonnegative (s : string) (v : Z) : int limit s = Returns v -> (0 <= v)%Z.
Proof.
  unfold int. destruct (all_chars is_decimal s) eqn:H; [| discriminate].
  destruct (within_limit limit s); [| discriminate].
  intros [= <-]. apply value_from_nonnegative; [exact H | lia].
Qed.

Lemma int_raises_on_no_ascii_or_too_long (s : string) (e : Exn) :
  isdigit s = true -> int limit s = Raises e ->
  e = ValueError /\ (is_ascii s = false \/ within_limit limit s = false).
Proof.
  unfold int, is_ascii. intros Hd.
  destruct (all_chars is_decimal s) eqn:H.
  - destruct (within_limit limit s); [discriminate |].
    intros [= <-]. split; [reflexivity | right; reflexivity].
  - intros [= <-]. split; [reflexivity |]. left.
    assert (Hall : all_chars is_digit s = true) by (destruct s; [discriminate | exact Hd]).
    clear Hd. induction s as [| c s IH]; [discriminate |]. cbn [all_chars] in *.
    apply andb_prop in Hall. destruct Hall as [Hc Hs].
    destruct (is_decimal c) eqn:Hdec.
    + cbn [andb] in H. rewrite (IH H Hs). apply andb_false_r.
    + rewrite (digit_not_decimal_is_not_ascii c Hc Hdec). reflexivity.
Qed.

(** X22. A window written as decimal numbers in the form x+y+width*height is
    read back as those four numbers, and one written as width*height as the
    two numbers with x and y both -1; the status is 'normal' and the message
    empty.  Leading zeros are accepted.  Each number has to be within the
    interpreter's limit on the digits of an integer string. *)
Theorem parse_rectangle_reads_a_well_formed_window (x y width height : string) :
  decimal x = true -> decimal y = true -> decimal width = true -> decimal height = true ->
  within_limit limit x = true -> within_limit limit y = true ->
  within_limit limit width = true -> within_limit limit height = true ->
  parse_rectangle limit (x ++ "+" ++ y ++ "+" ++ width ++ "*" ++ height)
  = Returns ("normal", "", value x, value y, value width, value height)
  /\ parse_rectangle limit (width ++ "*" ++ height)
     = Returns ("normal", "", (-1)%Z, (-1)%Z, value width, value height).
Proof.
  intros Hx Hy Hw Hh Lx Ly Lw Lh.
  pose proof (decimals_contain_no plus_sign _ plus_is_no_decimal (decimal_all _ Hx)) as Hxp.
  pose proof (decimals_contain_no plus_sign _ plus_is_no_decimal (decimal_all _ Hy)) as Hyp.
  pose proof (decimals_contain_no plus_sign _ plus_is_no_decimal (decimal_all _ Hw)) as Hwp.
  pose proof (decimals_contain_no plus_sign _ plus_is_no_decimal (decimal_all _ Hh)) as Hhp.
  pose proof (decimals_contain_no star_sign _ star_is_no_decimal (decimal_all _ Hw)) as Hws.
  pose proof (decimals_contain_no star_sign _ star_is_no_decimal (decimal_all _ Hh)) as Hhs.
  assert (Hdims : split_on star_sign (width ++ "*" ++ height) = [width; height]).
  { change (width ++ "*" ++ height) with (width ++ String star_sign height).
    rewrite (split_on_first star_sign width height Hws), (split_on_none star_sign height Hhs).
    reflexivity. }
  assert (Hdims_plus : contains plus_sign (width ++ "*" ++ height) = false).
  { rewrite contains_app, Hwp. change ("*" ++ height) with (String star_sign height).
    cbn [contains orb]. rewrite Hhp. reflexivity. }
  split.
  - unfold parse_rectangle. rewrite (decimal_starts_a_window x _ Hx).
    change (x ++ "+" ++ y ++ "+" ++ width ++ "*" ++ height)
      with (x ++ String plus_sign (y ++ String plus_sign (width ++ "*" ++ height))).
    rewrite contains_app. cbn [contains]. rewrite Ascii.eqb_refl, orb_true_r.
    rewrite (split_on_first plus_sign x _ Hxp), (split_on_first plus_sign y _ Hyp),
      (split_on_none plus_sign _ Hdims_plus), Hdims.
    rewrite !decimal_isdigit, !decimal_int by assumption. reflexivity.
  - unfold parse_rectangle. rewrite (decimal_starts_a_window width _ Hw).
    rewrite Hdims_plus.
    assert (Hstar : contains star_sign (width ++ "*" ++ height) = true).
    { rewrite contains_app. change ("*" ++ height) with (String star_sign height).
      cbn [contains]. rewrite Ascii.eqb_refl, orb_true_r. reflexivity. }
    rewrite Hstar, Hdims. cbn [negb].
    rewrite !decimal_isdigit, !decimal_int by assumption. reflexivity.
Qed.

(** A result of [parse_rectangle] that is an error. *)
Ltac refused :=
  left; split; [reflexivity |]; split; [cbn; discriminate |];
  repeat split; reflexivity.

(** A call of [int] that raised, on a field of the text. *)
Ltac raised Hdigit Hint Hfields Hshort :=
  let Hwhy := fresh "Hwhy" in
  destruct (int_raises_on_no_ascii_or_too_long _ _ Hdigit Hint) as [-> Hwhy];
  split; [reflexivity |];
  match goal with
  | |- is_ascii ?t = false \/ within_limit limit ?t = false =>
      destruct (is_ascii t); [| left; reflexivity];
      destruct (within_limit limit t); [| right; reflexivity];
      exfalso; destruct (Hfields eq_refl) as [? [? [? ?]]];
      destruct (Hshort eq_refl) as [? [? [? ?]]];
      destruct Hwhy; congruence
  end.

(** X23. Whatever the text, [parse_rectangle] returns one of two shapes: the
    status 'error' with a message and all four numbers zero, or the status
    'normal' with an empty message, a width and a height that are not
    negative, and x and y that are both -1 when the text has no '+' and both
    not negative when it has one.  The only exception it raises is
    ValueError, from [int] on a field that [isdigit] let through: a
    superscript digit, which needs text that is not ASCII, or more digits
    than the interpreter's limit, which needs a text longer than that. *)
Theorem parse_rectangle_error_carries_no_numbers (text : string) :
  match parse_rectangle limit text with
  | Returns (status, message, x1, y1, width, height) =>
      (status = "error" /\ message <> ""
       /\ x1 = 0%Z /\ y1 = 0%Z /\ width = 0%Z /\ height = 0%Z)
      \/ (status = "normal" /\ message = "" /\ (0 <= width)%Z /\ (0 <= height)%Z
          /\ (if contains plus_sign text then (0 <= x1)%Z /\ (0 <= y1)%Z
              else x1 = (-1)%Z /\ y1 = (-1)%Z))
  | Raises e =>
      e = ValueError /\ (is_ascii text = false \/ within_limit limit text = false)
  end.
Proof.
  unfold parse_rectangle, rectangle_error.
  pose proof (split_on_keeps_ascii plus_sign text) as Hplus.
  pose proof (split_on_keeps_ascii star_sign text) as Hstar.
  pose proof (split_on_fields_are_shorter plus_sign text) as Lplus.
  pose proof (split_on_fields_are_shorter star_sign text) as Lstar.
  destruct (strip_is_empty text); [refused |].
  destruct (contains plus_sign text) eqn:Hp.
  - destruct (split_on plus_sign text) as [| f0 [| f1 [| f2 [| f3 r]]]]; try refused.
    pose proof (split_on_keeps_ascii star_sign f2) as Hf2.
    pose proof (split_on_fields_are_shorter star_sign f2) as Lf2.
    destruct (split_on star_sign f2) as [| d0 [| d1 [| d2 r]]]; try refused.
    assert (Hfields : is_ascii text = true ->
              is_ascii f0 = true /\ is_ascii f1 = true
              /\ is_ascii d0 = true /\ is_ascii d1 = true).
    { intros Ha. specialize (Hplus Ha).
      inversion Hplus as [| ? ? H0 Hrest]; subst.
      inversion Hrest as [| ? ? H1 Hrest']; subst.
      inversion Hrest' as [| ? ? H2 _]; subst.
      specialize (Hf2 H2).
      inversion Hf2 as [| ? ? H3 Hd]; subst. inversion Hd as [| ? ? H4 _]; subst.
      tauto. }
    assert (Hshort : within_limit limit text = true ->
              within_limit limit f0 = true /\ within_limit limit f1 = true
              /\ within_limit limit d0 = true /\ within_limit limit d1 = true).
    { intros Hl.
      inversion Lplus as [| ? ? H0 Hrest]; subst.
      inversion Hrest as [| ? ? H1 Hrest']; subst.
      inversion Hrest' as [| ? ? H2 _]; subst.
      inversion Lf2 as [| ? ? H3 Hd]; subst. inversion Hd as [| ? ? H4 _]; subst.
      repeat split; apply (within_limit_of_shorter _ text); try assumption; lia. }
    clear Hplus Hstar Hf2 Lplus Lstar Lf2.
    destruct (isdigit f0) eqn:D0; cbn [negb]; [| refused].
    destruct (int limit f0) as [x1 | e] eqn:I0; cbn [and_then];
      [| raised D0 I0 Hfields Hshort].
    destruct (isdigit f1) eqn:D1; cbn [negb]; [| refused].
    destruct (int limit f1) as [y1 | e] eqn:I1; cbn [and_then];
      [| raised D1 I1 Hfields Hshort].
    destruct (isdigit d0) eqn:D2; cbn [negb]; [| refused].
    destruct (int limit d0) as [width | e] eqn:I2; cbn [and_then];
      [| raised D2 I2 Hfields Hshort].
    destruct (isdigit d1) eqn:D3; cbn [negb]; [| refused].
    destruct (int limit d1) as [height | e] eqn:I3; cbn [and_then];
      [| raised D3 I3 Hfields Hshort].
    right. apply int_returns_nonnegative in I0, I1, I2, I3. tauto.
  - destruct (contains star_sign text); cbn [negb]; [| refused].
    destruct (split_on star_sign text) as [| d0 [| d1 [| d2 r]]]; try refused.
    assert (Hfields : is_ascii text = true ->
              is_ascii d0 = true /\ is_ascii d1 = true /\ True /\ True).
    { intros Ha. specialize (Hstar Ha).
      inversion Hstar as [| ? ? H0 Hrest]; subst.
      inversion Hrest as [| ? ? H1 _]; subst. tauto. }
    assert (Hshort : within_limit limit text = true ->
              within_limit limit d0 = true /\ within_limit limit d1 = true /\ True /\ True).
    { intros Hl.
      inversion Lstar as [| ? ? H0 Hrest]; subst.
      inversion Hrest as [| ? ? H1 _]; subst.
      repeat split; apply (within_limit_of_shorter _ text); assumption. }
    clear Hplus Hstar Lplus Lstar.
    destruct (isdigit d0) eqn:D0; cbn [negb]; [| refused].
    destruct (int limit d0) as [width | e] eqn:I0; cbn [and_then];
      [| raised D0 I0 Hfields Hshort].
    destruct (isdigit d1) eqn:D1; cbn [negb]; [| refused].
    destruct (int limit d1) as [height | e] eqn:I1; cbn [and_then];
      [| raised D1 I1 Hfields Hshort].
    right. apply int_returns_nonnegative in I0, I1. tauto.
Qed.

End IntLimit.

Lemma parse_rectangle_reads_a_well_formed_window_witness :
  parse_rectangle default_int_max_str_digits "100+020+1820*980"
  = Returns ("normal", "", 100%Z, 20%Z, 1820%Z, 980%Z)
  /\ parse_rectangle default_int_max_str_digits "1820*980"
     = Returns ("normal", "", (-1)%Z, (-1)%Z, 1820%Z, 980%Z).
Proof.
  apply (parse_rectangle_reads_a_well_formed_window default_int_max_str_digits
           "100" "020" "1820" "980"); reflexivity.
Defined.

(** The superscript two passes [isdigit], and [int] refuses it. *)
Example parse_rectangle_raises_on_a_superscript :
  parse_rectangle default_int_max_str_digits
    ("100+20+1820*98" ++ String (ascii_of_nat 178) "") = Raises ValueError
  /\ parse_rectangle default_int_max_str_digits "100+20+1820*98x"
     = Returns ("error", "height is not a positive integer: 100+20+1820*98x",
                0%Z, 0%Z, 0%Z, 0%Z)
  /\ parse_rectangle default_int_max_str_digits "100+20+1820"
     = Returns ("error", "Bad window form: 100+20+1820", 0%Z, 0%Z, 0%Z, 0%Z).
Proof. repeat split. Qed.

(** A width of 4301 digits is refused by an interpreter started with the
    defaults, one of 4300 digits is read; with the limit lifted both are
    read, and with the lowest limit there is, 641 digits are too many. *)
Example parse_rectangle_raises_beyond_the_limit :
  parse_rectangle default_int_max_str_digits (ones 4301 ++ "*2") = Raises ValueError
  /\ parse_rectangle default_int_max_str_digits (ones 4300 ++ "*2")
     = Returns ("normal", "", (-1)%Z, (-1)%Z, value (ones 4300), 2%Z)
  /\ parse_rectangle 0 (ones 4301 ++ "*2")
     = Returns ("normal", "", (-1)%Z, (-1)%Z, value (ones 4301), 2%Z)
  /\ parse_rectangle str_digits_check_threshold (ones 641 ++ "*2") = Raises ValueError
  /\ parse_rectangle str_digits_check_threshold (ones 640 ++ "*2")
     = Returns ("normal", "", (-1)%Z, (-1)%Z, value (ones 640), 2%Z)
  /\ is_ascii (ones 4301 ++ "*2") = true.
Proof. repeat split; vm_compute; reflexivity. Qed.

(** *** The monitor's report filter *)

Lemma within_keeps_a_common_bit (report a b : Z) :
  within a b -> Z.land report a <> 0%Z -> Z.land report b <> 0%Z.
Proof.
  unfold within. intros Hab Ha Hb. apply Ha.
  rewrite <- Hab, Z.land_assoc, (Z.land_comm report a), <- Z.land_assoc, Hb.
  apply Z.land_0_r.
Qed.

(** X24. Widening the levels, the list of classes or the in-code switch never
    silences a report: a report that is enabled stays enabled when the
    instance level and the global log level gain bits, classes are added and
    the switch is not turned off.  With no class listed and the switch off -
    the state [Monitor.init] leaves - no report is enabled, whatever the
    levels; and the report class 0 is never enabled. *)
Theorem enabled_only_grows_with_the_levels (m m' : Monitor) (r_class : string)
    (report : Z) :
  (within (this_class_level m) (this_class_level m') ->
   within (log_level m) (log_level m') ->
   incl (classes m) (classes m') ->
   (enable_in_code m = true -> enable_in_code m' = true) ->
   enabled m r_class report = true -> enabled m' r_class report = true)
  /\ (classes m = [] -> enable_in_code m = false -> enabled m r_class report = false)
  /\ enabled m r_class 0 = false.
Proof.
  split; [| split].
  - intros Hlevel Hlog Hclasses Hswitch. unfold enabled.
    destruct (negb (Z.land report (this_class_level m) =? 0)%Z && enable_in_code m)
      eqn:Hcode.
    + intros _. apply andb_prop in Hcode. destruct Hcode as [Hbit Hon].
      apply negb_true_iff, Z.eqb_neq in Hbit.
      apply (within_keeps_a_common_bit report _ _ Hlevel) in Hbit.
      apply Z.eqb_neq in Hbit. rewrite Hbit, (Hswitch Hon). reflexivity.
    + cbn [orb].
      destruct (negb (Z.land report (log_level m) =? 0)%Z
                && existsb (String.eqb r_class) (classes m)) eqn:Hglobal;
        [| discriminate].
      intros _. apply andb_prop in Hglobal. destruct Hglobal as [Hbit Hin].
      apply negb_true_iff, Z.eqb_neq in Hbit.
      apply (within_keeps_a_common_bit report _ _ Hlog) in Hbit.
      apply Z.eqb_neq in Hbit. rewrite Hbit.
      apply existsb_exists in Hin. destruct Hin as [c [Hc Heq]].
      assert (Hin' : existsb (String.eqb r_class) (classes m') = true)
        by (apply existsb_exists; exists c; split; [apply Hclasses; exact Hc | exact Heq]).
      rewrite Hin'. cbn [negb andb]. rewrite orb_true_r. reflexivity.
  - intros Hnone Hoff. unfold enabled. rewrite Hnone, Hoff.
    cbn [existsb]. rewrite !andb_false_r. reflexivity.
  - unfold enabled. rewrite !Z.land_0_l. reflexivity.
Qed.

Lemma enabled_only_grows_with_the_levels_witness :
  enabled (set_log_level (Z.lor m_fatal m_log)
             {| this_class_level := 0; log_level := m_trace;
                classes := ["MPVDriver"]; enable_in_code := true |})
          "MPVDriver" m_trace = true
  /\ enabled new_monitor "MPVDriver" m_fatal = false.
Proof.
  destruct (enabled_only_grows_with_the_levels
              {| this_class_level := m_fatal; log_level := m_trace;
                 classes := ["MPVDriver"]; enable_in_code := false |}
              (set_log_level (Z.lor m_fatal m_log)
                 {| this_class_level := 0; log_level := m_trace;
                    classes := ["MPVDriver"]; enable_in_code := true |})
              "MPVDriver" m_trace) as [Hgrow _].
  destruct (enabled_only_grows_with_the_levels new_monitor new_monitor "MPVDriver" m_fatal)
    as [_ [Hinit _]].
  split.
  - apply Hgrow; first [reflexivity | apply incl_refl | discriminate].
  - apply Hinit; reflexivity.
Defined.

End UtilsFacts.
